(** * Participants API (src/index.js): a shallow embedding and its properties

  The service is an Express application over one PostgreSQL table,
  [participants].  This development embeds

  - the pure helpers ([calculateFinalAverage], the UUID pattern of
    [validateUUID], [validateParticipantData], the pagination and
    sorting parameters of the list route),
  - the table as a finite map from primary key to row, with the
    [UNIQUE] constraint on [full_name] that the handlers catch as
    error code 23505,
  - the five CRUD handlers as functions from the request and the table
    to the response, the table afterwards and the list of SQL
    statements sent to the pool,

  and states the properties of the specification over them.

  Conventions.
  - A JavaScript number is an IEEE-754 binary64 value: Rocq's primitive
    [float], whose operations are the same round-to-nearest-even ones.
    The numbers of the list route ([page], [limit], [offset]) are
    integers or infinities; they are kept as such ([JsInteger.t]), each
    operation rounding to the nearest binary64 number as JavaScript
    does.
  - A JavaScript string is a sequence of code units; the model keeps
    the code units below 256 (Latin-1), one [ascii] each.  Message
    literals are opaque labels and are only compared for equality.
  - A NUMERIC or INTEGER column holds the number it was given: the
    driver prints a number and reads the column back as text, which
    [parseFloat] turns into the same double.  Only the sign of a zero
    does not survive this (-0 is printed "0"); a row keeps it here: no
    operation of the handlers tells the two zeros apart, and JSON does
    not print the sign either.
  - The connection pool always hands out a client and PostgreSQL fails
    only on the conditions modelled below (unique violation, a text
    parameter that holds the code unit 0, LIMIT or OFFSET out of
    range); loss of connectivity is outside the model. *)

From Stdlib Require Import ZArith QArith Qround Ascii String List Bool Lia.
From Stdlib Require Import Sorted Permutation.
From Stdlib Require Import PrimFloat FloatOps FloatAxioms SpecFloat Uint63.
From stdpp Require Import base option gmap strings list fin_maps.

Local Open Scope string_scope.
Local Open Scope Z_scope.

(** ** JavaScript strings *)

Module JsString.

Definition code (c : ascii) : N := N_of_ascii c.

(** WhiteSpace and LineTerminator code units below 256: TAB, LF, VT,
    FF, CR, SP and NBSP.  These are what [String.prototype.trim] and
    the leading-blank skipping of [parseInt] remove. *)
Definition isWhiteSpace (c : ascii) : bool :=
  let n := code c in
  ((9 <=? n) && (n <=? 13) || (n =? 32) || (n =? 160))%N.

Fixpoint trimStart (s : string) : string :=
  match s with
  | EmptyString => EmptyString
  | String c s' => if isWhiteSpace c then trimStart s' else s
  end.

Fixpoint trimEnd (s : string) : string :=
  match s with
  | EmptyString => EmptyString
  | String c s' =>
      match trimEnd s' with
      | EmptyString => if isWhiteSpace c then EmptyString else String c EmptyString
      | t => String c t
      end
  end.

(** [s.trim()] *)
Definition trim (s : string) : string := trimEnd (trimStart s).

(** Lower-case mapping of one code unit below 256: A-Z and the
    Latin-1 capitals U+00C0-U+00DE except the multiplication sign. *)
Definition lowerChar (c : ascii) : ascii :=
  let n := code c in
  if ((65 <=? n) && (n <=? 90)
      || (192 <=? n) && (n <=? 222) && negb (n =? 215))%N
  then ascii_of_N (n + 32) else c.

Fixpoint mapChars (f : ascii -> ascii) (s : string) : string :=
  match s with
  | EmptyString => EmptyString
  | String c s' => String (f c) (mapChars f s')
  end.

(** [s.toLowerCase()] *)
Definition toLowerCase (s : string) : string := mapChars lowerChar s.

(** [s.length] as an integer *)
Definition len (s : string) : Z := Z.of_nat (String.length s).

(** First and last code unit, for stating what trimming achieves. *)
Definition firstChar (s : string) : option ascii :=
  match s with EmptyString => None | String c _ => Some c end.

Fixpoint lastChar (s : string) : option ascii :=
  match s with
  | EmptyString => None
  | String c EmptyString => Some c
  | String _ s' => lastChar s'
  end.

Definition isWs (o : option ascii) : bool :=
  match o with Some c => isWhiteSpace c | None => false end.

(** A string has surrounding whitespace when its first or its last
    code unit is a whitespace one. *)
Definition surroundingWhitespace (s : string) : bool :=
  isWs (firstChar s) || isWs (lastChar s).

(** Every code unit of the string is a whitespace one. *)
Fixpoint allWhiteSpace (s : string) : bool :=
  match s with
  | EmptyString => true
  | String c s' => isWhiteSpace c && allWhiteSpace s'
  end.

(** [haystack.includes(needle)] *)
Fixpoint includes (needle haystack : string) : bool :=
  String.prefix needle haystack
  || match haystack with
     | EmptyString => false
     | String _ h' => includes needle h'
     end.

End JsString.

(** ** JavaScript numbers *)

Module JsNumber.

(** The double of an integer below 2^53 in magnitude. *)
Definition ofZ (z : Z) : float :=
  if z <? 0 then PrimFloat.opp (PrimFloat.of_uint63 (Uint63.of_Z (- z)))
  else PrimFloat.of_uint63 (Uint63.of_Z z).

Definition isNaN (x : float) : bool := PrimFloat.is_nan x.

(** [Number.isInteger(x)] for a number [x]: finite with no fractional
    part.  A finite non-zero double is [(-1)^s * m * 2^e]. *)
Definition isInteger (x : float) : bool :=
  match Prim2SF x with
  | S754_zero _ => true
  | S754_finite _ m e => (0 <=? e) || (Z.pos m mod 2 ^ (- e) =? 0)
  | _ => false
  end.

(** [Math.round(x)]: the integer nearest to [x], ties towards
    +Infinity; NaN, the infinities, the zeros and integers are
    returned unchanged, and a result of zero keeps the sign of [x]. *)
Definition round (x : float) : float :=
  match Prim2SF x with
  | S754_finite s m e =>
      if 0 <=? e then x
      else
        let d := 2 ^ (- e) in
        let n := if s then Z.neg m else Z.pos m in
        let k := (2 * n + d) / (2 * d) in
        if k =? 0 then (if s then PrimFloat.neg_zero else PrimFloat.zero)
        else ofZ k
  | _ => x
  end.

(** The exact value of a finite double (0 for NaN and the infinities). *)
Definition toQ (x : float) : Q :=
  match Prim2SF x with
  | S754_finite s m e =>
      let n := if s then Z.neg m else Z.pos m in
      if 0 <=? e then inject_Z (n * 2 ^ e)
      else Qmake n (Z.to_pos (2 ^ (- e)))
  | _ => 0%Q
  end.

(** [parseFloat(x)] for a number [x], or for the text PostgreSQL
    returns for a NUMERIC column holding [x]: the number is printed
    and read back, which yields [x] again except that -0 prints as "0". *)
Definition parseFloat (x : float) : float :=
  if PrimFloat.eqb x PrimFloat.zero then PrimFloat.zero else x.

End JsNumber.

(** ** Integers among the JavaScript numbers *)

Module JsInteger.

(** The numbers that [parseInt] returns and that the list route
    computes from them: a binary64 number that is an integer, kept as
    that integer (both zeros as 0), an infinity, or NaN. *)
Inductive t :=
| Int (z : Z)
| Inf (negative : bool)
| NaN.

(** The binary64 number nearest to an integer [a] of 2^53 or more: [a]
    is cut to its 53 leading bits, the rest deciding whether the last
    of them goes up; half-way it goes to the even side. *)
Definition nearest (a : Z) : Z :=
  let e := Z.log2 a - 52 in
  let m := a / 2 ^ e in
  let r := a mod 2 ^ e in
  (if (2 ^ e <? 2 * r) || ((2 * r =? 2 ^ e) && Z.odd m) then m + 1 else m)
  * 2 ^ e.

(** The number that an integer becomes: itself below 2^53 in
    magnitude, where every integer is a binary64 number, the nearest
    binary64 number above, and an infinity once that would be 2^1024. *)
Definition round (z : Z) : t :=
  if Z.abs z <? 2 ^ 53 then Int z
  else if 2 ^ 1024 <=? nearest (Z.abs z) then Inf (z <? 0)
       else Int (Z.sgn z * nearest (Z.abs z)).

Definition eqb (x y : t) : bool :=
  match x, y with
  | Int a, Int b => a =? b
  | Inf s, Inf s' => Bool.eqb s s'
  | _, _ => false
  end.

(** The numbers that count as false: the zeros and NaN. *)
Definition falsy (x : t) : bool :=
  match x with
  | Int z => z =? 0
  | Inf _ => false
  | NaN => true
  end.

(** [x || fallback] *)
Definition orElse (x fallback : t) : t := if falsy x then fallback else x.

(** [x - y] *)
Definition sub (x y : t) : t :=
  match x, y with
  | Int a, Int b => round (a - b)
  | Inf s, Int _ => Inf s
  | Int _, Inf s => Inf (negb s)
  | Inf s, Inf s' => if Bool.eqb s s' then NaN else Inf s
  | _, _ => NaN
  end.

(** [x * y] *)
Definition mul (x y : t) : t :=
  match x, y with
  | Int a, Int b => round (a * b)
  | Inf s, Int b | Int b, Inf s =>
      if b =? 0 then NaN else Inf (xorb s (b <? 0))
  | Inf s, Inf s' => Inf (xorb s s')
  | _, _ => NaN
  end.

(** [x < y] *)
Definition ltb (x y : t) : bool :=
  match x, y with
  | Int a, Int b => a <? b
  | Inf s, Inf s' => s && negb s'
  | Inf s, Int _ => s
  | Int _, Inf s => negb s
  | _, _ => false
  end.

(** [x <= y] *)
Definition leb (x y : t) : bool :=
  match x, y with
  | NaN, _ | _, NaN => false
  | _, _ => negb (ltb y x)
  end.

(** [Math.min(x, y)] *)
Definition min (x y : t) : t :=
  match x, y with
  | NaN, _ | _, NaN => NaN
  | _, _ => if ltb y x then y else x
  end.

(** [x < 0] *)
Definition negative (x : t) : bool := ltb x (Int 0).

(** How JavaScript prints a number: with as few significant digits as
    still denote that number and no other, and of the texts that short
    the one nearest to it.  For an integer [z] the text ends in zeros:
    [candidate z p] is the multiple of the power of ten [p] that would
    be printed, if a multiple of [p] still rounds to [z]. *)
Definition candidate (z p : Z) : option Z :=
  let below := z / p * p in
  let above := below + p in
  match eqb (round below) (Int z), eqb (round above) (Int z) with
  | true, true =>
      if (z - below <? above - z)
         || ((z - below =? above - z) && Z.even (below / p))
      then Some below else Some above
  | true, false => Some below
  | false, true => Some above
  | false, false => None
  end.

Fixpoint shortest (zeros : nat) (z : Z) : Z :=
  match zeros with
  | O => z
  | S fewer =>
      match candidate z (10 ^ Z.of_nat zeros) with
      | Some c => c
      | None => shortest fewer z
      end
  end.

(** The integer that the digits printed for a binary64 integer
    [z >= 0] denote: [z] itself below 2^53; above, for instance,
    9223372036854776000 for 2^63 = 9223372036854775808. *)
Definition printed (z : Z) : Z :=
  if z <? 2 ^ 53 then z else shortest 21 z.

End JsInteger.

(** ** The average (index.js, [calculateFinalAverage]) *)

(** Either the rounded average or the message of the thrown [Error]. *)
Definition calculateFinalAverage (firstSemester secondSemester : float)
  : string + float :=
  let first := JsNumber.parseFloat firstSemester in
  let second := JsNumber.parseFloat secondSemester in
  if JsNumber.isNaN first || JsNumber.isNaN second
  then inl "Notas devem ser números válidos"
  else inr (PrimFloat.div
              (JsNumber.round
                 (PrimFloat.mul
                    (PrimFloat.div (PrimFloat.add first second) 2%float)
                    100%float))
              100%float).

(** ** The identifier pattern (index.js, [validateUUID]) *)

Module Uuid.

Definition between (lo hi : N) (c : ascii) : bool :=
  ((lo <=? JsString.code c) && (JsString.code c <=? hi))%N.

(** [[0-9a-f]] under the [i] flag *)
Definition hex (c : ascii) : bool :=
  between 48 57 c || between 97 102 c || between 65 70 c.

(** [[1-5]] *)
Definition version (c : ascii) : bool := between 49 53 c.

(** [[89ab]] under the [i] flag *)
Definition variant (c : ascii) : bool :=
  between 56 57 c || between 97 98 c || between 65 66 c.

Definition dash (c : ascii) : bool := (JsString.code c =? 45)%N.

(** An anchored pattern [^ c1 c2 ... cn $] is a list of character
    classes; it matches the strings of exactly that length whose code
    units are each in their class. *)
Fixpoint matches (classes : list (ascii -> bool)) (s : string) : bool :=
  match classes, s with
  | [], EmptyString => true
  | cl :: classes', String c s' => cl c && matches classes' s'
  | _, _ => false
  end.

(** [/^[0-9a-f]{8}-[0-9a-f]{4}-[1-5][0-9a-f]{3}-[89ab][0-9a-f]{3}-[0-9a-f]{12}$/i] *)
Definition uuidRegex : list (ascii -> bool) :=
  replicate 8 hex ++ [dash] ++
  replicate 4 hex ++ [dash] ++
  [version] ++ replicate 3 hex ++ [dash] ++
  [variant] ++ replicate 3 hex ++ [dash] ++
  replicate 12 hex.

Definition test (id : string) : bool := matches uuidRegex id.

(** The plain 8-4-4-4-12 grouping of hexadecimal digits, with no
    condition on any particular digit. *)
Definition grouping : list (ascii -> bool) :=
  replicate 8 hex ++ [dash] ++
  replicate 4 hex ++ [dash] ++
  replicate 4 hex ++ [dash] ++
  replicate 4 hex ++ [dash] ++
  replicate 12 hex.

Definition shaped (id : string) : bool := matches grouping id.

End Uuid.

(** ** Requests and responses *)

(** A value of the parsed JSON body, or [undefined] for a property the
    body does not have.  [JObject] stands for arrays and objects. *)
Inductive jsval :=
| JUndefined
| JNull
| JBool (b : bool)
| JNum (x : float)
| JStr (s : string)
| JObject.

(** [const { full_name, age, first_semester, second_semester } = req.body] *)
Module Body.
Record t := make {
  full_name : jsval;
  age : jsval;
  first_semester : jsval;
  second_semester : jsval
}.
End Body.

(** A row of [participants] without its primary key (the key of the
    finite map) and without the two timestamps, which no statement of
    the handlers reads or sets. *)
Record row := Row {
  full_name : string;
  age : float;
  first_semester : float;
  second_semester : float;
  final_average : float
}.

(** The table: primary key [id] to row. *)
Abbreviation table := (gmap string row).

(** What [res.json] or [res.send] is given. *)
Inductive payload :=
| Error (error : string)
| ErrorDetails (error : string) (details : list string)
| Participant (id : string) (r : row)
| Page (data : list (string * row)) (page limit : JsInteger.t)
    (total totalPages : Z)
| Empty.

Record response := Response { status : Z; body : payload }.

(** The statements a handler sends through [client.query], in order. *)
Inductive statement :=
| SelectPage (sortBy sortOrder : string) (limit offset : JsInteger.t)
| SelectCount
| SelectById (id : string)
| SelectIdByLowerName (name : string)
| SelectIdByLowerNameExcept (name id : string)
| InsertReturning (r : row)
| UpdateReturning (r : row) (id : string)
| DeleteReturning (id : string).

(** A handled request: the response, the table afterwards and the
    statements sent. *)
Record outcome := Outcome {
  response_of : response;
  table_of : table;
  statements_of : list statement
}.

Definition reply (code : Z) (p : payload) (db : table) (sent : list statement)
  : outcome :=
  Outcome (Response code p) db sent.

(** [validateUUID]: [Some] response when the middleware answers itself,
    [None] when it calls [next()]. *)
Definition validateUUID (id : string) : option response :=
  if String.eqb id "" then Some (Response 400 (Error "ID é obrigatório"))
  else if negb (Uuid.test id)
       then Some (Response 400 (Error "ID deve ser um UUID válido"))
       else None.

(** ** Body validation (index.js, [validateParticipantData]) *)

Definition nameErrors (v : jsval) : list string :=
  match v with
  | JUndefined => []
  | JStr s =>
      if JsString.len (JsString.trim s) =? 0
      then ["full_name deve ser uma string não vazia"]
      else if 255 <? JsString.len (JsString.trim s)
           then ["full_name deve ter no máximo 255 caracteres"]
           else []
  | _ => ["full_name deve ser uma string não vazia"]
  end.

Definition ageErrors (v : jsval) : list string :=
  match v with
  | JUndefined => []
  | JNum x =>
      if negb (JsNumber.isInteger x) || PrimFloat.leb x 0%float
         || PrimFloat.ltb 150%float x
      then ["age deve ser um número inteiro entre 1 e 150"]
      else []
  | _ => ["age deve ser um número inteiro entre 1 e 150"]
  end.

Definition scoreErrors (field : string) (v : jsval) : list string :=
  match v with
  | JUndefined => []
  | JNum x =>
      if PrimFloat.ltb x 0%float || PrimFloat.ltb 10%float x
      then [field ++ " deve ser um número entre 0 e 10"]
      else []
  | _ => [field ++ " deve ser um número entre 0 e 10"]
  end.

(** The [errors] array; the middleware answers 400 when it is not empty. *)
Definition validateParticipantData (b : Body.t) : list string :=
  nameErrors (Body.full_name b) ++ ageErrors (Body.age b)
  ++ scoreErrors "first_semester" (Body.first_semester b)
  ++ scoreErrors "second_semester" (Body.second_semester b).

(** Once [validateParticipantData] has let a body through, each of the
    four properties is either absent or of the type checked; the
    handlers read them through this view (lemma [checked_faithful]
    shows that nothing is lost). *)
Module Checked.
Record t := make {
  full_name : option string;
  age : option float;
  first_semester : option float;
  second_semester : option float
}.
End Checked.

Definition asString (v : jsval) : option string :=
  match v with JStr s => Some s | _ => None end.

Definition asNumber (v : jsval) : option float :=
  match v with JNum x => Some x | _ => None end.

Definition checked (b : Body.t) : Checked.t :=
  Checked.make (asString (Body.full_name b)) (asNumber (Body.age b))
    (asNumber (Body.first_semester b)) (asNumber (Body.second_semester b)).

(** ** The table and its statements *)

Module Sql.

(** [LOWER(text)]: on code units below 256 the database lower-cases the
    same letters as [toLowerCase]. *)
Definition LOWER (s : string) : string :=
  JsString.mapChars JsString.lowerChar s.

(** The column [id] has type [uuid]: a text that matches the pattern of
    [validateUUID] denotes the same value whatever the case of its
    digits, and PostgreSQL prints the value with lower-case digits.
    The keys of the table are these printed values. *)
Definition uuid (text : string) : string :=
  JsString.mapChars JsString.lowerChar text.

(** A parameter for a column of type [text]: PostgreSQL refuses a
    string that holds the code unit 0 (error 22021, invalid byte
    sequence), whatever the statement. *)
Fixpoint text (s : string) : bool :=
  match s with
  | EmptyString => true
  | String c s' => negb (JsString.code c =? 0)%N && text s'
  end.

(** [SELECT * FROM participants WHERE id = $1] *)
Definition selectById (id : string) (db : table) : list (string * row) :=
  match db !! uuid id with
  | Some r => [(uuid id, r)]
  | None => []
  end.

(** [SELECT id FROM participants WHERE LOWER(full_name) = LOWER($1)] *)
Definition selectIdByLowerName (name : string) (db : table) : list string :=
  (filter (fun ir => LOWER (full_name ir.2) = LOWER name) (map_to_list db)).*1.

(** [... WHERE LOWER(full_name) = LOWER($1) AND id != $2] *)
Definition selectIdByLowerNameExcept (name id : string) (db : table)
  : list string :=
  (filter (fun ir => LOWER (full_name ir.2) = LOWER name /\ ir.1 <> uuid id)
     (map_to_list db)).*1.

(** [full_name TEXT NOT NULL UNIQUE]: the ids of the rows, other than
    [self], that already hold exactly this name. *)
Definition holdersOf (name : string) (self : string) (db : table)
  : list string :=
  (filter (fun ir => full_name ir.2 = name /\ ir.1 <> self)
     (map_to_list db)).*1.

(** [INSERT ... VALUES (gen_random_uuid(), ...) RETURNING *], where
    [newId] is the value drawn by [gen_random_uuid()], as printed.
    [None] is the unique violation (code 23505) of the primary key or
    of [full_name]. *)
Definition insert (newId : string) (r : row) (db : table) : option table :=
  match db !! newId, holdersOf (full_name r) newId db with
  | None, [] => Some (<[newId := r]> db)
  | _, _ => None
  end.

(** [UPDATE participants SET ... WHERE id = $6 RETURNING *] for an
    existing [id]; [None] is the unique violation of [full_name]. *)
Definition update (id : string) (r : row) (db : table) : option table :=
  match holdersOf (full_name r) (uuid id) db with
  | [] => Some (<[uuid id := r]> db)
  | _ => None
  end.

(** [DELETE FROM participants WHERE id = $1 RETURNING id] *)
Definition deleteReturning (id : string) (db : table) : list string * table :=
  match db !! uuid id with
  | Some _ => ([uuid id], delete (uuid id) db)
  | None => ([], db)
  end.

(** Comparison of two rows on an [ORDER BY] column: text by code unit,
    numbers numerically. *)
Definition columnLe (column : string) (a b : string * row) : bool :=
  if String.eqb column "full_name" then String.leb (full_name a.2) (full_name b.2)
  else if String.eqb column "age" then PrimFloat.leb (age a.2) (age b.2)
  else if String.eqb column "first_semester"
       then PrimFloat.leb (first_semester a.2) (first_semester b.2)
  else if String.eqb column "second_semester"
       then PrimFloat.leb (second_semester a.2) (second_semester b.2)
  else PrimFloat.leb (final_average a.2) (final_average b.2).

Fixpoint insertOrdered (le : string * row -> string * row -> bool)
  (x : string * row) (l : list (string * row)) : list (string * row) :=
  match l with
  | [] => [x]
  | y :: l' => if le x y then x :: l else y :: insertOrdered le x l'
  end.

Definition orderBy (column sortOrder : string) (l : list (string * row))
  : list (string * row) :=
  let le := if String.eqb sortOrder "DESC"
            then (fun a b => columnLe column b a)
            else columnLe column in
  foldr (insertOrdered le) [] l.

(** What it is for [a] to come before [b] in that order. *)
Definition orderOf (column sortOrder : string) (a b : string * row) : bool :=
  if String.eqb sortOrder "DESC" then columnLe column b a
  else columnLe column a b.

(** The row count PostgreSQL reads from a number given for LIMIT or
    OFFSET.  The driver sends the number as JavaScript prints it, and
    the text has to be a [bigint]: [None] for [Infinity], [-Infinity]
    and [NaN], for digits that denote 2^63 or more (from 10^21 on
    JavaScript prints an exponent, which is refused as well), and for
    a negative count, which LIMIT and OFFSET do not take. *)
Definition rowCount (x : JsInteger.t) : option Z :=
  match x with
  | JsInteger.Int z =>
      if (z <? 0) || (2 ^ 63 <=? JsInteger.printed z) then None
      else Some (JsInteger.printed z)
  | _ => None
  end.

(** [SELECT * FROM participants ORDER BY col ord LIMIT $1 OFFSET $2];
    [None] when PostgreSQL refuses the LIMIT or the OFFSET. *)
Definition selectPage (column sortOrder : string)
  (limit offset : JsInteger.t) (db : table)
  : option (list (string * row)) :=
  match rowCount limit, rowCount offset with
  | Some l, Some o =>
      Some (take (Z.to_nat l)
              (drop (Z.to_nat o) (orderBy column sortOrder (map_to_list db))))
  | _, _ => None
  end.

(** [SELECT COUNT( * ) FROM participants] *)
Definition count (db : table) : Z := Z.of_nat (size db).

End Sql.

(** ** Query parameters of the list route *)

Module Query.

(** [req.query]: each parameter is a string or absent. *)
Record t := make {
  page : option string;
  limit : option string;
  sortBy : option string;
  sortOrder : option string
}.

(** The value of a digit in the given radix, if it is one. *)
Definition digit (radix : Z) (c : ascii) : option Z :=
  let n := Z.of_N (JsString.code c) in
  let v := if (48 <=? n) && (n <=? 57) then n - 48
           else if (97 <=? n) && (n <=? 122) then n - 87
           else if (65 <=? n) && (n <=? 90) then n - 55
           else radix in
  if v <? radix then Some v else None.

(** The longest prefix of digits, read in the radix; [acc] is the value
    read so far, [None] while no digit has been seen. *)
Fixpoint digits (radix : Z) (s : string) (acc : option Z) : option Z :=
  match s with
  | EmptyString => acc
  | String c s' =>
      match digit radix c with
      | Some d => digits radix s' (Some (radix * default 0 acc + d))
      | None => acc
      end
  end.

(** The integer that [parseInt(v)], with no radix argument, reads from
    the text, exactly; [None] when it reads no digit.  An absent
    parameter is [undefined], whose text has no digit. *)
Definition mathInt (v : option string) : option Z :=
  match v with
  | None => None
  | Some text =>
      let s := JsString.trimStart text in
      let '(negative, s) :=
        match s with
        | String "-" s' => (true, s')
        | String "+" s' => (false, s')
        | _ => (false, s)
        end in
      let '(radix, s) :=
        match s with
        | String "0" (String "x" s') => (16, s')
        | String "0" (String "X" s') => (16, s')
        | _ => (10, s)
        end in
      match digits radix s None with
      | Some n => Some (if negative then - n else n)
      | None => None
      end
  end.

(** [parseInt(v)]: the number nearest to the integer read, NaN when
    there is none. *)
Definition parseInt (v : option string) : JsInteger.t :=
  match mathInt v with
  | Some n => JsInteger.round n
  | None => JsInteger.NaN
  end.

(** [const page = parseInt(req.query.page) || 1] *)
Definition pageOf (q : t) : JsInteger.t :=
  JsInteger.orElse (parseInt (page q)) (JsInteger.Int 1).

(** [const limit = Math.min(parseInt(req.query.limit) || 50, 100)] *)
Definition limitOf (q : t) : JsInteger.t :=
  JsInteger.min (JsInteger.orElse (parseInt (limit q)) (JsInteger.Int 50))
    (JsInteger.Int 100).

(** [const offset = (page - 1) * limit] *)
Definition offsetOf (q : t) : JsInteger.t :=
  JsInteger.mul (JsInteger.sub (pageOf q) (JsInteger.Int 1)) (limitOf q).

(** [const sortBy = req.query.sortBy || 'full_name']: the empty string
    is falsy. *)
Definition sortByOf (q : t) : string :=
  match sortBy q with
  | Some s => if String.eqb s "" then "full_name" else s
  | None => "full_name"
  end.

(** [req.query.sortOrder === 'desc' ? 'DESC' : 'ASC'] *)
Definition sortOrderOf (q : t) : string :=
  match sortOrder q with
  | Some s => if String.eqb s "desc" then "DESC" else "ASC"
  | None => "ASC"
  end.

Definition allowedSortFields : list string :=
  ["full_name"; "age"; "final_average"; "first_semester"; "second_semester"].

(** [allowedSortFields.includes(sortBy)] *)
Definition allowed (field : string) : bool :=
  existsb (String.eqb field) allowedSortFields.

End Query.

(** ** The handlers *)

(** [rows.length > 0] *)
Definition nonEmpty {A} (l : list A) : bool :=
  match l with [] => false | _ :: _ => true end.

Definition notFound : payload := Error "Participante não encontrado".
Definition internalError : payload := Error "Erro interno do servidor".
Definition requiredFields : string :=
  "Campos obrigatórios: full_name, age, first_semester, second_semester".

(** [Math.ceil(totalCount / limit)].  It is computed once the page
    query has gone through, so for a [limit] from 1 to 100; the count
    of a table is an integer far below 2^53, and its quotient by such
    a limit has the ceiling that exact division gives.  (Dividing by
    an infinity would give a zero.) *)
Definition totalPagesOf (totalCount : Z) (limit : JsInteger.t) : Z :=
  match limit with
  | JsInteger.Int l => (totalCount + l - 1) / l
  | _ => 0
  end.

(** [GET /api/participants] *)
Definition listParticipants (q : Query.t) (db : table) : outcome :=
  let page := Query.pageOf q in
  let limit := Query.limitOf q in
  let offset := Query.offsetOf q in
  let sortBy := Query.sortByOf q in
  let sortOrder := Query.sortOrderOf q in
  if negb (Query.allowed sortBy)
  then reply 400 (Error "Campo de ordenação inválido") db []
  else
    let query := SelectPage sortBy sortOrder limit offset in
    match Sql.selectPage sortBy sortOrder limit offset db with
    | None => reply 500 internalError db [query]
    | Some rows =>
        let totalCount := Sql.count db in
        reply 200
          (Page rows page limit totalCount (totalPagesOf totalCount limit))
          db [query; SelectCount]
    end.

(** [GET /api/participants/:id] *)
Definition getParticipant (id : string) (db : table) : outcome :=
  match validateUUID id with
  | Some r => Outcome r db []
  | None =>
      match Sql.selectById id db with
      | [] => reply 404 notFound db [SelectById id]
      | (i, r) :: _ => reply 200 (Participant i r) db [SelectById id]
      end
  end.

(** The route handler of [POST /api/participants], run on a body that
    passed [validateParticipantData].  A statement that PostgreSQL
    refuses throws; the [catch] block answers 409 for the unique
    violation 23505 and 500 for anything else, here a name that is not
    a [text].  (The INSERT sends the name that the check before it
    sent.) *)
Definition createChecked (newId : string) (f : Checked.t) (db : table)
  : outcome :=
  match Checked.full_name f, Checked.age f,
        Checked.first_semester f, Checked.second_semester f with
  | Some name, Some years, Some first, Some second =>
      if String.eqb name "" then reply 400 (Error requiredFields) db []
      else
        let normalizedName := JsString.trim name in
        match calculateFinalAverage first second with
        | inl message => reply 400 (Error message) db []
        | inr average =>
            let check := SelectIdByLowerName normalizedName in
            if negb (Sql.text normalizedName)
            then reply 500 internalError db [check]
            else if nonEmpty (Sql.selectIdByLowerName normalizedName db)
            then reply 409 (Error "Já existe um participante com este nome")
                   db [check]
            else
              let r := Row normalizedName years first second average in
              match Sql.insert newId r db with
              | Some db' =>
                  reply 201 (Participant newId r) db'
                    [check; InsertReturning r]
              | None =>
                  reply 409 (Error "Participante já existe") db
                    [check; InsertReturning r]
              end
        end
  | _, _, _, _ => reply 400 (Error requiredFields) db []
  end.

(** [POST /api/participants]: [validateParticipantData], then the
    handler.  [newId] is what [gen_random_uuid()] draws if the insert
    is reached. *)
Definition createParticipant (newId : string) (b : Body.t) (db : table)
  : outcome :=
  match validateParticipantData b with
  | [] => createChecked newId (checked b) db
  | errors => reply 400 (ErrorDetails "Dados inválidos" errors) db []
  end.

(** [full_name !== undefined &&
     full_name.trim().toLowerCase() !== current.full_name.toLowerCase()] *)
Definition nameChanged (supplied : option string) (current : row) : bool :=
  match supplied with
  | Some name =>
      negb (String.eqb (JsString.toLowerCase (JsString.trim name))
              (JsString.toLowerCase (full_name current)))
  | None => false
  end.

(** The route handler of [PUT /api/participants/:id], run on a
    well-formed id and a body that passed [validateParticipantData].
    As in the create handler, a statement refused for a name that is
    not a [text] is answered 500 by the [catch] block: the name check
    when it runs, else the UPDATE. *)
Definition updateChecked (id : string) (f : Checked.t) (db : table)
  : outcome :=
  let lookup := SelectById id in
  match Sql.selectById id db with
  | [] => reply 404 notFound db [lookup]
  | (key, current) :: _ =>
      let updatedName :=
        match Checked.full_name f with
        | Some name => JsString.trim name
        | None => full_name current
        end in
      let updatedAge := default (age current) (Checked.age f) in
      let updatedFirstSemester :=
        default (first_semester current) (Checked.first_semester f) in
      let updatedSecondSemester :=
        default (second_semester current) (Checked.second_semester f) in
      let nameChanged := nameChanged (Checked.full_name f) current in
      let nameCheck :=
        if nameChanged then [SelectIdByLowerNameExcept updatedName id]
        else [] in
      if nameChanged && negb (Sql.text updatedName)
      then reply 500 internalError db (lookup :: nameCheck)
      else if nameChanged
              && nonEmpty (Sql.selectIdByLowerNameExcept updatedName id db)
      then reply 409 (Error "Já existe outro participante com este nome")
             db (lookup :: nameCheck)
      else
        match calculateFinalAverage updatedFirstSemester
                updatedSecondSemester with
        | inl message => reply 400 (Error message) db (lookup :: nameCheck)
        | inr average =>
            let r := Row updatedName updatedAge updatedFirstSemester
                       updatedSecondSemester average in
            let sent := lookup :: nameCheck ++ [UpdateReturning r id] in
            if negb (Sql.text updatedName)
            then reply 500 internalError db sent
            else
              match Sql.update id r db with
              | Some db' => reply 200 (Participant key r) db' sent
              | None =>
                  reply 409 (Error "Nome já existe para outro participante")
                    db sent
              end
        end
  end.

(** [PUT /api/participants/:id]: [validateUUID],
    [validateParticipantData], then the handler. *)
Definition updateParticipant (id : string) (b : Body.t) (db : table)
  : outcome :=
  match validateUUID id with
  | Some r => Outcome r db []
  | None =>
      match validateParticipantData b with
      | [] => updateChecked id (checked b) db
      | errors => reply 400 (ErrorDetails "Dados inválidos" errors) db []
      end
  end.

(** [DELETE /api/participants/:id] *)
Definition deleteParticipant (id : string) (db : table) : outcome :=
  match validateUUID id with
  | Some r => Outcome r db []
  | None =>
      match Sql.deleteReturning id db with
      | ([], db') => reply 404 notFound db' [DeleteReturning id]
      | (_ :: _, db') => reply 204 Empty db' [DeleteReturning id]
      end
  end.

(** ** Decimal numbers, for stating what rounding should give *)

Module Decimal.

(** The double denoted by a decimal literal of value [q]: the nearest
    one, which is what dividing numerator by denominator yields when
    both are below 2^53. *)
Definition number (q : Q) : float :=
  PrimFloat.div (JsNumber.ofZ (Qnum q)) (JsNumber.ofZ (Z.pos (Qden q))).

(** [q] rounded to two decimal places, a tie going up. *)
Definition round2 (q : Q) : Q := Qmake (Qfloor (q * 100 + (1 # 2))) 100.

(** The average of two decimal scores, rounded to two places. *)
Definition average2 (a b : Q) : Q := round2 ((a + b) / 2).

End Decimal.

(** ** Properties of a table *)

(** No stored name starts or ends with whitespace. *)
Definition trimmedNames (db : table) : Prop :=
  forall id r, db !! id = Some r ->
    JsString.surroundingWhitespace (full_name r) = false.

(** Names are unique up to letter case. *)
Definition distinctNames (db : table) : Prop :=
  forall i j r s, db !! i = Some r -> db !! j = Some s ->
    Sql.LOWER (full_name r) = Sql.LOWER (full_name s) -> i = j.

(** No two rows hold the same name (the [UNIQUE] constraint). *)
Definition uniqueNames (db : table) : Prop :=
  forall i j r s, db !! i = Some r -> db !! j = Some s ->
    full_name r = full_name s -> i = j.

(** Every stored name is a value of type [text], as the column is. *)
Definition textNames (db : table) : Prop :=
  forall id r, db !! id = Some r -> Sql.text (full_name r) = true.

(** Every stored average is the one computed from the stored scores. *)
Definition averagesConsistent (db : table) : Prop :=
  forall id r, db !! id = Some r ->
    calculateFinalAverage (first_semester r) (second_semester r)
    = inr (final_average r).

(** Stored scores are numbers (the column checks exclude NaN). *)
Definition numericScores (db : table) : Prop :=
  forall id r, db !! id = Some r ->
    JsNumber.isNaN (first_semester r) = false
    /\ JsNumber.isNaN (second_semester r) = false.

(** A body as [JSON.parse] can produce it: JSON has no literal for NaN. *)
Definition noNaN (v : jsval) : Prop :=
  match v with JNum x => JsNumber.isNaN x = false | _ => True end.

Definition parsedBody (b : Body.t) : Prop :=
  noNaN (Body.age b) /\ noNaN (Body.first_semester b)
  /\ noNaN (Body.second_semester b).

(** A property the body does not have. *)
Definition missing (v : jsval) : bool :=
  match v with JUndefined => true | _ => false end.

(** The texts of an error response, and whether they name a field. *)
Definition errorTexts (p : payload) : list string :=
  match p with
  | Error error => [error]
  | ErrorDetails error details => error :: details
  | _ => []
  end.

Definition namesField (p : payload) (field : string) : bool :=
  existsb (JsString.includes field) (errorTexts p).

(** The stored row that a response carries, if it carries one. *)
Definition rowOf (o : outcome) : option (string * row) :=
  match body (response_of o) with
  | Participant id r => Some (id, r)
  | _ => None
  end.

Definition statusOf (o : outcome) : Z := status (response_of o).

(** The tables the service can be in: starting empty, changed only by
    its own create, update and delete routes. *)
Inductive reachable : table -> Prop :=
| reachable_empty : reachable ∅
| reachable_create newId b db :
    reachable db -> reachable (table_of (createParticipant newId b db))
| reachable_update id b db :
    reachable db -> reachable (table_of (updateParticipant id b db))
| reachable_delete id db :
    reachable db -> reachable (table_of (deleteParticipant id db)).

(** The JSON value a typed property came from. *)
Definition ofString (o : option string) : jsval :=
  match o with Some s => JStr s | None => JUndefined end.

Definition ofNumber (o : option float) : jsval :=
  match o with Some x => JNum x | None => JUndefined end.

(** ** The start-up probe (index.js, [testConnection]) *)

Module Startup.

Definition maxRetries : Z := 5.

(** [Math.min(1000 * (maxRetries - retries + 1), 10000)], in
    milliseconds, for the [retries] left after a failed attempt. *)
Definition delay (retries : Z) : Z :=
  Z.min (1000 * (maxRetries - retries + 1)) 10000.

(** The [while (retries > 0)] loop.  [connects k] tells whether the
    attempt number [k] (connect, [SELECT NOW()], release) goes through;
    [attempt] is the number of the next attempt and [retries] what is
    left of the five.  The result is what the function returns and the delays it
    slept, in order. *)
Fixpoint loop (connects : nat -> bool) (attempt retries : nat)
  : bool * list Z :=
  match retries with
  | O => (false, [])
  | S remaining =>
      if connects attempt then (true, [])
      else
        let '(connected, delays) := loop connects (S attempt) remaining in
        (connected,
         if 0 <? Z.of_nat remaining
         then delay (Z.of_nat remaining) :: delays
         else delays)
  end.

Definition testConnection (connects : nat -> bool) : bool * list Z :=
  loop connects 0 (Z.to_nat maxRetries).

End Startup.

(** ** Helpers for stating properties of the routes *)

(** The rows a list response carries. *)
Definition dataOf (o : outcome) : list (string * row) :=
  match body (response_of o) with
  | Page rows _ _ _ _ => rows
  | _ => []
  end.

(** A body whose four properties are all present. *)
Definition complete (b : Body.t) : bool :=
  negb (missing (Body.full_name b) || missing (Body.age b)
        || missing (Body.first_semester b)
        || missing (Body.second_semester b)).

(** Each property of the body is absent or is the value the row holds
    (for [full_name]: trims to it). *)
Definition restates (b : Body.t) (current : row) : Prop :=
  (Body.full_name b = JUndefined
   \/ exists name, Body.full_name b = JStr name
                   /\ JsString.trim name = full_name current)
  /\ (Body.age b = JUndefined \/ Body.age b = JNum (age current))
  /\ (Body.first_semester b = JUndefined
      \/ Body.first_semester b = JNum (first_semester current))
  /\ (Body.second_semester b = JUndefined
      \/ Body.second_semester b = JNum (second_semester current)).

Module Age.

(** The finite double that holds the positive integer [n] exactly:
    a mantissa of 53 bits and the exponent [log2 n - 52]. *)
Definition specOfInt (n : Z) : spec_float :=
  S754_finite false (Z.to_pos (n * 2 ^ (52 - Z.log2 n))) (Z.log2 n - 52).

Definition sameFinite (a b : spec_float) : bool :=
  match a, b with
  | S754_finite s m e, S754_finite s' m' e' =>
      Bool.eqb s s' && (m =? m')%positive && (e =? e')
  | _, _ => false
  end.

(** The integers [lo], [lo + 1], ..., [count] of them. *)
Definition fromTo (lo count : nat) : list Z := map Z.of_nat (seq lo count).

(** For an integer [n]: its double is the expected one and
    [validateParticipantData] has no complaint about it as an age. *)
Definition accepted (n : Z) : bool :=
  sameFinite (Prim2SF (JsNumber.ofZ n)) (specOfInt n)
  && match ageErrors (JNum (JsNumber.ofZ n)) with [] => true | _ => false end.

End Age.

Module Grades.

(** The score with one decimal place [i / 10], as JSON delivers it. *)
Definition tenth (i : Z) : float := Decimal.number (i # 10).

(** For the scores [i / 10] and [j / 10]: both pass validation and
    [calculateFinalAverage] returns the double of their average rounded
    to two decimal places. *)
Definition exact (i j : Z) : bool :=
  match scoreErrors "first_semester" (JNum (tenth i)),
        scoreErrors "second_semester" (JNum (tenth j)),
        calculateFinalAverage (tenth i) (tenth j) with
  | [], [], inr v =>
      PrimFloat.Leibniz.eqb v
        (Decimal.number (Decimal.average2 (i # 10) (j # 10)))
  | _, _, _ => false
  end.

End Grades.


(** A row that [validateParticipantData] would let through if its four
    values were sent as a body. *)
Definition validRow (r : row) : Prop :=
  validateParticipantData
    (Body.make (JStr (full_name r)) (JNum (age r))
       (JNum (first_semester r)) (JNum (second_semester r)))
  = [].

Definition validRows (db : table) : Prop :=
  forall id r, db !! id = Some r -> validRow r.

(** * Properties *)

(** ** Sanity checks against the repository's tests *)

Example calculateFinalAverage_tests :
  calculateFinalAverage 9%float 8.5%float = inr 8.75%float
  /\ calculateFinalAverage 9%float 9.5%float = inr 9.25%float
  /\ calculateFinalAverage 7.5%float 8.5%float = inr 8%float
  /\ calculateFinalAverage 8.5%float 7.5%float = inr 8%float
  /\ calculateFinalAverage nan 7.5%float
     = inl "Notas devem ser números válidos".
Proof. repeat split; reflexivity. Qed.

Example round_ties_upwards :
  JsNumber.round 2.5%float = 3%float
  /\ JsNumber.round (-2.5)%float = (-2)%float
  /\ JsNumber.round 12.5%float = 13%float
  /\ JsNumber.round 875%float = 875%float.
Proof. repeat split; reflexivity. Qed.

Example uuid_tests :
  Uuid.test "123e4567-e89b-12d3-a456-426614174000" = true
  /\ Uuid.test "123E4567-E89B-12D3-A456-426614174000" = true
  /\ Uuid.test "invalid-uuid" = false
  /\ Uuid.test "123" = false
  /\ Uuid.test "abc-def-ghi" = false
  /\ Uuid.test "123e4567-e89b-12d3-a456-42661417400" = false
  /\ Uuid.test "123e4567-e89b-12d3-a456-426614174000x" = false.
Proof. repeat split; reflexivity. Qed.

Example id_case_is_immaterial :
  let db : table :=
    {[ "123e4567-e89b-12d3-a456-426614174000"
       := Row "Bob" 30%float 7%float 8%float 7.5%float ]} in
  response_of (getParticipant "123E4567-E89B-12D3-A456-426614174000" db)
  = Response 200
      (Participant "123e4567-e89b-12d3-a456-426614174000"
         (Row "Bob" 30%float 7%float 8%float 7.5%float)).
Proof. vm_compute. reflexivity. Qed.

Example validation_tests :
  validateParticipantData
    (Body.make (JStr "Maria Santos") (JNum 22%float) (JNum 9%float)
       (JNum 8.5%float)) = []
  /\ validateParticipantData
       (Body.make (JStr "Maria Santos") (JNum (-5)%float) (JNum 9%float)
          (JNum 8.5%float))
     = ["age deve ser um número inteiro entre 1 e 150"]
  /\ validateParticipantData
       (Body.make (JStr "Maria Santos") (JNum 22%float) (JStr "oito")
          (JNum 8.5%float))
     = ["first_semester deve ser um número entre 0 e 10"]
  /\ validateParticipantData
       (Body.make (JStr "   ") (JNum 22.5%float) (JNum 9%float)
          (JNum 10.5%float))
     = ["full_name deve ser uma string não vazia";
        "age deve ser um número inteiro entre 1 e 150";
        "second_semester deve ser um número entre 0 e 10"].
Proof. repeat split; reflexivity. Qed.

Example parseInt_examples :
  Query.parseInt None = JsInteger.NaN
  /\ Query.parseInt (Some "") = JsInteger.NaN
  /\ Query.parseInt (Some "12px") = JsInteger.Int 12
  /\ Query.parseInt (Some "  -7") = JsInteger.Int (-7)
  /\ Query.parseInt (Some "+08") = JsInteger.Int 8
  /\ Query.parseInt (Some "0x1f") = JsInteger.Int 31
  /\ Query.parseInt (Some "0x") = JsInteger.NaN
  /\ Query.parseInt (Some "1e3") = JsInteger.Int 1
  /\ Query.parseInt (Some "ten") = JsInteger.NaN
  /\ Query.parseInt (Some "9007199254740993")
     = JsInteger.Int 9007199254740992
  /\ Query.parseInt (Some "-92233720368547758")
     = JsInteger.Int (-92233720368547760).
Proof. repeat split; vm_compute; reflexivity. Qed.

(** [JsInteger.round] against the conversion of the primitive floats,
    on integers below, at and above a tie. *)
Example round_agrees_with_float :
  forallb
    (fun z =>
       match JsInteger.round z,
             Prim2SF (PrimFloat.of_uint63 (Uint63.of_Z z)) with
       | JsInteger.Int v, S754_finite false m e => v =? Z.pos m * 2 ^ e
       | _, _ => false
       end)
    [2 ^ 53; 2 ^ 53 + 1; 2 ^ 53 + 2; 2 ^ 53 + 3; 9007199254740993;
     27021597764222973; 92233720368547758; 92233720368547759;
     2 ^ 62 + 255; 2 ^ 62 + 256; 2 ^ 62 + 257; 2 ^ 62 + 768;
     2 ^ 63 - 513; 2 ^ 63 - 512; 2 ^ 63 - 1]
  = true.
Proof. vm_compute. reflexivity. Qed.

(** The numbers of a list request with a page beyond 2^53, and the
    digits sent for two offsets. *)
Example binary64_pages :
  Query.offsetOf (Query.make (Some "9007199254740993") (Some "1") None None)
  = JsInteger.Int 9007199254740991
  /\ Query.offsetOf (Query.make (Some "9007199254740992") (Some "3") None None)
     = JsInteger.Int 27021597764222972
  /\ Query.offsetOf
       (Query.make (Some "92233720368547758") (Some "100") None None)
     = JsInteger.Int (2 ^ 63)
  /\ statusOf
       (listParticipants
          (Query.make (Some "92233720368547758") (Some "100") None None) ∅)
     = 500
  /\ JsInteger.printed (2 ^ 63) = 9223372036854776000
  /\ JsInteger.printed (2 ^ 63 - 1024) = 9223372036854775000.
Proof. repeat split; vm_compute; reflexivity. Qed.

(** ** Trimming *)

Section TrimFacts.
Import JsString.

Lemma firstChar_trimStart (s : string) : isWs (firstChar (trimStart s)) = false.
Proof.
  induction s as [|c s IH]; simpl; [reflexivity|].
  destruct (isWhiteSpace c) eqn:Hc; [exact IH|]. simpl. exact Hc.
Qed.

Lemma firstChar_trimEnd (s : string) :
  isWs (firstChar s) = false -> isWs (firstChar (trimEnd s)) = false.
Proof.
  destruct s as [|c s]; simpl; [reflexivity|]. intros Hc.
  destruct (trimEnd s); simpl; [rewrite Hc|]; simpl; assumption.
Qed.

Lemma lastChar_trimEnd (s : string) : isWs (lastChar (trimEnd s)) = false.
Proof.
  induction s as [|c s IH]; simpl; [reflexivity|].
  destruct (trimEnd s) as [|d t] eqn:Ht.
  - destruct (isWhiteSpace c) eqn:Hc; simpl; [reflexivity|exact Hc].
  - exact IH.
Qed.

Lemma trim_surroundingWhitespace (s : string) :
  surroundingWhitespace (trim s) = false.
Proof.
  unfold surroundingWhitespace, trim.
  rewrite firstChar_trimEnd by apply firstChar_trimStart.
  rewrite lastChar_trimEnd. reflexivity.
Qed.

End TrimFacts.

(** ** What trimming removes *)

Section TrimShape.
Import JsString.

Lemma trimStart_decompose (s : string) :
  exists pre, s = String.append pre (trimStart s) /\ allWhiteSpace pre = true.
Proof.
  induction s as [|c s (pre & Hs & Hpre)]; simpl.
  - exists EmptyString. split; reflexivity.
  - destruct (isWhiteSpace c) eqn:Hc.
    + exists (String c pre). split.
      * exact (f_equal (String c) Hs).
      * simpl. rewrite Hc, Hpre. reflexivity.
    + exists EmptyString. split; reflexivity.
Qed.

Lemma trimEnd_decompose (s : string) :
  exists post, s = String.append (trimEnd s) post /\ allWhiteSpace post = true.
Proof.
  induction s as [|c s (post & Hs & Hpost)]; simpl.
  - exists EmptyString. split; reflexivity.
  - destruct (trimEnd s) as [|d t] eqn:Ht.
    + change (s = post) in Hs. subst post. destruct (isWhiteSpace c) eqn:Hc.
      * exists (String c s). split; [reflexivity|].
        simpl. rewrite Hc, Hpost. reflexivity.
      * exists s. split; [reflexivity|exact Hpost].
    + exists post. split; [|exact Hpost]. exact (f_equal (String c) Hs).
Qed.

(** [trim] removes a run of whitespace at each end and nothing else. *)
Lemma trim_decompose (s : string) :
  exists pre post,
    s = String.append pre (String.append (trim s) post)
    /\ allWhiteSpace pre = true /\ allWhiteSpace post = true.
Proof.
  destruct (trimStart_decompose s) as (pre & Hs & Hpre).
  destruct (trimEnd_decompose (trimStart s)) as (post & Ht & Hpost).
  exists pre, post. unfold trim. rewrite <- Ht. auto.
Qed.

End TrimShape.

(** ** Statements over the table *)

Section SqlFacts.
Implicit Types (db : table) (r : row) (id name : string).

Lemma nonEmpty_false {A} (l : list A) : nonEmpty l = false <-> l = [].
Proof. destruct l; simpl; split; congruence. Qed.

Lemma nonEmpty_true {A} (l : list A) : nonEmpty l = true <-> exists x, x ∈ l.
Proof.
  destruct l as [|a l]; simpl; split; try congruence.
  - intros [x Hx]. inversion Hx.
  - intros _. exists a. left.
Qed.

Lemma selectById_lookup id db :
  Sql.selectById id db
  = match db !! Sql.uuid id with Some r => [(Sql.uuid id, r)] | None => [] end.
Proof. reflexivity. Qed.

Lemma selectIdByLowerName_elem name db i :
  i ∈ Sql.selectIdByLowerName name db
  <-> exists r, db !! i = Some r /\ Sql.LOWER (full_name r) = Sql.LOWER name.
Proof.
  unfold Sql.selectIdByLowerName. rewrite list_elem_of_fmap. split.
  - intros [[j r] [-> H]]. apply list_elem_of_filter in H as [Hn H].
    apply elem_of_map_to_list in H. exists r. split; assumption.
  - intros [r [Hl Hn]]. exists (i, r). split; [reflexivity|].
    apply list_elem_of_filter. split; [exact Hn|].
    apply elem_of_map_to_list. exact Hl.
Qed.

Lemma selectIdByLowerNameExcept_elem name id db i :
  i ∈ Sql.selectIdByLowerNameExcept name id db
  <-> exists r, db !! i = Some r
        /\ Sql.LOWER (full_name r) = Sql.LOWER name /\ i <> Sql.uuid id.
Proof.
  unfold Sql.selectIdByLowerNameExcept. rewrite list_elem_of_fmap. split.
  - intros [[j r] [-> H]]. apply list_elem_of_filter in H as [Hn H].
    apply elem_of_map_to_list in H. exists r. split; assumption.
  - intros [r [Hl Hn]]. exists (i, r). split; [reflexivity|].
    apply list_elem_of_filter. split; [exact Hn|].
    apply elem_of_map_to_list. exact Hl.
Qed.

Lemma holdersOf_elem name id db i :
  i ∈ Sql.holdersOf name id db
  <-> exists r, db !! i = Some r /\ full_name r = name /\ i <> id.
Proof.
  unfold Sql.holdersOf. rewrite list_elem_of_fmap. split.
  - intros [[j r] [-> H]]. apply list_elem_of_filter in H as [Hn H].
    apply elem_of_map_to_list in H. exists r. split; assumption.
  - intros [r [Hl Hn]]. exists (i, r). split; [reflexivity|].
    apply list_elem_of_filter. split; [exact Hn|].
    apply elem_of_map_to_list. exact Hl.
Qed.

Lemma list_nil_no_elem {A} (l : list A) : l = [] <-> forall x, x ∉ l.
Proof.
  split.
  - intros -> x H. inversion H.
  - destruct l as [|a l]; [reflexivity|]. intros H. destruct (H a). left.
Qed.

End SqlFacts.

(** ** Validation *)

Section ValidationFacts.

Lemma nameErrors_nil (v : jsval) :
  nameErrors v = [] ->
  v = JUndefined
  \/ exists s, v = JStr s /\ 0 < JsString.len (JsString.trim s) <= 255.
Proof.
  destruct v; try discriminate; [left; reflexivity|]. cbn [nameErrors].
  destruct (Z.eqb_spec (JsString.len (JsString.trim s)) 0); [discriminate|].
  destruct (Z.ltb_spec 255 (JsString.len (JsString.trim s))); [discriminate|].
  intros _. right. exists s. split; [reflexivity|].
  unfold JsString.len in *. lia.
Qed.

Lemma ageErrors_nil (v : jsval) :
  ageErrors v = [] ->
  v = JUndefined
  \/ exists x, v = JNum x /\ JsNumber.isInteger x = true
       /\ PrimFloat.leb x 0%float = false /\ PrimFloat.ltb 150%float x = false.
Proof.
  destruct v; try discriminate; [left; reflexivity|]. cbn [ageErrors].
  destruct (JsNumber.isInteger x) eqn:Hi, (PrimFloat.leb x 0) eqn:Hl,
    (PrimFloat.ltb 150 x) eqn:Hu; simpl; try discriminate.
  intros _. right. exists x. repeat split; auto.
Qed.

Lemma scoreErrors_nil (field : string) (v : jsval) :
  scoreErrors field v = [] ->
  v = JUndefined
  \/ exists x, v = JNum x
       /\ PrimFloat.ltb x 0%float = false /\ PrimFloat.ltb 10%float x = false.
Proof.
  destruct v; try discriminate; [left; reflexivity|]. cbn [scoreErrors].
  destruct (PrimFloat.ltb x 0) eqn:Hl, (PrimFloat.ltb 10 x) eqn:Hu;
    simpl; try discriminate.
  intros _. right. exists x. repeat split; auto.
Qed.

Lemma validateParticipantData_nil (b : Body.t) :
  validateParticipantData b = [] <->
  nameErrors (Body.full_name b) = [] /\ ageErrors (Body.age b) = []
  /\ scoreErrors "first_semester" (Body.first_semester b) = []
  /\ scoreErrors "second_semester" (Body.second_semester b) = [].
Proof.
  unfold validateParticipantData. rewrite !app_nil. tauto.
Qed.

(** On a body that passed validation the typed view loses nothing. *)
Lemma checked_faithful (b : Body.t) :
  validateParticipantData b = [] ->
  Body.full_name b = ofString (Checked.full_name (checked b))
  /\ Body.age b = ofNumber (Checked.age (checked b))
  /\ Body.first_semester b = ofNumber (Checked.first_semester (checked b))
  /\ Body.second_semester b = ofNumber (Checked.second_semester (checked b)).
Proof.
  intros H. apply validateParticipantData_nil in H as (Hn & Ha & Hf & Hs).
  apply nameErrors_nil in Hn. apply ageErrors_nil in Ha.
  apply scoreErrors_nil in Hf. apply scoreErrors_nil in Hs.
  destruct b as [n a f s]; simpl in *.
  repeat split.
  - destruct Hn as [->|(x & -> & _)]; reflexivity.
  - destruct Ha as [->|(x & -> & _)]; reflexivity.
  - destruct Hf as [->|(x & -> & _)]; reflexivity.
  - destruct Hs as [->|(x & -> & _)]; reflexivity.
Qed.

Lemma validateUUID_None (id : string) :
  validateUUID id = None <-> Uuid.test id = true.
Proof.
  unfold validateUUID. destruct (String.eqb_spec id "") as [->|_].
  - split; intros H; discriminate H.
  - destruct (Uuid.test id); simpl; split; congruence.
Qed.

Lemma validateUUID_Some (id : string) (r : response) :
  validateUUID id = Some r -> status r = 400 /\ Uuid.test id = false.
Proof.
  unfold validateUUID. destruct (String.eqb_spec id "") as [->|_].
  - intros [= <-]. split; reflexivity.
  - destruct (Uuid.test id); simpl; [discriminate|].
    intros [= <-]. split; reflexivity.
Qed.

End ValidationFacts.

(** ** Numbers *)

Section NumberFacts.

Lemma eqb_zero_not_nan (x : float) :
  PrimFloat.eqb x PrimFloat.zero = true -> JsNumber.isNaN x = false.
Proof.
  unfold JsNumber.isNaN, PrimFloat.is_nan.
  rewrite !FloatAxioms.eqb_spec.
  change (Prim2SF PrimFloat.zero) with (S754_zero false).
  destruct (Prim2SF x) as [s| | |s m e]; simpl; try discriminate.
  - reflexivity.
  - destruct s; discriminate.
  - destruct s; discriminate.
Qed.

Lemma isNaN_parseFloat (x : float) :
  JsNumber.isNaN (JsNumber.parseFloat x) = JsNumber.isNaN x.
Proof.
  unfold JsNumber.parseFloat.
  destruct (PrimFloat.eqb x PrimFloat.zero) eqn:E; [|reflexivity].
  rewrite (eqb_zero_not_nan x E). reflexivity.
Qed.

Lemma calculateFinalAverage_inr (a b v : float) :
  calculateFinalAverage a b = inr v ->
  JsNumber.isNaN a = false /\ JsNumber.isNaN b = false.
Proof.
  unfold calculateFinalAverage. rewrite !isNaN_parseFloat.
  destruct (JsNumber.isNaN a), (JsNumber.isNaN b); simpl;
    try discriminate. auto.
Qed.

Lemma calculateFinalAverage_defined (a b : float) :
  JsNumber.isNaN a = false -> JsNumber.isNaN b = false ->
  exists v, calculateFinalAverage a b = inr v.
Proof.
  intros Ha Hb. unfold calculateFinalAverage. rewrite !isNaN_parseFloat, Ha, Hb.
  simpl. eexists. reflexivity.
Qed.

End NumberFacts.

(** ** The integer numbers of the list route *)

Section IntegerFacts.

Lemma nearest_pos (a : Z) : 2 ^ 53 <= a -> 0 < JsInteger.nearest a.
Proof.
  intros Ha. unfold JsInteger.nearest.
  assert (Hlog : 53 <= Z.log2 a).
  { change 53 with (Z.log2 (2 ^ 53)). apply Z.log2_le_mono. exact Ha. }
  set (e := Z.log2 a - 52).
  assert (He : 0 < 2 ^ e) by (apply Z.pow_pos_nonneg; lia).
  assert (Hle : 2 ^ e <= a).
  { transitivity (2 ^ Z.log2 a).
    - apply Z.pow_le_mono_r; lia.
    - apply Z.log2_spec. lia. }
  assert (Hm : 1 <= a / 2 ^ e) by (apply Z.div_le_lower_bound; lia).
  destruct (_ || _); nia.
Qed.

(** Below 2^53 an integer is the number itself. *)
Lemma round_small (z : Z) :
  Z.abs z < 2 ^ 53 -> JsInteger.round z = JsInteger.Int z.
Proof.
  intros H. unfold JsInteger.round.
  destruct (Z.ltb_spec (Z.abs z) (2 ^ 53)); [reflexivity|lia].
Qed.

(** Rounding keeps the sign. *)
Lemma round_positive (z : Z) :
  0 < z ->
  JsInteger.round z = JsInteger.Inf false
  \/ exists v, JsInteger.round z = JsInteger.Int v /\ 0 < v.
Proof.
  intros Hz. unfold JsInteger.round.
  destruct (Z.ltb_spec (Z.abs z) (2 ^ 53)) as [_|Hbig]; [right; eauto|].
  pose proof (nearest_pos (Z.abs z) Hbig) as Hn.
  destruct (2 ^ 1024 <=? _).
  - left. destruct (Z.ltb_spec z 0); [lia|reflexivity].
  - right. eexists. split; [reflexivity|].
    rewrite (Z.sgn_pos z) by lia. lia.
Qed.

Lemma round_negative (z : Z) :
  z < 0 ->
  JsInteger.round z = JsInteger.Inf true
  \/ exists v, JsInteger.round z = JsInteger.Int v /\ v < 0.
Proof.
  intros Hz. unfold JsInteger.round.
  destruct (Z.ltb_spec (Z.abs z) (2 ^ 53)) as [_|Hbig]; [right; eauto|].
  pose proof (nearest_pos (Z.abs z) Hbig) as Hn.
  destruct (2 ^ 1024 <=? _).
  - left. destruct (Z.ltb_spec z 0); [reflexivity|lia].
  - right. eexists. split; [reflexivity|].
    rewrite (Z.sgn_neg z) by lia. lia.
Qed.

Lemma round_negative_iff (z : Z) :
  JsInteger.negative (JsInteger.round z) = true <-> z < 0.
Proof.
  destruct (Z.lt_trichotomy z 0) as [H|[->|H]].
  - split; [auto|intros _].
    destruct (round_negative z H) as [->|(v & -> & Hv)]; [reflexivity|].
    apply Z.ltb_lt. exact Hv.
  - split; [discriminate|lia].
  - split; [|lia].
    destruct (round_positive z H) as [->|(v & -> & Hv)]; [discriminate|].
    cbn. intros E. apply Z.ltb_lt in E. lia.
Qed.

Lemma orElse_truthy (x fallback : JsInteger.t) :
  JsInteger.falsy fallback = false ->
  JsInteger.falsy (JsInteger.orElse x fallback) = false.
Proof. unfold JsInteger.orElse. destruct (JsInteger.falsy x) eqn:E; auto. Qed.

(** [Math.min(x, cap)] of a number that is not falsy: at most the cap,
    not falsy either, and from 1 to the cap unless [x] is negative. *)
Lemma min_bounded (x : JsInteger.t) (cap : Z) :
  JsInteger.falsy x = false -> 0 < cap ->
  JsInteger.leb (JsInteger.min x (JsInteger.Int cap)) (JsInteger.Int cap)
  = true
  /\ JsInteger.falsy (JsInteger.min x (JsInteger.Int cap)) = false
  /\ (JsInteger.negative x = false ->
      exists l, JsInteger.min x (JsInteger.Int cap) = JsInteger.Int l
                /\ 1 <= l <= cap).
Proof.
  intros Hx Hcap. destruct x as [z|[]|]; try discriminate; cbn.
  - apply Z.eqb_neq in Hx.
    destruct (Z.ltb_spec cap z); cbn.
    + rewrite Z.ltb_irrefl. repeat split; [apply Z.eqb_neq; lia|].
      intros _. exists cap. split; [reflexivity|lia].
    + destruct (Z.ltb_spec cap z); [lia|]. cbn.
      repeat split; [apply Z.eqb_neq; lia|].
      destruct (Z.ltb_spec z 0); [discriminate|].
      intros _. exists z. split; [reflexivity|lia].
  - repeat split. discriminate.
  - rewrite Z.ltb_irrefl. repeat split; [apply Z.eqb_neq; lia|].
    intros _. exists cap. split; [reflexivity|lia].
Qed.

Lemma printed_small (z : Z) : z < 2 ^ 53 -> JsInteger.printed z = z.
Proof.
  intros H. unfold JsInteger.printed.
  destruct (Z.ltb_spec z (2 ^ 53)); [reflexivity|lia].
Qed.

(** What PostgreSQL takes as a row count. *)
Lemma rowCount_Some (x : JsInteger.t) (n : Z) :
  Sql.rowCount x = Some n <->
  exists z, x = JsInteger.Int z /\ 0 <= z
            /\ n = JsInteger.printed z /\ n < 2 ^ 63.
Proof.
  unfold Sql.rowCount. destruct x as [z| |].
  - destruct (Z.ltb_spec z 0) as [Hneg|Hpos]; cbn [orb].
    + split; [discriminate|]. intros (z' & [= <-] & H & _). lia.
    + destruct (Z.leb_spec (2 ^ 63) (JsInteger.printed z)) as [Hbig|Hfit].
      * split; [discriminate|]. intros (z' & [= <-] & _ & -> & H). lia.
      * split.
        -- intros [= <-]. exists z. auto.
        -- intros (z' & [= <-] & _ & -> & _). reflexivity.
  - split; [discriminate|]. intros (z & H & _). discriminate.
  - split; [discriminate|]. intros (z & H & _). discriminate.
Qed.

End IntegerFacts.

(** ** What the handlers do when they succeed *)

Section HandlerFacts.
Implicit Types (db : table) (b : Body.t) (id newId : string).

Lemma trim_empty_len (s : string) :
  0 < JsString.len (JsString.trim s) -> s <> "".
Proof. intros H ->. cbv in H. discriminate. Qed.

(** A 201 comes from one path only: a complete, valid body, no name
    held already, and an insert that went through. *)
Lemma createParticipant_201 newId b db :
  statusOf (createParticipant newId b db) = 201 ->
  exists name years first second average,
    b = Body.make (JStr name) (JNum years) (JNum first) (JNum second)
    /\ validateParticipantData b = []
    /\ calculateFinalAverage first second = inr average
    /\ Sql.selectIdByLowerName (JsString.trim name) db = []
    /\ db !! newId = None
    /\ createParticipant newId b db =
       let r := Row (JsString.trim name) years first second average in
       reply 201 (Participant newId r) (<[newId := r]> db)
         [SelectIdByLowerName (JsString.trim name); InsertReturning r].
Proof.
  unfold createParticipant.
  destruct (validateParticipantData b) eqn:Hv; [|discriminate].
  destruct (checked_faithful b Hv) as (Hn & Ha & Hf & Hs).
  destruct b as [n a f s]; simpl in Hn, Ha, Hf, Hs.
  unfold createChecked. simpl.
  destruct (asString n) as [name|]; [|discriminate].
  destruct (asNumber a) as [years|]; [|discriminate].
  destruct (asNumber f) as [first|]; [|discriminate].
  destruct (asNumber s) as [second|]; [|discriminate].
  simpl in *. subst n a f s.
  destruct (String.eqb name ""); [discriminate|].
  destruct (calculateFinalAverage first second) as [m|average] eqn:Hc;
    [discriminate|].
  destruct (Sql.text _); [|discriminate]. cbn [negb].
  destruct (nonEmpty _) eqn:Hq; [discriminate|].
  apply nonEmpty_false in Hq.
  unfold Sql.insert.
  destruct (db !! newId) eqn:Hl; [discriminate|].
  destruct (Sql.holdersOf _ _ _) eqn:Hh; [|discriminate].
  intros _. exists name, years, first, second, average.
  repeat split; auto.
Qed.

(** The name a create stores is one PostgreSQL took as a [text]. *)
Lemma createParticipant_201_text newId b db name :
  statusOf (createParticipant newId b db) = 201 ->
  Body.full_name b = JStr name ->
  Sql.text (JsString.trim name) = true.
Proof.
  unfold createParticipant.
  destruct (validateParticipantData b) eqn:Hv; [|discriminate].
  destruct (checked_faithful b Hv) as (Hn & _).
  intros Hs Hname. rewrite Hname in Hn. revert Hs. unfold createChecked.
  destruct (Checked.full_name (checked b)) as [name'|]; [|discriminate].
  injection Hn as ->.
  destruct (Checked.age (checked b)); [|discriminate].
  destruct (Checked.first_semester (checked b)); [|discriminate].
  destruct (Checked.second_semester (checked b)); [|discriminate].
  destruct (String.eqb name' ""); [discriminate|].
  destruct (calculateFinalAverage _ _); [discriminate|].
  destruct (Sql.text _); [reflexivity|discriminate].
Qed.

(** A 200 of the update route comes from one path only. *)
Lemma updateParticipant_200 id b db :
  statusOf (updateParticipant id b db) = 200 ->
  Uuid.test id = true /\ validateParticipantData b = [] /\
  exists current average,
    db !! Sql.uuid id = Some current
    /\ let f := checked b in
       let name := match Checked.full_name f with
                   | Some n => JsString.trim n
                   | None => full_name current
                   end in
       let first := default (first_semester current) (Checked.first_semester f) in
       let second := default (second_semester current) (Checked.second_semester f) in
       let r := Row name (default (age current) (Checked.age f)) first second
                  average in
       let checkRuns := nameChanged (Checked.full_name f) current in
       calculateFinalAverage first second = inr average
       /\ Sql.holdersOf name (Sql.uuid id) db = []
       /\ response_of (updateParticipant id b db)
          = Response 200 (Participant (Sql.uuid id) r)
       /\ table_of (updateParticipant id b db) = <[Sql.uuid id := r]> db
       /\ (checkRuns = true -> Sql.selectIdByLowerNameExcept name id db = [])
       /\ statements_of (updateParticipant id b db) =
          SelectById id
          :: (if checkRuns then [SelectIdByLowerNameExcept name id] else [])
          ++ [UpdateReturning r id].
Proof.
  unfold updateParticipant.
  destruct (validateUUID id) as [r0|] eqn:Hu.
  { apply validateUUID_Some in Hu as [Hu _]. unfold statusOf. simpl.
    rewrite Hu. discriminate. }
  apply validateUUID_None in Hu.
  destruct (validateParticipantData b) eqn:Hv; [|discriminate].
  unfold updateChecked, Sql.selectById.
  destruct (db !! Sql.uuid id) as [current|] eqn:Hl; [|discriminate].
  cbv zeta.
  destruct (nameChanged (Checked.full_name (checked b)) current
            && negb _); [discriminate|].
  destruct (nameChanged (Checked.full_name (checked b)) current && _) eqn:Hq;
    [discriminate|].
  destruct (calculateFinalAverage _ _) as [m|average] eqn:Hc; [discriminate|].
  destruct (Sql.text _); [|discriminate]. cbn [negb].
  unfold Sql.update.
  destruct (Sql.holdersOf _ _ _) eqn:Hh; [|discriminate].
  intros _. repeat split; auto.
  exists current, average. repeat split; auto.
  intros Hn. rewrite Hn in Hq. simpl in Hq. apply nonEmpty_false in Hq.
  exact Hq.
Qed.

(** The name an update stores is one PostgreSQL took as a [text]. *)
Lemma updateParticipant_200_text id b db i r :
  statusOf (updateParticipant id b db) = 200 ->
  rowOf (updateParticipant id b db) = Some (i, r) ->
  Sql.text (full_name r) = true.
Proof.
  unfold updateParticipant.
  destruct (validateUUID id) as [r0|] eqn:Hu.
  { apply validateUUID_Some in Hu as [Hu _]. unfold statusOf. simpl.
    rewrite Hu. discriminate. }
  destruct (validateParticipantData b) eqn:Hv; [|discriminate].
  unfold updateChecked, Sql.selectById.
  destruct (db !! Sql.uuid id) as [current|] eqn:Hl; [|discriminate].
  cbv zeta.
  destruct (nameChanged (Checked.full_name (checked b)) current
            && negb _); [discriminate|].
  destruct (nameChanged (Checked.full_name (checked b)) current && _);
    [discriminate|].
  destruct (calculateFinalAverage _ _) as [m|average]; [discriminate|].
  destruct (Sql.text _) eqn:Ht; [|discriminate]. cbn [negb].
  unfold Sql.update.
  destruct (Sql.holdersOf _ _ _); [|discriminate].
  intros _. unfold rowOf. simpl. intros [= _ <-]. exact Ht.
Qed.

End HandlerFacts.

(** ** Which rows a handler leaves behind *)

Section Frame.
Implicit Types (db : table) (b : Body.t) (id newId : string).

Lemma createParticipant_table newId b db :
  table_of (createParticipant newId b db) = db
  \/ statusOf (createParticipant newId b db) = 201.
Proof.
  unfold createParticipant, createChecked.
  destruct (validateParticipantData b); [|left; reflexivity].
  destruct (Checked.full_name (checked b)), (Checked.age (checked b)),
    (Checked.first_semester (checked b)),
    (Checked.second_semester (checked b)); try (left; reflexivity).
  destruct (String.eqb _ _); [left; reflexivity|].
  destruct (calculateFinalAverage _ _); [left; reflexivity|].
  destruct (negb _); [left; reflexivity|].
  destruct (nonEmpty _); [left; reflexivity|].
  destruct (Sql.insert _ _ _); [right|left]; reflexivity.
Qed.

Lemma updateParticipant_table id b db :
  table_of (updateParticipant id b db) = db
  \/ statusOf (updateParticipant id b db) = 200.
Proof.
  unfold updateParticipant, updateChecked.
  destruct (validateUUID id); [left; reflexivity|].
  destruct (validateParticipantData b); [|left; reflexivity].
  destruct (Sql.selectById id db) as [|[i current] l]; [left; reflexivity|].
  cbv zeta.
  destruct (nameChanged _ _ && negb _); [left; reflexivity|].
  destruct (nameChanged _ _ && _); [left; reflexivity|].
  destruct (calculateFinalAverage _ _); [left; reflexivity|].
  destruct (negb _); [left; reflexivity|].
  destruct (Sql.update _ _ _); [right|left]; reflexivity.
Qed.

(** Every row after a create was there before or is the one created. *)
Lemma createParticipant_rows newId b db j r :
  table_of (createParticipant newId b db) !! j = Some r ->
  db !! j = Some r
  \/ statusOf (createParticipant newId b db) = 201
     /\ rowOf (createParticipant newId b db) = Some (j, r).
Proof.
  destruct (createParticipant_table newId b db) as [->|H]; [auto|].
  destruct (createParticipant_201 newId b db H)
    as (name & years & first & second & average & _ & _ & _ & _ & _ & ->).
  cbv zeta. unfold reply, rowOf, statusOf. simpl.
  destruct (decide (newId = j)) as [->|Hne].
  - rewrite lookup_insert_eq. intros [= <-]. right. auto.
  - rewrite lookup_insert_ne by exact Hne. auto.
Qed.

(** Every row after an update was there before or is the one updated. *)
Lemma updateParticipant_rows id b db j r :
  table_of (updateParticipant id b db) !! j = Some r ->
  db !! j = Some r
  \/ statusOf (updateParticipant id b db) = 200
     /\ rowOf (updateParticipant id b db) = Some (j, r).
Proof.
  destruct (updateParticipant_table id b db) as [->|H]; [auto|].
  destruct (updateParticipant_200 id b db H)
    as (_ & _ & current & average & _ & Hr). cbv zeta in Hr.
  destruct Hr as (_ & _ & Hresp & -> & _).
  unfold rowOf. rewrite Hresp. simpl.
  destruct (decide (Sql.uuid id = j)) as [<-|Hne].
  - rewrite lookup_insert_eq. intros [= <-]. right. auto.
  - rewrite lookup_insert_ne by exact Hne. auto.
Qed.

(** A delete only removes. *)
Lemma deleteParticipant_rows id db j r :
  table_of (deleteParticipant id db) !! j = Some r -> db !! j = Some r.
Proof.
  unfold deleteParticipant, Sql.deleteReturning.
  destruct (validateUUID id); [auto|].
  destruct (db !! Sql.uuid id) eqn:Hl; simpl; [|auto].
  intros H. apply lookup_delete_Some in H as [_ H]. exact H.
Qed.

Lemma getParticipant_table id db : table_of (getParticipant id db) = db.
Proof.
  unfold getParticipant, Sql.selectById.
  destruct (validateUUID id); [reflexivity|].
  destruct (db !! Sql.uuid id); reflexivity.
Qed.

Lemma listParticipants_table q db : table_of (listParticipants q db) = db.
Proof.
  unfold listParticipants.
  destruct (negb _); [reflexivity|].
  destruct (Sql.selectPage _ _ _ _ _); reflexivity.
Qed.

End Frame.

(** ** Invariants of the reachable tables *)

Section Invariants.
Implicit Types (db : table) (b : Body.t) (id newId : string).

Lemma distinctNames_uniqueNames db : distinctNames db -> uniqueNames db.
Proof.
  intros H i j r s Hi Hj Hn. apply (H i j r s Hi Hj). rewrite Hn. reflexivity.
Qed.

(** The row a create writes. *)
Lemma created_row newId b db j r :
  statusOf (createParticipant newId b db) = 201 ->
  rowOf (createParticipant newId b db) = Some (j, r) ->
  j = newId
  /\ db !! newId = None
  /\ table_of (createParticipant newId b db) = <[newId := r]> db
  /\ (exists name, Body.full_name b = JStr name
                   /\ full_name r = JsString.trim name)
  /\ Body.age b = JNum (age r)
  /\ Body.first_semester b = JNum (first_semester r)
  /\ Body.second_semester b = JNum (second_semester r)
  /\ calculateFinalAverage (first_semester r) (second_semester r)
     = inr (final_average r)
  /\ Sql.selectIdByLowerName (full_name r) db = [].
Proof.
  intros H.
  destruct (createParticipant_201 newId b db H)
    as (name & years & first & second & average & -> & _ & Hc & Hq & Hl & ->).
  cbv zeta. unfold rowOf. simpl. intros [= <- <-]. simpl.
  repeat split; auto. exists name. auto.
Qed.

(** The row an update writes. *)
Lemma updated_row id b db j r :
  statusOf (updateParticipant id b db) = 200 ->
  rowOf (updateParticipant id b db) = Some (j, r) ->
  j = Sql.uuid id
  /\ table_of (updateParticipant id b db) = <[Sql.uuid id := r]> db
  /\ exists current,
       db !! Sql.uuid id = Some current
       /\ full_name r = match Checked.full_name (checked b) with
                        | Some n => JsString.trim n
                        | None => full_name current
                        end
       /\ age r = default (age current) (Checked.age (checked b))
       /\ first_semester r
          = default (first_semester current) (Checked.first_semester (checked b))
       /\ second_semester r
          = default (second_semester current)
              (Checked.second_semester (checked b))
       /\ calculateFinalAverage (first_semester r) (second_semester r)
          = inr (final_average r)
       /\ (nameChanged (Checked.full_name (checked b)) current = true ->
           Sql.selectIdByLowerNameExcept (full_name r) id db = []).
Proof.
  intros H.
  destruct (updateParticipant_200 id b db H)
    as (_ & _ & current & average & Hl & Hr). cbv zeta in Hr.
  destruct Hr as (Hc & _ & Hresp & Ht & Hq & _).
  unfold rowOf. rewrite Hresp. simpl. intros [= <- <-]. simpl.
  repeat split; auto. exists current. repeat split; auto.
Qed.

Lemma trimmedNames_create newId b db :
  trimmedNames db -> trimmedNames (table_of (createParticipant newId b db)).
Proof.
  intros H j r Hj. apply createParticipant_rows in Hj as [Hj|[Hs Hr]].
  - exact (H j r Hj).
  - destruct (created_row _ _ _ _ _ Hs Hr) as (_ & _ & _ & (n & _ & ->) & _).
    apply trim_surroundingWhitespace.
Qed.

Lemma trimmedNames_update id b db :
  trimmedNames db -> trimmedNames (table_of (updateParticipant id b db)).
Proof.
  intros H j r Hj. apply updateParticipant_rows in Hj as [Hj|[Hs Hr]].
  - exact (H j r Hj).
  - destruct (updated_row _ _ _ _ _ Hs Hr)
      as (_ & _ & current & Hl & -> & _).
    destruct (Checked.full_name (checked b)).
    + apply trim_surroundingWhitespace.
    + exact (H _ current Hl).
Qed.

Lemma trimmedNames_delete id db :
  trimmedNames db -> trimmedNames (table_of (deleteParticipant id db)).
Proof.
  intros H j r Hj. apply deleteParticipant_rows in Hj. exact (H j r Hj).
Qed.

Lemma averagesConsistent_create newId b db :
  averagesConsistent db ->
  averagesConsistent (table_of (createParticipant newId b db)).
Proof.
  intros H j r Hj. apply createParticipant_rows in Hj as [Hj|[Hs Hr]].
  - exact (H j r Hj).
  - apply (created_row _ _ _ _ _ Hs Hr).
Qed.

Lemma averagesConsistent_update id b db :
  averagesConsistent db ->
  averagesConsistent (table_of (updateParticipant id b db)).
Proof.
  intros H j r Hj. apply updateParticipant_rows in Hj as [Hj|[Hs Hr]].
  - exact (H j r Hj).
  - destruct (updated_row _ _ _ _ _ Hs Hr)
      as (_ & _ & current & _ & _ & _ & _ & _ & Hc & _). exact Hc.
Qed.

Lemma averagesConsistent_delete id db :
  averagesConsistent db ->
  averagesConsistent (table_of (deleteParticipant id db)).
Proof.
  intros H j r Hj. apply deleteParticipant_rows in Hj. exact (H j r Hj).
Qed.

Lemma averagesConsistent_numericScores db :
  averagesConsistent db -> numericScores db.
Proof.
  intros H j r Hj. exact (calculateFinalAverage_inr _ _ _ (H j r Hj)).
Qed.

Lemma distinctNames_create newId b db :
  distinctNames db -> distinctNames (table_of (createParticipant newId b db)).
Proof.
  intros H.
  destruct (createParticipant_table newId b db) as [->|Hs]; [exact H|].
  assert (Hfresh : forall i r j s,
    rowOf (createParticipant newId b db) = Some (i, r) ->
    db !! j = Some s ->
    Sql.LOWER (full_name r) <> Sql.LOWER (full_name s)).
  { intros i r j s Hr Hj Heq.
    destruct (created_row _ _ _ _ _ Hs Hr) as (_ & _ & _ & _ & _ & _ & _ & _ & Hq).
    apply list_nil_no_elem with (x := j) in Hq. apply Hq.
    apply selectIdByLowerName_elem. exists s. split; [exact Hj|].
    symmetry. exact Heq. }
  intros i j r s Hi Hj Heq.
  apply createParticipant_rows in Hi as [Hi|[_ Hi]];
    apply createParticipant_rows in Hj as [Hj|[_ Hj]].
  - exact (H i j r s Hi Hj Heq).
  - destruct (Hfresh _ _ _ _ Hj Hi). symmetry. exact Heq.
  - destruct (Hfresh _ _ _ _ Hi Hj Heq).
  - destruct (created_row _ _ _ _ _ Hs Hi) as (-> & _).
    destruct (created_row _ _ _ _ _ Hs Hj) as (-> & _). reflexivity.
Qed.

Lemma distinctNames_update id b db :
  distinctNames db -> distinctNames (table_of (updateParticipant id b db)).
Proof.
  intros H.
  destruct (updateParticipant_table id b db) as [->|Hs]; [exact H|].
  assert (Hfresh : forall i r j s,
    rowOf (updateParticipant id b db) = Some (i, r) ->
    db !! j = Some s ->
    Sql.LOWER (full_name r) = Sql.LOWER (full_name s) -> j = Sql.uuid id).
  { intros i r j s Hr Hj Heq.
    destruct (updated_row _ _ _ _ _ Hs Hr)
      as (_ & _ & current & Hl & Hn & _ & _ & _ & _ & Hq).
    destruct (nameChanged (Checked.full_name (checked b)) current) eqn:Hch.
    - specialize (Hq eq_refl).
      destruct (decide (j = Sql.uuid id)) as [|Hne]; [assumption|].
      apply list_nil_no_elem with (x := j) in Hq. destruct Hq.
      apply selectIdByLowerNameExcept_elem. exists s. auto.
    - apply (H j (Sql.uuid id) s current Hj Hl). rewrite <- Heq, Hn.
      unfold nameChanged in Hch.
      destruct (Checked.full_name (checked b)) as [n|]; [|reflexivity].
      apply negb_false_iff in Hch. apply String.eqb_eq in Hch. exact Hch. }
  intros i j r s Hi Hj Heq.
  pose proof Hi as Hi'. pose proof Hj as Hj'.
  apply updateParticipant_rows in Hi as [Hi|[_ Hi]];
    apply updateParticipant_rows in Hj as [Hj|[_ Hj]].
  - exact (H i j r s Hi Hj Heq).
  - destruct (updated_row _ _ _ _ _ Hs Hj) as (-> & _).
    symmetry in Heq. exact (Hfresh _ _ _ _ Hj Hi Heq).
  - destruct (updated_row _ _ _ _ _ Hs Hi) as (-> & _).
    symmetry. exact (Hfresh _ _ _ _ Hi Hj Heq).
  - destruct (updated_row _ _ _ _ _ Hs Hi) as (-> & _).
    destruct (updated_row _ _ _ _ _ Hs Hj) as (-> & _). reflexivity.
Qed.

Lemma distinctNames_delete id db :
  distinctNames db -> distinctNames (table_of (deleteParticipant id db)).
Proof.
  intros H i j r s Hi Hj. apply deleteParticipant_rows in Hi, Hj.
  exact (H i j r s Hi Hj).
Qed.

(** Whatever requests the service has handled, its table has trimmed
    names, names distinct up to case, and averages computed from the
    stored scores. *)
Lemma reachable_invariants db :
  reachable db ->
  trimmedNames db /\ distinctNames db /\ averagesConsistent db.
Proof.
  induction 1 as [|newId b db _ (Ht & Hd & Ha)|id b db _ (Ht & Hd & Ha)
                 |id db _ (Ht & Hd & Ha)].
  - repeat split; intros ? *; rewrite lookup_empty; discriminate.
  - auto using trimmedNames_create, distinctNames_create,
      averagesConsistent_create.
  - auto using trimmedNames_update, distinctNames_update,
      averagesConsistent_update.
  - auto using trimmedNames_delete, distinctNames_delete,
      averagesConsistent_delete.
Qed.

Lemma textNames_create newId b db :
  textNames db -> textNames (table_of (createParticipant newId b db)).
Proof.
  intros H j r Hj. apply createParticipant_rows in Hj as [Hj|[Hs Hr]].
  - exact (H j r Hj).
  - destruct (created_row _ _ _ _ _ Hs Hr)
      as (_ & _ & _ & (n & Hn & ->) & _).
    exact (createParticipant_201_text _ _ _ _ Hs Hn).
Qed.

Lemma textNames_update id b db :
  textNames db -> textNames (table_of (updateParticipant id b db)).
Proof.
  intros H j r Hj. apply updateParticipant_rows in Hj as [Hj|[Hs Hr]].
  - exact (H j r Hj).
  - exact (updateParticipant_200_text _ _ _ _ _ Hs Hr).
Qed.

Lemma textNames_delete id db :
  textNames db -> textNames (table_of (deleteParticipant id db)).
Proof.
  intros H j r Hj. apply deleteParticipant_rows in Hj. exact (H j r Hj).
Qed.

(** Whatever requests the service has handled, the names in its table
    are texts: PostgreSQL stores no other. *)
Lemma reachable_textNames db : reachable db -> textNames db.
Proof.
  induction 1 as [|newId b db _ IH|id b db _ IH|id db _ IH].
  - intros ? *. rewrite lookup_empty. discriminate.
  - exact (textNames_create _ _ _ IH).
  - exact (textNames_update _ _ _ IH).
  - exact (textNames_delete _ _ IH).
Qed.

End Invariants.

(** ** The final average is recomputed on every write *)

(** C1, as stated, does not hold: the stored average is not always the
    two-decimal rounding of the scores' average.  A body with
    [first_semester: 2.03] and [second_semester: 0] is created with
    [final_average: 1.01], while the average 1.015 rounds to 1.02 (half
    up, and half to even as well).  The double nearest to 2.03 lies
    just below it, so [((2.03 + 0) / 2) * 100] is computed as
    101.49999999999999, which [Math.round] takes to 101. *)
Lemma final_average_not_decimal_round :
  exists r,
    response_of
      (createParticipant "123e4567-e89b-12d3-a456-426614174001"
         (Body.make (JStr "Ana") (JNum 20%float)
            (JNum (Decimal.number (203 # 100))) (JNum (Decimal.number 0)))
         ∅)
    = Response 201 (Participant "123e4567-e89b-12d3-a456-426614174001" r)
    /\ first_semester r = Decimal.number (203 # 100)
    /\ second_semester r = Decimal.number 0
    /\ final_average r = Decimal.number (101 # 100)
    /\ Qeq (Decimal.average2 (203 # 100) 0) (102 # 100)
    /\ final_average r <> Decimal.number (Decimal.average2 (203 # 100) 0).
Proof.
  eexists. split; [vm_compute; reflexivity|]. simpl.
  repeat split; try (vm_compute; reflexivity).
  intros H. apply (f_equal Prim2SF) in H. vm_compute in H. discriminate H.
Qed.

(** Reading the scores as the exact values of their doubles does not
    help: the double of 5.35 halves to a value just below 2.675, which
    rounds to 2.67, and the stored average is 2.68. *)
Example final_average_not_exact_round :
  let first := Decimal.number (535 # 100) in
  let second := Decimal.number 0 in
  calculateFinalAverage first second = inr (Decimal.number (268 # 100))
  /\ Qlt (JsNumber.toQ (PrimFloat.div (PrimFloat.add first second) 2%float))
         (2675 # 1000)
  /\ Qeq (Decimal.round2
            (JsNumber.toQ (PrimFloat.div (PrimFloat.add first second) 2%float)))
         (267 # 100).
Proof. repeat split; vm_compute; reflexivity. Qed.

(** C1 (as amended): after every successful create and every successful
    update the stored [final_average] is [calculateFinalAverage] of the
    two stored semester scores, that is
    [Math.round(((first + second) / 2) * 100) / 100] in double
    arithmetic.  The request has no part in it beyond the scores, it is
    computed on every write, and so a table whose averages all agree
    with their scores stays such a table. *)
Theorem final_average_recomputed (newId id : string) (b : Body.t) (db : table) :
  let created := createParticipant newId b db in
  let updated := updateParticipant id b db in
  (forall i r, statusOf created = 201 -> rowOf created = Some (i, r) ->
     table_of created !! i = Some r
     /\ calculateFinalAverage (first_semester r) (second_semester r)
        = inr (final_average r))
  /\ (forall i r, statusOf updated = 200 -> rowOf updated = Some (i, r) ->
     table_of updated !! i = Some r
     /\ calculateFinalAverage (first_semester r) (second_semester r)
        = inr (final_average r))
  /\ (averagesConsistent db ->
      averagesConsistent (table_of created)
      /\ averagesConsistent (table_of updated)).
Proof.
  cbv zeta. split; [|split].
  - intros i r Hs Hr. split.
    + destruct (created_row _ _ _ _ _ Hs Hr) as (-> & _ & -> & _).
      apply lookup_insert_eq.
    + apply (created_row _ _ _ _ _ Hs Hr).
  - intros i r Hs Hr.
    destruct (updated_row _ _ _ _ _ Hs Hr)
      as (-> & -> & current & _ & _ & _ & _ & _ & Hc & _).
    split; [apply lookup_insert_eq|exact Hc].
  - intros Hdb. split.
    + apply averagesConsistent_create. exact Hdb.
    + apply averagesConsistent_update. exact Hdb.
Qed.

(** The formula behind [calculateFinalAverage]. *)
Lemma calculateFinalAverage_formula (a b v : float) :
  calculateFinalAverage a b = inr v ->
  v = PrimFloat.div
        (JsNumber.round
           (PrimFloat.mul
              (PrimFloat.div
                 (PrimFloat.add (JsNumber.parseFloat a) (JsNumber.parseFloat b))
                 2%float)
              100%float))
        100%float.
Proof.
  unfold calculateFinalAverage. destruct (_ || _); [discriminate|].
  intros [= <-]. reflexivity.
Qed.

Lemma final_average_recomputed_witness :
  let id := "123e4567-e89b-12d3-a456-426614174000" in
  let db : table := {[ id := Row "Maria Santos" 22%float 9%float 8.5%float 8.75%float ]} in
  let b := Body.make JUndefined JUndefined (JNum 9%float) (JNum 9.5%float) in
  exists r,
    rowOf (updateParticipant id b db) = Some (id, r)
    /\ final_average r = 9.25%float
    /\ table_of (updateParticipant id b db) !! id = Some r
    /\ calculateFinalAverage (first_semester r) (second_semester r)
       = inr (final_average r).
Proof.
  cbv zeta. eexists. split; [vm_compute; reflexivity|].
  split; [reflexivity|].
  apply (final_average_recomputed "" "123e4567-e89b-12d3-a456-426614174000");
    vm_compute; reflexivity.
Defined.

(** ** Identifier validation *)

Section UuidFacts.
Import Uuid.

Lemma matches_spec (classes : list (ascii -> bool)) (s : string) :
  matches classes s = true <->
  String.length s = length classes
  /\ forall n cl, classes !! n = Some cl ->
       exists c, String.get n s = Some c /\ cl c = true.
Proof.
  revert s. induction classes as [|cl0 classes IH]; intros [|c s]; simpl.
  - split; [intros _; split; [reflexivity|intros [|?] ?; discriminate]|reflexivity].
  - split; [discriminate|intros [H _]; discriminate].
  - split; [discriminate|intros [H _]; discriminate].
  - rewrite andb_true_iff, IH. split.
    + intros (Hc & Hl & Hn). split; [congruence|].
      intros [|n] cl; simpl.
      * intros [= <-]. exists c. auto.
      * apply Hn.
    + intros (Hl & Hn). split; [|split; [congruence|]].
      * destruct (Hn 0%nat cl0 eq_refl) as (c' & [= <-] & Hc). exact Hc.
      * intros n cl Hcl. exact (Hn (S n) cl Hcl).
Qed.

Lemma version_hex (c : ascii) : version c = true -> hex c = true.
Proof.
  unfold hex, version, between. intros H.
  apply andb_true_iff in H as [H1 H2]. apply N.leb_le in H1, H2.
  apply orb_true_iff. left. apply orb_true_iff. left.
  apply andb_true_iff. split; apply N.leb_le; lia.
Qed.

Lemma variant_hex (c : ascii) : variant c = true -> hex c = true.
Proof.
  unfold hex, variant, between. rewrite !orb_true_iff, !andb_true_iff.
  rewrite !N.leb_le. lia.
Qed.

(** Position by position, the pattern of [validateUUID] is the plain
    grouping, narrowed at the first digit of the third and of the fourth
    group. *)
Lemma uuidRegex_positions (n : nat) (cl : ascii -> bool) :
  uuidRegex !! n = Some cl ->
  n = 14%nat /\ cl = version \/ n = 19%nat /\ cl = variant
  \/ grouping !! n = Some cl.
Proof.
  do 36 (destruct n as [|n];
         [intros [= <-]; first [left; split; reflexivity
                               |right; left; split; reflexivity
                               |right; right; reflexivity]|]).
  discriminate.
Qed.

Lemma grouping_positions (n : nat) (cl : ascii -> bool) :
  grouping !! n = Some cl ->
  exists cl', uuidRegex !! n = Some cl'
              /\ forall c, cl' c = true -> cl c = true.
Proof.
  do 36 (destruct n as [|n];
         [intros [= <-]; eexists; split;
          [reflexivity|auto using version_hex, variant_hex]|]).
  discriminate.
Qed.

Lemma uuid_test_spec (id : string) :
  test id = true <->
  shaped id = true
  /\ (exists c, String.get 14 id = Some c /\ version c = true)
  /\ (exists c, String.get 19 id = Some c /\ variant c = true).
Proof.
  unfold test, shaped. rewrite !matches_spec. split.
  - intros [Hl Hn]. repeat split.
    + exact Hl.
    + intros n cl Hcl.
      destruct (grouping_positions n cl Hcl) as (cl' & Hcl' & Himp).
      destruct (Hn n cl' Hcl') as (c & Hc & Hok). exists c. auto.
    + apply (Hn 14%nat version). reflexivity.
    + apply (Hn 19%nat variant). reflexivity.
  - intros ([Hl Hn] & Hv & Hw). split; [exact Hl|].
    intros n cl Hcl.
    destruct (uuidRegex_positions n cl Hcl) as [[-> ->]|[[-> ->]|Hg]]; auto.
Qed.

End UuidFacts.

(** C2, as stated, does not hold: the all-zero identifier has the
    8-4-4-4-12 hexadecimal grouping and is answered 400 all the same,
    since the pattern of [validateUUID] also wants the third group to
    start with 1-5 and the fourth with 8, 9, a or b. *)
Lemma grouped_id_rejected :
  Uuid.shaped "00000000-0000-0000-0000-000000000000" = true
  /\ response_of (getParticipant "00000000-0000-0000-0000-000000000000" ∅)
     = Response 400 (Error "ID deve ser um UUID válido")
  /\ statements_of (getParticipant "00000000-0000-0000-0000-000000000000" ∅)
     = []
  /\ statusOf (deleteParticipant "00000000-0000-0000-0000-000000000000" ∅)
     = 400
  /\ statusOf
       (updateParticipant "00000000-0000-0000-0000-000000000000"
          (Body.make JUndefined (JNum 30%float) JUndefined JUndefined) ∅)
     = 400.
Proof. repeat split; vm_compute; reflexivity. Qed.

(** C2 (as amended): an id is answered 400 by the id validation of GET,
    PUT and DELETE [/api/participants/:id], with no statement sent and
    the table untouched, if and only if it fails the pattern of
    [validateUUID]: the 8-4-4-4-12 grouping of hexadecimal digits whose
    third group starts with 1-5 and whose fourth group starts with 8, 9,
    a or b, in either case.  An id that matches passes the validation
    and the handler goes on to the lookup by id (for PUT once the body
    has passed its own validation). *)
Theorem id_validation (id : string) (b : Body.t) (db : table) :
  let rejected (o : outcome) :=
    statusOf o = 400 /\ statements_of o = [] /\ table_of o = db in
  (Uuid.test id = true <->
     Uuid.shaped id = true
     /\ (exists c, String.get 14 id = Some c /\ Uuid.version c = true)
     /\ (exists c, String.get 19 id = Some c /\ Uuid.variant c = true))
  /\ (Uuid.test id = false <->
      rejected (getParticipant id db))
  /\ (Uuid.test id = false <->
      rejected (deleteParticipant id db))
  /\ (Uuid.test id = false ->
      rejected (updateParticipant id b db))
  /\ (Uuid.test id = true ->
      validateUUID id = None
      /\ statements_of (getParticipant id db) = [SelectById id]
      /\ statements_of (deleteParticipant id db) = [DeleteReturning id]
      /\ (validateParticipantData b = [] ->
          exists rest,
            statements_of (updateParticipant id b db) = SelectById id :: rest)).
Proof.
  cbv zeta. split; [apply uuid_test_spec|].
  assert (Hget : Uuid.test id = true ->
                 statements_of (getParticipant id db) = [SelectById id]).
  { intros Ht. apply validateUUID_None in Ht. unfold getParticipant.
    rewrite Ht. destruct (Sql.selectById id db) as [|[i r] l]; reflexivity. }
  assert (Hdel : Uuid.test id = true ->
                 statements_of (deleteParticipant id db) = [DeleteReturning id]).
  { intros Ht. apply validateUUID_None in Ht. unfold deleteParticipant.
    rewrite Ht. destruct (Sql.deleteReturning id db) as [[|i l] db'];
      reflexivity. }
  assert (Hrej : Uuid.test id = false ->
                 exists r, validateUUID id = Some r /\ status r = 400).
  { intros Ht. destruct (validateUUID id) as [r|] eqn:Hv.
    - exists r. split; [reflexivity|]. apply (validateUUID_Some id r Hv).
    - apply validateUUID_None in Hv. congruence. }
  assert (Hrget : Uuid.test id = false ->
                  statusOf (getParticipant id db) = 400
                  /\ statements_of (getParticipant id db) = []
                  /\ table_of (getParticipant id db) = db).
  { intros Ht. destruct (Hrej Ht) as (r & Hv & Hs).
    unfold getParticipant, statusOf. rewrite Hv. auto. }
  assert (Hrdel : Uuid.test id = false ->
                  statusOf (deleteParticipant id db) = 400
                  /\ statements_of (deleteParticipant id db) = []
                  /\ table_of (deleteParticipant id db) = db).
  { intros Ht. destruct (Hrej Ht) as (r & Hv & Hs).
    unfold deleteParticipant, statusOf. rewrite Hv. auto. }
  assert (Hrupd : Uuid.test id = false ->
                  statusOf (updateParticipant id b db) = 400
                  /\ statements_of (updateParticipant id b db) = []
                  /\ table_of (updateParticipant id b db) = db).
  { intros Ht. destruct (Hrej Ht) as (r & Hv & Hs).
    unfold updateParticipant, statusOf. rewrite Hv. auto. }
  split; [split; [exact Hrget|]|].
  { intros (_ & Hst & _). destruct (Uuid.test id) eqn:Ht; [|reflexivity].
    rewrite (Hget eq_refl) in Hst. discriminate. }
  split; [split; [exact Hrdel|]|].
  { intros (_ & Hst & _). destruct (Uuid.test id) eqn:Ht; [|reflexivity].
    rewrite (Hdel eq_refl) in Hst. discriminate. }
  split; [exact Hrupd|].
  intros Ht. split; [apply validateUUID_None; exact Ht|].
  split; [exact (Hget Ht)|]. split; [exact (Hdel Ht)|].
  intros Hb. apply validateUUID_None in Ht. unfold updateParticipant.
  rewrite Ht, Hb. unfold updateChecked.
  destruct (Sql.selectById id db) as [|[i current] l];
    [eexists; reflexivity|].
  cbv zeta. destruct (nameChanged _ _ && negb _); [eexists; reflexivity|].
  destruct (nameChanged _ _ && _); [eexists; reflexivity|].
  destruct (calculateFinalAverage _ _); [eexists; reflexivity|].
  destruct (negb _); [eexists; reflexivity|].
  destruct (Sql.update _ _ _); eexists; reflexivity.
Qed.

Lemma id_validation_witness :
  statements_of
    (getParticipant "123e4567-e89b-12d3-a456-426614174000" ∅)
  = [SelectById "123e4567-e89b-12d3-a456-426614174000"]
  /\ statusOf (getParticipant "invalid-uuid" ∅) = 400.
Proof.
  split.
  - apply (id_validation "123e4567-e89b-12d3-a456-426614174000"
             (Body.make JUndefined JUndefined JUndefined JUndefined) ∅).
    vm_compute. reflexivity.
  - apply (id_validation "invalid-uuid"
             (Body.make JUndefined JUndefined JUndefined JUndefined) ∅).
    vm_compute. reflexivity.
Defined.

(** ** The page size *)

Example limitOf_examples :
  Query.limitOf (Query.make None None None None) = JsInteger.Int 50
  /\ Query.limitOf (Query.make None (Some "abc") None None) = JsInteger.Int 50
  /\ Query.limitOf (Query.make None (Some "0") None None) = JsInteger.Int 50
  /\ Query.limitOf (Query.make None (Some "25") None None) = JsInteger.Int 25
  /\ Query.limitOf (Query.make None (Some "1000") None None)
     = JsInteger.Int 100
  /\ Query.limitOf (Query.make None (Some " 7.9") None None) = JsInteger.Int 7
  /\ Query.limitOf (Query.make None (Some "0x20") None None)
     = JsInteger.Int 32.
Proof. repeat split; reflexivity. Qed.

(** The limit is the smaller of 100 and a number that is not falsy. *)
Lemma limit_le_100 (q : Query.t) :
  JsInteger.leb (Query.limitOf q) (JsInteger.Int 100) = true
  /\ JsInteger.falsy (Query.limitOf q) = false.
Proof.
  unfold Query.limitOf.
  destruct (min_bounded
              (JsInteger.orElse (Query.parseInt (Query.limit q))
                 (JsInteger.Int 50)) 100) as (Hle & Hnz & _);
    [apply orElse_truthy; reflexivity|lia|auto].
Qed.

(** C3, as stated, does not hold: [?limit=-5] is neither defaulted nor
    raised; the limit used is -5, which PostgreSQL refuses, and the
    route answers 500. *)
Lemma negative_limit_not_clamped :
  Query.limitOf (Query.make None (Some "-5") None None) = JsInteger.Int (-5)
  /\ statements_of
       (listParticipants (Query.make None (Some "-5") None None) ∅)
     = [SelectPage "full_name" "ASC" (JsInteger.Int (-5)) (JsInteger.Int 0)]
  /\ statusOf (listParticipants (Query.make None (Some "-5") None None) ∅)
     = 500.
Proof. repeat split; vm_compute; reflexivity. Qed.

(** C3 (as amended): whatever the [limit] parameter is, the limit used
    for the query is at most 100; it is an integer in [1,100] whenever
    the parameter is absent, not numeric, zero or a positive number (up
    to and above 100), that is whenever [parseInt] does not read a
    negative integer from it. *)
Theorem limit_bounds (q : Query.t) (db : table) :
  JsInteger.leb (Query.limitOf q) (JsInteger.Int 100) = true
  /\ ((forall n, Query.mathInt (Query.limit q) = Some n -> 0 <= n) ->
      exists l, Query.limitOf q = JsInteger.Int l /\ 1 <= l <= 100)
  /\ (Query.allowed (Query.sortByOf q) = true ->
      exists sortBy sortOrder offset rest,
        statements_of (listParticipants q db)
        = SelectPage sortBy sortOrder (Query.limitOf q) offset :: rest).
Proof.
  split; [apply limit_le_100|]. split.
  - intros Hpos. unfold Query.limitOf.
    destruct (min_bounded
                (JsInteger.orElse (Query.parseInt (Query.limit q))
                   (JsInteger.Int 50)) 100) as (_ & _ & Hin);
      [apply orElse_truthy; reflexivity|lia|].
    apply Hin. unfold JsInteger.orElse, Query.parseInt.
    destruct (Query.mathInt (Query.limit q)) as [n|]; [|reflexivity].
    destruct (JsInteger.falsy (JsInteger.round n)); [reflexivity|].
    destruct (JsInteger.negative (JsInteger.round n)) eqn:Hn; [|reflexivity].
    apply round_negative_iff in Hn. specialize (Hpos n eq_refl). lia.
  - intros Ha. unfold listParticipants. rewrite Ha. simpl.
    destruct (Sql.selectPage _ _ _ _ _); repeat eexists.
Qed.

Lemma limit_bounds_witness :
  exists l,
    Query.limitOf (Query.make None (Some "250") None None) = JsInteger.Int l
    /\ 1 <= l <= 100.
Proof.
  apply (limit_bounds (Query.make None (Some "250") None None) ∅).
  intros n H. vm_compute in H. injection H as <-. lia.
Defined.

(** ** Required fields *)

(** C4, as stated, does not hold: the 400 of a body without
    [first_semester] and [second_semester] carries the fixed message
    that lists all four required fields, [full_name] and [age]
    included, which the body has. *)
Lemma required_message_names_present_fields :
  let b := Body.make (JStr "Ana") (JNum 25%float) JUndefined JUndefined in
  let o := createParticipant "123e4567-e89b-12d3-a456-426614174001" b ∅ in
  response_of o = Response 400 (Error requiredFields)
  /\ missing (Body.full_name b) = false
  /\ namesField (body (response_of o)) "full_name" = true
  /\ missing (Body.age b) = false
  /\ namesField (body (response_of o)) "age" = true.
Proof. repeat split; vm_compute; reflexivity. Qed.

(** C4 (as amended): a create request whose body lacks at least one of
    [full_name], [age], [first_semester], [second_semester] is answered
    400 with no statement sent and the table untouched.  When the
    properties it does have are valid the error is the fixed message
    listing all four required fields, whichever are missing; when one
    of them is invalid the error is the validation failure with its
    details. *)
Theorem missing_field_rejected (newId : string) (b : Body.t) (db : table) :
  missing (Body.full_name b) || missing (Body.age b)
  || missing (Body.first_semester b) || missing (Body.second_semester b)
  = true ->
  let o := createParticipant newId b db in
  statusOf o = 400 /\ statements_of o = [] /\ table_of o = db
  /\ body (response_of o)
     = match validateParticipantData b with
       | [] => Error requiredFields
       | errors => ErrorDetails "Dados inválidos" errors
       end.
Proof.
  intros Hm. cbv zeta. unfold createParticipant.
  destruct (validateParticipantData b) eqn:Hv; [|repeat split].
  destruct (checked_faithful b Hv) as (Hn & Ha & Hf & Hs).
  unfold createChecked.
  destruct (Checked.full_name (checked b)), (Checked.age (checked b)),
    (Checked.first_semester (checked b)),
    (Checked.second_semester (checked b)); try (repeat split; fail).
  rewrite Hn, Ha, Hf, Hs in Hm. discriminate Hm.
Qed.

Lemma missing_field_rejected_witness :
  statusOf
    (createParticipant "123e4567-e89b-12d3-a456-426614174001"
       (Body.make (JStr "Ana") (JNum 25%float) JUndefined JUndefined) ∅)
  = 400.
Proof.
  apply (missing_field_rejected "123e4567-e89b-12d3-a456-426614174001"
           (Body.make (JStr "Ana") (JNum 25%float) JUndefined JUndefined) ∅).
  reflexivity.
Defined.

(** ** Name conflicts on create *)

(** C5, as stated, does not hold.  With one participant named "Ana"
    stored: a valid request for " Ana " is answered 409, although with
    its blanks the name is not that of any participant even ignoring
    case (the handler compares the trimmed name); and a request for
    "ANA" with an invalid age is answered 400, not 409 (validation
    comes first). *)
Lemma conflict_on_trimmed_name :
  let db : table :=
    {[ "123e4567-e89b-12d3-a456-426614174000"
       := Row "Ana" 30%float 7%float 8%float 7.5%float ]} in
  let spaced := Body.make (JStr " Ana ") (JNum 20%float) (JNum 9%float)
                  (JNum 8.5%float) in
  let invalid := Body.make (JStr "ANA") (JNum (-1)%float) (JNum 9%float)
                   (JNum 8.5%float) in
  validateParticipantData spaced = []
  /\ String.eqb (JsString.toLowerCase " Ana ") (JsString.toLowerCase "Ana")
     = false
  /\ statusOf (createParticipant "123e4567-e89b-12d3-a456-426614174001"
                 spaced db) = 409
  /\ String.eqb (JsString.toLowerCase "ANA") (JsString.toLowerCase "Ana")
     = true
  /\ statusOf (createParticipant "123e4567-e89b-12d3-a456-426614174001"
                 invalid db) = 400.
Proof. repeat split; vm_compute; reflexivity. Qed.

(** A name with the code unit 0 in it passes validation, and the name
    check it is sent with is refused: the answer is 500. *)
Example nul_name_refused :
  let name := String "A" (String (ascii_of_N 0) "B") in
  let b := Body.make (JStr name) (JNum 20%float) (JNum 9%float)
             (JNum 8.5%float) in
  validateParticipantData b = []
  /\ createParticipant "123e4567-e89b-12d3-a456-426614174001" b ∅
     = reply 500 internalError ∅ [SelectIdByLowerName name].
Proof. split; vm_compute; reflexivity. Qed.

Lemma lowerChar_zero (c : ascii) :
  (JsString.code (JsString.lowerChar c) =? 0)%N = (JsString.code c =? 0)%N.
Proof. destruct c as [[] [] [] [] [] [] [] []]; reflexivity. Qed.

(** Lower-casing neither adds nor removes a code unit 0. *)
Lemma text_toLowerCase (s : string) :
  Sql.text (JsString.toLowerCase s) = Sql.text s.
Proof.
  unfold JsString.toLowerCase.
  induction s as [|c s IH]; [reflexivity|].
  cbn [JsString.mapChars Sql.text]. rewrite lowerChar_zero, IH. reflexivity.
Qed.

Lemma text_same_lower (s u : string) :
  JsString.toLowerCase s = JsString.toLowerCase u ->
  Sql.text s = Sql.text u.
Proof.
  intros H. rewrite <- (text_toLowerCase s), <- (text_toLowerCase u), H.
  reflexivity.
Qed.

(** C5 (as amended): for every create request that passes validation
    with all four fields.  If its [full_name], once trimmed, holds the
    code unit 0, PostgreSQL refuses the name check: the answer is 500
    and nothing is inserted.  Otherwise: if the trimmed name equals
    ignoring case the [full_name] of some stored participant, the
    answer is 409 and nothing is inserted; if not, the answer is 201
    with the stored record, which is also the row now in the table
    under the generated id (an id the table does not hold yet).  On a
    table whose names are texts, as the column is, a name that collides
    is never a refused one. *)
Theorem create_conflict (newId name : string) (b : Body.t) (db : table) :
  validateParticipantData b = [] ->
  parsedBody b ->
  Body.full_name b = JStr name ->
  missing (Body.age b) || missing (Body.first_semester b)
  || missing (Body.second_semester b) = false ->
  let o := createParticipant newId b db in
  let collides :=
    exists i r, db !! i = Some r
      /\ JsString.toLowerCase (full_name r)
         = JsString.toLowerCase (JsString.trim name) in
  (Sql.text (JsString.trim name) = false ->
   response_of o = Response 500 internalError /\ table_of o = db
   /\ statements_of o = [SelectIdByLowerName (JsString.trim name)])
  /\ (Sql.text (JsString.trim name) = true -> collides ->
      statusOf o = 409 /\ table_of o = db
      /\ statements_of o = [SelectIdByLowerName (JsString.trim name)])
  /\ (Sql.text (JsString.trim name) = true -> ~ collides ->
      db !! newId = None ->
      exists r,
        response_of o = Response 201 (Participant newId r)
        /\ table_of o = <[newId := r]> db
        /\ full_name r = JsString.trim name
        /\ Body.age b = JNum (age r)
        /\ Body.first_semester b = JNum (first_semester r)
        /\ Body.second_semester b = JNum (second_semester r))
  /\ (textNames db -> collides -> Sql.text (JsString.trim name) = true).
Proof.
  intros Hv (_ & Hpf & Hps) Hname Hm. cbv zeta.
  destruct (checked_faithful b Hv) as (Hn & Ha & Hf & Hs).
  pose proof Hv as Hv'.
  apply validateParticipantData_nil in Hv' as (Hne & _).
  rewrite Hname in Hne. apply nameErrors_nil in Hne as [Hne|(s & [= <-] & Hlen)];
    [discriminate|].
  apply proj1, trim_empty_len in Hlen. apply String.eqb_neq in Hlen.
  unfold createParticipant. rewrite Hv. unfold createChecked.
  destruct (Checked.full_name (checked b)) as [name'|] eqn:En;
    rewrite Hname in Hn; simpl in Hn; [|discriminate].
  injection Hn as <-.
  destruct (Checked.age (checked b)) as [years|];
    [|rewrite Ha in Hm; discriminate].
  destruct (Checked.first_semester (checked b)) as [first|];
    [|rewrite Hf, orb_true_r in Hm; discriminate].
  destruct (Checked.second_semester (checked b)) as [second|];
    [|rewrite Hs, orb_true_r in Hm; discriminate].
  rewrite Hlen. rewrite Hf in Hpf. rewrite Hs in Hps. simpl in Hpf, Hps.
  destruct (calculateFinalAverage_defined first second Hpf Hps) as [average ->].
  split; [|split; [|split]].
  - intros ->. repeat split.
  - intros -> (i & r & Hi & Hr). cbn [negb].
    assert (Hq : nonEmpty (Sql.selectIdByLowerName (JsString.trim name) db)
                 = true).
    { apply nonEmpty_true. exists i. apply selectIdByLowerName_elem.
      exists r. auto. }
    rewrite Hq. repeat split.
  - intros -> Hno Hfresh. cbn [negb].
    assert (Hq : Sql.selectIdByLowerName (JsString.trim name) db = []).
    { apply list_nil_no_elem. intros i Hi.
      apply selectIdByLowerName_elem in Hi as (r & Hi & Hr).
      apply Hno. exists i, r. auto. }
    rewrite Hq. simpl. unfold Sql.insert. rewrite Hfresh.
    assert (Hh : Sql.holdersOf (JsString.trim name) newId db = []).
    { apply list_nil_no_elem. intros i Hi.
      apply holdersOf_elem in Hi as (r & Hi & Hr & _).
      apply Hno. exists i, r. rewrite Hr. auto. }
    simpl. rewrite Hh. eexists. repeat split; simpl; assumption.
  - intros Htext (i & r & Hi & Hr).
    rewrite <- (text_same_lower _ _ Hr). exact (Htext i r Hi).
Qed.

Lemma create_conflict_witness :
  let db : table :=
    {[ "123e4567-e89b-12d3-a456-426614174000"
       := Row "Ana" 30%float 7%float 8%float 7.5%float ]} in
  let b := Body.make (JStr " ANA ") (JNum 20%float) (JNum 9%float)
             (JNum 8.5%float) in
  statusOf (createParticipant "123e4567-e89b-12d3-a456-426614174001" b db)
  = 409.
Proof.
  cbv zeta.
  refine (proj1 (proj1 (proj2 (create_conflict
            "123e4567-e89b-12d3-a456-426614174001" " ANA "
            (Body.make (JStr " ANA ") (JNum 20%float) (JNum 9%float)
               (JNum 8.5%float))
            {[ "123e4567-e89b-12d3-a456-426614174000"
               := Row "Ana" 30%float 7%float 8%float 7.5%float ]}
            _ _ _ _)) _ _)).
  - reflexivity.
  - repeat split; reflexivity.
  - reflexivity.
  - reflexivity.
  - reflexivity.
  - exists "123e4567-e89b-12d3-a456-426614174000",
      (Row "Ana" 30%float 7%float 8%float 7.5%float).
    split; reflexivity.
Defined.

(** ** Partial update *)

(** C6, as stated, does not hold for [full_name]: the value stored is
    the supplied one trimmed, so a supplied " Ana " is stored as "Ana". *)
Lemma update_stores_trimmed_name :
  let id := "123e4567-e89b-12d3-a456-426614174000" in
  let db : table := {[ id := Row "Bob" 30%float 7%float 8%float 7.5%float ]} in
  let b := Body.make (JStr " Ana ") JUndefined JUndefined JUndefined in
  response_of (updateParticipant id b db)
  = Response 200 (Participant id (Row "Ana" 30%float 7%float 8%float 7.5%float))
  /\ table_of (updateParticipant id b db) !! id
     = Some (Row "Ana" 30%float 7%float 8%float 7.5%float)
  /\ String.eqb "Ana" " Ana " = false.
Proof. repeat split; vm_compute; reflexivity. Qed.

(** C6 (as amended): after every successful update the row under the
    same id holds, for each of the four fields, the stored value when
    the body lacks the field and the supplied value when it has it,
    [full_name] being stored trimmed; every other row is untouched and
    the response carries the id of the request (as the [uuid] column
    prints it).  In particular an update of an existing participant
    with a well-formed id and a valid body that has no [full_name], or
    one that trims to the stored name, is answered 200 and the name is
    the one stored before.  (The table of the second part is one that
    meets its schema: no name twice, scores that are numbers, and a
    stored name that is a text; lemmas [reachable_invariants] and
    [reachable_textNames] show the tables of the service to be such.) *)
Theorem update_merges (id : string) (b : Body.t) (db : table) :
  let o := updateParticipant id b db in
  (forall i r, statusOf o = 200 -> rowOf o = Some (i, r) ->
     i = Sql.uuid id
     /\ table_of o = <[Sql.uuid id := r]> db
     /\ exists current,
          db !! Sql.uuid id = Some current
          /\ (Body.full_name b = JUndefined /\ full_name r = full_name current
              \/ exists name, Body.full_name b = JStr name
                              /\ full_name r = JsString.trim name)
          /\ (Body.age b = JUndefined /\ age r = age current
              \/ Body.age b = JNum (age r))
          /\ (Body.first_semester b = JUndefined
              /\ first_semester r = first_semester current
              \/ Body.first_semester b = JNum (first_semester r))
          /\ (Body.second_semester b = JUndefined
              /\ second_semester r = second_semester current
              \/ Body.second_semester b = JNum (second_semester r)))
  /\ (forall current,
        Uuid.test id = true -> validateParticipantData b = [] ->
        parsedBody b -> uniqueNames db -> numericScores db ->
        db !! Sql.uuid id = Some current ->
        Sql.text (full_name current) = true ->
        (Body.full_name b = JUndefined
         \/ exists name, Body.full_name b = JStr name
                         /\ JsString.trim name = full_name current) ->
        statusOf o = 200
        /\ exists r, rowOf o = Some (Sql.uuid id, r)
                     /\ full_name r = full_name current).
Proof.
  cbv zeta. split.
  - intros i r Hs Hr.
    destruct (updateParticipant_200 id b db Hs) as (_ & Hv & _).
    destruct (checked_faithful b Hv) as (Hn & Ha & Hf & Hse).
    destruct (updated_row _ _ _ _ _ Hs Hr)
      as (-> & Ht & current & Hl & En & Ea & Ef & Ese & _).
    repeat split; auto. exists current. split; [exact Hl|].
    rewrite Hn, Ha, Hf, Hse, En, Ea, Ef, Ese.
    destruct (Checked.full_name (checked b)),
      (Checked.age (checked b)), (Checked.first_semester (checked b)),
      (Checked.second_semester (checked b)); simpl; repeat split; eauto.
  - intros current Ht Hv (_ & Hpf & Hps) Hu Hnum Hl Htext Hname.
    destruct (checked_faithful b Hv) as (Hn & Ha & Hf & Hse).
    apply validateUUID_None in Ht.
    unfold updateParticipant. rewrite Ht, Hv.
    unfold updateChecked, Sql.selectById. rewrite Hl. cbv zeta.
    assert (Hsame : nameChanged (Checked.full_name (checked b)) current = false
                    /\ match Checked.full_name (checked b) with
                       | Some n => JsString.trim n
                       | None => full_name current
                       end = full_name current).
    { destruct Hname as [Hname|(name & Hname & Hsame)];
        rewrite Hname in Hn;
        destruct (Checked.full_name (checked b)) as [n|]; try discriminate.
      - split; reflexivity.
      - injection Hn as ->. unfold nameChanged.
        rewrite Hsame, String.eqb_refl. split; reflexivity. }
    destruct Hsame as [-> ->]. cbn [andb].
    destruct (Hnum _ _ Hl) as [Hcf Hcs].
    assert (Hfirst : JsNumber.isNaN
                       (default (first_semester current)
                          (Checked.first_semester (checked b))) = false).
    { destruct (Checked.first_semester (checked b)); simpl; [|exact Hcf].
      rewrite Hf in Hpf. exact Hpf. }
    assert (Hsecond : JsNumber.isNaN
                        (default (second_semester current)
                           (Checked.second_semester (checked b))) = false).
    { destruct (Checked.second_semester (checked b)); simpl; [|exact Hcs].
      rewrite Hse in Hps. exact Hps. }
    destruct (calculateFinalAverage_defined _ _ Hfirst Hsecond) as [average ->].
    rewrite Htext. cbn [negb].
    unfold Sql.update. cbn [full_name].
    assert (Hh : Sql.holdersOf (full_name current) (Sql.uuid id) db = []).
    { apply list_nil_no_elem. intros j Hj.
      apply holdersOf_elem in Hj as (s & Hj & Hs & Hne).
      apply Hne. exact (Hu j (Sql.uuid id) s current Hj Hl Hs). }
    rewrite Hh. split; [reflexivity|]. eexists. split; reflexivity.
Qed.

Lemma update_merges_witness :
  let id := "123e4567-e89b-12d3-a456-426614174000" in
  let db : table := {[ id := Row "Bob" 30%float 7%float 8%float 7.5%float ]} in
  let b := Body.make JUndefined JUndefined (JNum 9.5%float) JUndefined in
  statusOf (updateParticipant id b db) = 200.
Proof.
  cbv zeta.
  refine (proj1 (proj2 (update_merges
            "123e4567-e89b-12d3-a456-426614174000"
            (Body.make JUndefined JUndefined (JNum 9.5%float) JUndefined)
            {[ "123e4567-e89b-12d3-a456-426614174000"
               := Row "Bob" 30%float 7%float 8%float 7.5%float ]})
            (Row "Bob" 30%float 7%float 8%float 7.5%float)
            _ _ _ _ _ _ _ _)).
  - reflexivity.
  - reflexivity.
  - repeat split; reflexivity.
  - intros i j r s Hi Hj _.
    apply lookup_singleton_Some in Hi as [<- _].
    apply lookup_singleton_Some in Hj as [<- _]. reflexivity.
  - intros i r Hi. apply lookup_singleton_Some in Hi as [_ <-].
    split; reflexivity.
  - reflexivity.
  - reflexivity.
  - left. reflexivity.
Defined.

(** ** The page query orders by its column *)

Section Ordering.
Implicit Types (l : list (string * row)) (x y : string * row).

Lemma insertOrdered_Permutation le x l :
  Permutation (Sql.insertOrdered le x l) (x :: l).
Proof.
  induction l as [|y l IH]; simpl; [reflexivity|].
  destruct (le x y); [reflexivity|].
  rewrite IH. apply perm_swap.
Qed.

Lemma insertOrdered_Sorted le x l :
  (forall a b, le a b = false -> le b a = true) ->
  Sorted (fun a b => le a b = true) l ->
  Sorted (fun a b => le a b = true) (Sql.insertOrdered le x l).
Proof.
  intros Htotal. induction l as [|y l IH]; simpl; intros Hs.
  - repeat constructor.
  - destruct (le x y) eqn:Hxy.
    + constructor; [exact Hs|]. constructor. exact Hxy.
    + apply Sorted_inv in Hs as [Hs Hhd]. constructor; [exact (IH Hs)|].
      destruct l as [|z l]; simpl.
      * constructor. exact (Htotal x y Hxy).
      * destruct (le x z).
        -- constructor. exact (Htotal x y Hxy).
        -- constructor. apply HdRel_inv in Hhd. exact Hhd.
Qed.

Lemma orderBy_Permutation column sortOrder l :
  Permutation (Sql.orderBy column sortOrder l) l.
Proof.
  unfold Sql.orderBy. induction l as [|x l IH]; simpl; [reflexivity|].
  rewrite insertOrdered_Permutation. constructor. exact IH.
Qed.

(** The rows come out ordered by the column, in the direction asked,
    provided the column's values are comparable (no NaN). *)
Lemma orderBy_Sorted column sortOrder l :
  (forall a b, Sql.columnLe column a b = false ->
               Sql.columnLe column b a = true) ->
  Sorted (fun a b => Sql.orderOf column sortOrder a b = true)
    (Sql.orderBy column sortOrder l).
Proof.
  intros Htotal. unfold Sql.orderBy, Sql.orderOf.
  destruct (String.eqb sortOrder "DESC");
    (induction l as [|x l IH]; simpl;
     [constructor|apply insertOrdered_Sorted; [|exact IH]]);
    intros a b; apply Htotal.
Qed.

Lemma full_name_comparable (a b : string * row) :
  Sql.columnLe "full_name" a b = false -> Sql.columnLe "full_name" b a = true.
Proof.
  unfold Sql.columnLe. simpl. intros H.
  destruct (String.leb_total (full_name a.2) (full_name b.2)); congruence.
Qed.

Lemma SFcompare_antisym (x y : spec_float) (c : comparison) :
  SFcompare x y = Some c -> SFcompare y x = Some (CompOpp c).
Proof.
  destruct x as [s1| s1| |s1 m1 e1], y as [s2|s2| |s2 m2 e2]; simpl;
    try discriminate; intros [= <-];
    try (destruct s1; reflexivity); try (destruct s2; reflexivity);
    try (destruct s1, s2; reflexivity).
  destruct s1, s2; try reflexivity; f_equal;
    rewrite (Z.compare_antisym e1 e2); destruct (e1 ?= e2); simpl;
      try reflexivity;
      change (Pos.compare_cont Eq m2 m1)
        with (Pos.compare_cont (CompOpp Eq) m2 m1);
      rewrite <- (Pos.compare_cont_antisym m1 m2 Eq);
      destruct (Pos.compare_cont Eq m1 m2); reflexivity.
Qed.

(** Two numbers are comparable unless one is NaN. *)
Lemma leb_total (x y : float) :
  JsNumber.isNaN x = false -> JsNumber.isNaN y = false ->
  PrimFloat.leb x y = false -> PrimFloat.leb y x = true.
Proof.
  unfold JsNumber.isNaN, PrimFloat.is_nan.
  rewrite !FloatAxioms.eqb_spec, !FloatAxioms.leb_spec.
  unfold SFeqb, SFleb. intros Hx Hy.
  destruct (SFcompare (Prim2SF x) (Prim2SF y)) as [c|] eqn:Hc.
  - rewrite (SFcompare_antisym _ _ _ Hc). destruct c; simpl; congruence.
  - destruct (Prim2SF x), (Prim2SF y); simpl in *; discriminate.
Qed.

End Ordering.

(** ** The sort field *)

Lemma allowed_In (field : string) :
  Query.allowed field = true <-> In field Query.allowedSortFields.
Proof.
  unfold Query.allowed. rewrite existsb_exists. split.
  - intros (x & Hx & He). apply String.eqb_eq in He. subst. exact Hx.
  - intros H. exists field. split; [exact H|apply String.eqb_refl].
Qed.

(** C7, as stated, does not hold: [?sortBy=] carries a [sortBy] that is
    present and is none of the five fields, yet the route answers 200,
    ordering by [full_name]; the empty string is replaced by the
    default like an absent parameter. *)
Lemma empty_sortBy_is_defaulted :
  let q := Query.make None None (Some "") None in
  Query.sortBy q = Some ""
  /\ Query.allowed "" = false
  /\ statusOf (listParticipants q ∅) = 200
  /\ statements_of (listParticipants q ∅)
     = [SelectPage "full_name" "ASC" (JsInteger.Int 50) (JsInteger.Int 0);
        SelectCount].
Proof. repeat split; vm_compute; reflexivity. Qed.

(** The page query goes through exactly when PostgreSQL takes both
    numbers as row counts. *)
Lemma selectPage_Some (column sortOrder : string)
  (limit offset : JsInteger.t) (db : table) :
  is_Some (Sql.selectPage column sortOrder limit offset db) <->
  exists l f, limit = JsInteger.Int l /\ offset = JsInteger.Int f
    /\ 0 <= l /\ JsInteger.printed l < 2 ^ 63
    /\ 0 <= f /\ JsInteger.printed f < 2 ^ 63.
Proof.
  unfold Sql.selectPage. split.
  - destruct (Sql.rowCount limit) as [l|] eqn:Hl;
      [|intros [x Hx]; discriminate].
    destruct (Sql.rowCount offset) as [f|] eqn:Hf;
      [|intros [x Hx]; discriminate].
    intros _.
    apply rowCount_Some in Hl as (l' & -> & Hl0 & -> & Hl1).
    apply rowCount_Some in Hf as (f' & -> & Hf0 & -> & Hf1).
    exists l', f'. auto 10.
  - intros (l & f & -> & -> & Hl0 & Hl1 & Hf0 & Hf1).
    rewrite (proj2 (rowCount_Some (JsInteger.Int l) (JsInteger.printed l)))
      by eauto 10.
    rewrite (proj2 (rowCount_Some (JsInteger.Int f) (JsInteger.printed f)))
      by eauto 10.
    eauto.
Qed.

(** C7 (as amended): a list request whose [sortBy] is present, not
    empty and not one of [full_name], [age], [final_average],
    [first_semester], [second_semester] is answered 400 with no
    statement sent.  For a [sortBy] among the five, and for an absent or
    empty one with [full_name] in its place, the first statement sent
    is the page query ordered by that field; its rows are what the
    response carries (status 200) unless PostgreSQL refuses the LIMIT
    or the OFFSET (not an integer, negative, or digits beyond 64
    bits). *)
Theorem sort_field_checked (q : Query.t) (db : table) :
  let o := listParticipants q db in
  (forall s, Query.sortBy q = Some s -> s <> "" ->
     ~ In s Query.allowedSortFields ->
     statusOf o = 400 /\ statements_of o = [] /\ table_of o = db)
  /\ (forall s,
        Query.sortBy q = Some s /\ In s Query.allowedSortFields
        \/ (Query.sortBy q = None \/ Query.sortBy q = Some "")
           /\ s = "full_name" ->
        exists sortOrder limit offset rest,
          statements_of o = SelectPage s sortOrder limit offset :: rest
          /\ (statusOf o = 200 \/ statusOf o = 500)
          /\ (statusOf o = 200 <->
              exists l f,
                limit = JsInteger.Int l /\ offset = JsInteger.Int f
                /\ 0 <= l /\ 0 <= f /\ JsInteger.printed f < 2 ^ 63)
          /\ forall rows,
               Sql.selectPage s sortOrder limit offset db = Some rows ->
               exists page total totalPages,
                 body (response_of o)
                 = Page rows page limit total totalPages).
Proof.
  cbv zeta. split.
  - intros s Hs Hne Hnot. unfold listParticipants, Query.sortByOf.
    rewrite Hs. apply String.eqb_neq in Hne. rewrite Hne.
    destruct (Query.allowed s) eqn:Ha; [|repeat split].
    apply allowed_In in Ha. contradiction.
  - intros s Hs.
    assert (Hby : Query.sortByOf q = s /\ Query.allowed s = true).
    { unfold Query.sortByOf.
      destruct Hs as [[-> Hin]|[[->| ->] ->]]; [|split; reflexivity..].
      destruct (String.eqb_spec s "") as [->|_].
      - exfalso. simpl in Hin. intuition discriminate.
      - split; [reflexivity|]. apply allowed_In. exact Hin. }
    destruct Hby as [Hby Ha]. unfold listParticipants. rewrite Hby, Ha.
    cbn [negb].
    exists (Query.sortOrderOf q), (Query.limitOf q), (Query.offsetOf q).
    pose proof (proj1 (limit_le_100 q)) as Hmax.
    pose proof (selectPage_Some s (Query.sortOrderOf q) (Query.limitOf q)
                  (Query.offsetOf q) db) as Hsome.
    destruct (Sql.selectPage s (Query.sortOrderOf q) (Query.limitOf q)
                (Query.offsetOf q) db) as [rows|] eqn:Hpage.
    + eexists. split; [reflexivity|]. unfold statusOf; simpl.
      split; [left; reflexivity|]. split.
      * split; [intros _|reflexivity].
        destruct (proj1 Hsome ltac:(eauto))
          as (l & f & Hl & Hf & Hl0 & _ & Hf0 & Hf1).
        exists l, f. auto 10.
      * intros rows' [= <-]. repeat eexists.
    + eexists. split; [reflexivity|]. unfold statusOf; simpl.
      split; [right; reflexivity|]. split; [|discriminate].
      split; [discriminate|]. intros (l & f & Hl & Hf & Hl0 & Hf0 & Hf1).
      exfalso. apply (is_Some_None (A := list (string * row))).
      apply Hsome. exists l, f. repeat split; auto.
      rewrite Hl in Hmax. cbn in Hmax. apply negb_true_iff, Z.ltb_ge in Hmax.
      rewrite printed_small by lia. lia.
Qed.

Lemma sort_field_checked_witness :
  statusOf
    (listParticipants (Query.make None None (Some "id; DROP TABLE x") None) ∅)
  = 400.
Proof.
  refine (proj1 (proj1 (sort_field_checked
            (Query.make None None (Some "id; DROP TABLE x") None) ∅)
            "id; DROP TABLE x" _ _ _)).
  - reflexivity.
  - discriminate.
  - simpl. intuition discriminate.
Defined.

(** ** Delete *)

(** C8: for a well-formed id, delete answers 204 with an empty body
    when a participant with that id exists, and afterwards the table is
    the former one without that row and no other change; it answers 404
    when no participant has the id, leaving the table as it is.  After a
    successful delete, a get of the same id answers 404.  (A row has
    the id when its key is the [uuid] value the id denotes.) *)
Theorem delete_then_get (id : string) (db : table) :
  Uuid.test id = true ->
  let o := deleteParticipant id db in
  (forall r, db !! Sql.uuid id = Some r ->
     response_of o = Response 204 Empty
     /\ table_of o = delete (Sql.uuid id) db
     /\ table_of o !! Sql.uuid id = None
     /\ (forall j, j <> Sql.uuid id -> table_of o !! j = db !! j)
     /\ response_of (getParticipant id (table_of o)) = Response 404 notFound)
  /\ (db !! Sql.uuid id = None ->
      response_of o = Response 404 notFound /\ table_of o = db).
Proof.
  intros Ht. cbv zeta. apply validateUUID_None in Ht.
  unfold deleteParticipant, Sql.deleteReturning. rewrite Ht. split.
  - intros r Hr. rewrite Hr. simpl. repeat split.
    + apply lookup_delete_eq.
    + intros j Hj. apply lookup_delete_ne. congruence.
    + unfold getParticipant, Sql.selectById.
      rewrite Ht, lookup_delete_eq. reflexivity.
  - intros Hr. rewrite Hr. split; reflexivity.
Qed.

Lemma delete_then_get_witness :
  let id := "123e4567-e89b-12d3-a456-426614174000" in
  let db : table := {[ id := Row "Bob" 30%float 7%float 8%float 7.5%float ]} in
  statusOf (deleteParticipant id db) = 204
  /\ statusOf (getParticipant id (table_of (deleteParticipant id db))) = 404.
Proof.
  cbv zeta.
  assert (Hl : ({[ "123e4567-e89b-12d3-a456-426614174000"
                   := Row "Bob" 30%float 7%float 8%float 7.5%float ]} : table)
               !! "123e4567-e89b-12d3-a456-426614174000"
               = Some (Row "Bob" 30%float 7%float 8%float 7.5%float))
    by (vm_compute; reflexivity).
  destruct (proj1 (delete_then_get "123e4567-e89b-12d3-a456-426614174000"
              {[ "123e4567-e89b-12d3-a456-426614174000"
                 := Row "Bob" 30%float 7%float 8%float 7.5%float ]}
              eq_refl) _ Hl)
    as (H1 & _ & _ & _ & H2).
  unfold statusOf. rewrite H1, H2. split; reflexivity.
Defined.

(** ** Renaming to the same name *)

(** The statements of an update that found its participant: the lookup,
    the uniqueness check exactly when the name changed beyond case and
    surrounding blanks, then the UPDATE unless the handler answered
    before it. *)
Lemma updateParticipant_statements (id : string) (b : Body.t) (db : table)
  (current : row) :
  Uuid.test id = true -> validateParticipantData b = [] ->
  db !! Sql.uuid id = Some current ->
  exists n tail,
    statements_of (updateParticipant id b db)
    = SelectById id
      :: (if nameChanged (Checked.full_name (checked b)) current
          then [SelectIdByLowerNameExcept n id] else [])
      ++ tail
    /\ (tail = [] \/ exists r, tail = [UpdateReturning r id]).
Proof.
  intros Ht Hv Hl. apply validateUUID_None in Ht.
  unfold updateParticipant. rewrite Ht, Hv.
  unfold updateChecked, Sql.selectById. rewrite Hl. cbv zeta.
  eexists.
  destruct (nameChanged (Checked.full_name (checked b)) current && negb _).
  { exists []. rewrite app_nil_r. split; [reflexivity|left; reflexivity]. }
  destruct (nameChanged (Checked.full_name (checked b)) current && _).
  { exists []. rewrite app_nil_r. split; [reflexivity|left; reflexivity]. }
  destruct (calculateFinalAverage _ _).
  { exists []. rewrite app_nil_r. split; [reflexivity|left; reflexivity]. }
  destruct (negb _); [eexists; (split; [reflexivity|]);
                      right; eexists; reflexivity|].
  destruct (Sql.update _ _ _); eexists; (split; [reflexivity|]);
    right; eexists; reflexivity.
Qed.

(** C9: an update whose supplied [full_name], trimmed and lower-cased,
    equals the lower-cased current name of its participant sends no
    uniqueness query at all and is accepted: the answer is 200 and the
    row holds the trimmed supplied name.  The uniqueness query is sent
    only for a supplied name that differs from the current one after
    that normalisation.  (The request is one that reaches the handler:
    well-formed id, valid body, existing participant; the table is one
    whose names are distinct up to case and whose scores are numbers,
    and the current name is a text, as in every table the service
    produces.) *)
Theorem rename_to_same_name (id : string) (b : Body.t) (db : table)
  (current : row) :
  Uuid.test id = true -> validateParticipantData b = [] -> parsedBody b ->
  distinctNames db -> numericScores db ->
  db !! Sql.uuid id = Some current ->
  Sql.text (full_name current) = true ->
  let o := updateParticipant id b db in
  let checks := exists n i, SelectIdByLowerNameExcept n i ∈ statements_of o in
  (forall name,
     Body.full_name b = JStr name ->
     JsString.toLowerCase (JsString.trim name)
     = JsString.toLowerCase (full_name current) ->
     ~ checks
     /\ statusOf o = 200
     /\ exists r, rowOf o = Some (Sql.uuid id, r)
                  /\ table_of o !! Sql.uuid id = Some r
                  /\ full_name r = JsString.trim name)
  /\ (checks <->
      exists name,
        Body.full_name b = JStr name
        /\ JsString.toLowerCase (JsString.trim name)
           <> JsString.toLowerCase (full_name current)).
Proof.
  intros Ht Hv (_ & Hpf & Hps) Hd Hnum Hl Htext. cbv zeta.
  destruct (checked_faithful b Hv) as (Hn & Ha & Hf & Hse).
  destruct (updateParticipant_statements id b db current Ht Hv Hl)
    as (n & tail & Hst & Htail).
  assert (Hch : forall name, Body.full_name b = JStr name ->
            nameChanged (Checked.full_name (checked b)) current
            = negb (String.eqb (JsString.toLowerCase (JsString.trim name))
                      (JsString.toLowerCase (full_name current)))).
  { intros name Hname. rewrite Hname in Hn.
    destruct (Checked.full_name (checked b)); [|discriminate].
    injection Hn as ->. reflexivity. }
  assert (Hchecks :
    (exists n' i, SelectIdByLowerNameExcept n' i
                  ∈ statements_of (updateParticipant id b db))
    <-> nameChanged (Checked.full_name (checked b)) current = true).
  { rewrite Hst. split.
    - intros (n' & i & Hin).
      destruct (nameChanged _ _); [reflexivity|]. simpl in Hin.
      apply elem_of_cons in Hin as [Hin|Hin]; [discriminate|].
      destruct Htail as [->|[r ->]]; [inversion Hin|].
      apply list_elem_of_singleton in Hin. discriminate.
    - intros ->. exists n, id. simpl. right. left. }
  split.
  - intros name Hname Heq. rewrite Hchecks, (Hch name Hname), Heq.
    rewrite String.eqb_refl. split; [discriminate|].
    apply validateUUID_None in Ht.
    unfold updateParticipant. rewrite Ht, Hv.
    unfold updateChecked, Sql.selectById. rewrite Hl. cbv zeta.
    rewrite (Hch name Hname), Heq, String.eqb_refl. cbn [negb andb].
    rewrite Hname in Hn.
    destruct (Checked.full_name (checked b)) as [name'|]; [|discriminate].
    injection Hn as ->.
    destruct (Hnum _ _ Hl) as [Hcf Hcs].
    assert (Hfirst : JsNumber.isNaN
                       (default (first_semester current)
                          (Checked.first_semester (checked b))) = false).
    { destruct (Checked.first_semester (checked b)); simpl; [|exact Hcf].
      rewrite Hf in Hpf. exact Hpf. }
    assert (Hsecond : JsNumber.isNaN
                        (default (second_semester current)
                           (Checked.second_semester (checked b))) = false).
    { destruct (Checked.second_semester (checked b)); simpl; [|exact Hcs].
      rewrite Hse in Hps. exact Hps. }
    destruct (calculateFinalAverage_defined _ _ Hfirst Hsecond) as [average ->].
    rewrite (text_same_lower _ _ Heq), Htext. cbn [negb].
    unfold Sql.update. cbn [full_name].
    assert (Hh : Sql.holdersOf (JsString.trim name') (Sql.uuid id) db = []).
    { apply list_nil_no_elem. intros j Hj.
      apply holdersOf_elem in Hj as (s & Hj & Hs & Hne).
      apply Hne. apply (Hd j (Sql.uuid id) s current Hj Hl).
      rewrite Hs. exact Heq. }
    rewrite Hh. split; [reflexivity|]. eexists.
    split; [reflexivity|]. split; [apply lookup_insert_eq|reflexivity].
  - rewrite Hchecks. split.
    + intros Hc. rewrite Hn in *.
      destruct (Checked.full_name (checked b)) as [name|]; [|discriminate].
      exists name. split; [reflexivity|].
      simpl in Hc. apply negb_true_iff, String.eqb_neq in Hc. exact Hc.
    + intros (name & Hname & Hne). rewrite (Hch name Hname).
      apply negb_true_iff, String.eqb_neq. exact Hne.
Qed.

Lemma rename_to_same_name_witness :
  let id := "123e4567-e89b-12d3-a456-426614174000" in
  let db : table := {[ id := Row "Bob" 30%float 7%float 8%float 7.5%float ]} in
  let b := Body.make (JStr "  BOB ") JUndefined JUndefined JUndefined in
  statusOf (updateParticipant id b db) = 200
  /\ statements_of (updateParticipant id b db)
     = [SelectById id;
        UpdateReturning (Row "BOB" 30%float 7%float 8%float 7.5%float) id].
Proof.
  cbv zeta. split; [|vm_compute; reflexivity].
  refine (proj1 (proj2 (proj1 (rename_to_same_name
            "123e4567-e89b-12d3-a456-426614174000"
            (Body.make (JStr "  BOB ") JUndefined JUndefined JUndefined)
            {[ "123e4567-e89b-12d3-a456-426614174000"
               := Row "Bob" 30%float 7%float 8%float 7.5%float ]}
            (Row "Bob" 30%float 7%float 8%float 7.5%float)
            _ _ _ _ _ _ _) "  BOB " _ _))).
  - reflexivity.
  - reflexivity.
  - repeat split; reflexivity.
  - intros i j r s Hi Hj _.
    apply lookup_singleton_Some in Hi as [<- _].
    apply lookup_singleton_Some in Hj as [<- _]. reflexivity.
  - intros i r Hi. apply lookup_singleton_Some in Hi as [_ <-].
    split; reflexivity.
  - vm_compute. reflexivity.
  - reflexivity.
  - reflexivity.
  - reflexivity.
Defined.

(** ** Stored names are trimmed *)

(** C10: the row written by a successful create stores the trim of the
    supplied [full_name]; the row written by a successful update stores
    the trim of the supplied [full_name], or the current name unchanged
    when the body has none.  A trimmed name neither starts nor ends
    with whitespace, so a table whose names have no surrounding
    whitespace keeps that property through create and update, and every
    table the service reaches from the empty one has it. *)
Theorem stored_name_trimmed (newId id : string) (b : Body.t) (db : table) :
  let created := createParticipant newId b db in
  let updated := updateParticipant id b db in
  (forall i r, statusOf created = 201 -> rowOf created = Some (i, r) ->
     table_of created !! i = Some r
     /\ exists name, Body.full_name b = JStr name
                     /\ full_name r = JsString.trim name
                     /\ JsString.surroundingWhitespace (full_name r) = false)
  /\ (forall i r, statusOf updated = 200 -> rowOf updated = Some (i, r) ->
     table_of updated !! i = Some r
     /\ ((exists name, Body.full_name b = JStr name
                       /\ full_name r = JsString.trim name
                       /\ JsString.surroundingWhitespace (full_name r) = false)
         \/ (Body.full_name b = JUndefined
             /\ exists current, db !! Sql.uuid id = Some current
                                /\ full_name r = full_name current)))
  /\ (trimmedNames db ->
      trimmedNames (table_of created) /\ trimmedNames (table_of updated))
  /\ (reachable db -> trimmedNames db).
Proof.
  cbv zeta. split; [|split; [|split]].
  - intros i r Hs Hr.
    destruct (created_row _ _ _ _ _ Hs Hr) as (-> & _ & -> & (n & Hn & En) & _).
    split; [apply lookup_insert_eq|]. exists n. repeat split; auto.
    rewrite En. apply trim_surroundingWhitespace.
  - intros i r Hs Hr.
    destruct (updateParticipant_200 id b db Hs) as (_ & Hv & _).
    destruct (checked_faithful b Hv) as (Hn & _).
    destruct (updated_row _ _ _ _ _ Hs Hr)
      as (-> & -> & current & Hl & En & _).
    split; [apply lookup_insert_eq|].
    destruct (Checked.full_name (checked b)) as [n|]; simpl in Hn.
    + left. exists n. repeat split; auto.
      rewrite En. apply trim_surroundingWhitespace.
    + right. split; [exact Hn|]. exists current. auto.
  - intros H. split;
      [apply trimmedNames_create|apply trimmedNames_update]; exact H.
  - intros H. apply (reachable_invariants db H).
Qed.

Lemma stored_name_trimmed_witness :
  let id := "123e4567-e89b-12d3-a456-426614174001" in
  let b := Body.make (JStr "  Maria Santos ") (JNum 22%float) (JNum 9%float)
             (JNum 8.5%float) in
  exists r,
    table_of (createParticipant id b ∅) !! id = Some r
    /\ full_name r = "Maria Santos".
Proof.
  cbv zeta.
  destruct (proj1 (stored_name_trimmed
              "123e4567-e89b-12d3-a456-426614174001" ""
              (Body.make (JStr "  Maria Santos ") (JNum 22%float)
                 (JNum 9%float) (JNum 8.5%float)) ∅)
              "123e4567-e89b-12d3-a456-426614174001"
              (Row "Maria Santos" 22%float 9%float 8.5%float 8.75%float))
    as (Ht & name & Hn & En & _).
  - vm_compute. reflexivity.
  - vm_compute. reflexivity.
  - eexists. split; [exact Ht|]. reflexivity.
Defined.

(** * Further properties of the routes *)

(** ** Errors change nothing; a write changes one row *)

Lemma deleteParticipant_table (id : string) (db : table) :
  table_of (deleteParticipant id db) = db
  \/ statusOf (deleteParticipant id db) = 204
     /\ is_Some (db !! Sql.uuid id)
     /\ table_of (deleteParticipant id db) = delete (Sql.uuid id) db.
Proof.
  unfold deleteParticipant, Sql.deleteReturning.
  destruct (validateUUID id); [left; reflexivity|].
  destruct (db !! Sql.uuid id) eqn:Hl; [right|left; reflexivity].
  split; [reflexivity|]. split; [eauto|reflexivity].
Qed.

(** X1: a request that is not answered with its success status leaves
    the table exactly as it was: a create not answered 201, an update
    not answered 200, a delete not answered 204.  The two read routes
    never change the table. *)
Theorem error_leaves_table (newId id : string) (b : Body.t) (q : Query.t)
  (db : table) :
  (statusOf (createParticipant newId b db) <> 201 ->
   table_of (createParticipant newId b db) = db)
  /\ (statusOf (updateParticipant id b db) <> 200 ->
      table_of (updateParticipant id b db) = db)
  /\ (statusOf (deleteParticipant id db) <> 204 ->
      table_of (deleteParticipant id db) = db)
  /\ table_of (getParticipant id db) = db
  /\ table_of (listParticipants q db) = db.
Proof.
  split; [|split; [|split; [|split]]].
  - intros Hs. destruct (createParticipant_table newId b db); congruence.
  - intros Hs. destruct (updateParticipant_table id b db); congruence.
  - intros Hs. destruct (deleteParticipant_table id db) as [|[H _]];
      congruence.
  - apply getParticipant_table.
  - apply listParticipants_table.
Qed.

Lemma error_leaves_table_witness :
  table_of
    (createParticipant "123e4567-e89b-12d3-a456-426614174001"
       (Body.make (JStr "Ana") (JNum 200%float) (JNum 9%float) (JNum 8%float))
       ∅)
  = ∅.
Proof.
  refine (proj1 (error_leaves_table "123e4567-e89b-12d3-a456-426614174001" ""
                   (Body.make (JStr "Ana") (JNum 200%float) (JNum 9%float)
                      (JNum 8%float))
                   (Query.make None None None None) ∅) _).
  vm_compute. discriminate.
Defined.

(** X2: every successful write touches exactly one row.  A create adds
    one row, under the generated id, which was free; an update replaces
    the row of its id and the table keeps its size; a delete removes
    the row of its id and nothing else.  All other rows stay as they
    were. *)
Theorem write_touches_one_row (newId id : string) (b : Body.t) (db : table) :
  (statusOf (createParticipant newId b db) = 201 ->
   let db' := table_of (createParticipant newId b db) in
   db !! newId = None /\ is_Some (db' !! newId)
   /\ size db' = S (size db)
   /\ forall j, j <> newId -> db' !! j = db !! j)
  /\ (statusOf (updateParticipant id b db) = 200 ->
      let db' := table_of (updateParticipant id b db) in
      is_Some (db !! Sql.uuid id) /\ is_Some (db' !! Sql.uuid id)
      /\ size db' = size db
      /\ forall j, j <> Sql.uuid id -> db' !! j = db !! j)
  /\ (statusOf (deleteParticipant id db) = 204 ->
      let db' := table_of (deleteParticipant id db) in
      is_Some (db !! Sql.uuid id) /\ db' !! Sql.uuid id = None
      /\ S (size db') = size db
      /\ forall j, j <> Sql.uuid id -> db' !! j = db !! j).
Proof.
  split; [|split]; intros Hs; cbv zeta.
  - destruct (createParticipant_201 newId b db Hs)
      as (name & years & first & second & average & _ & _ & _ & _ & Hl & ->).
    cbv zeta. cbn [table_of reply]. split; [exact Hl|].
    split; [rewrite lookup_insert_eq; eauto|].
    split; [apply map_size_insert_None; exact Hl|].
    intros j Hj. apply lookup_insert_ne. congruence.
  - destruct (updateParticipant_200 id b db Hs)
      as (_ & _ & current & average & Hl & Hr). cbv zeta in Hr.
    destruct Hr as (_ & _ & _ & -> & _).
    split; [eauto|]. split; [rewrite lookup_insert_eq; eauto|].
    split; [apply map_size_insert_Some; eauto|].
    intros j Hj. apply lookup_insert_ne. congruence.
  - destruct (deleteParticipant_table id db) as [Ht|(_ & Hl & ->)].
    + exfalso. revert Hs Ht. unfold deleteParticipant, Sql.deleteReturning.
      destruct (validateUUID id) as [r|] eqn:Hv.
      * apply validateUUID_Some in Hv as [Hv _]. unfold statusOf. simpl.
        rewrite Hv. discriminate.
      * destruct (db !! Sql.uuid id) eqn:Hl; [|discriminate].
        simpl. intros _ Hd. apply (f_equal (lookup (Sql.uuid id))) in Hd.
        rewrite lookup_delete_eq in Hd. congruence.
    + split; [exact Hl|]. split; [apply lookup_delete_eq|].
      split; [|intros j Hj; apply lookup_delete_ne; congruence].
      rewrite map_size_delete_Some by exact Hl.
      destruct Hl as [r Hl].
      assert (size db <> 0%nat); [|lia].
      apply map_size_ne_0_lookup. eauto.
Qed.

Lemma write_touches_one_row_witness :
  size (table_of
          (createParticipant "123e4567-e89b-12d3-a456-426614174001"
             (Body.make (JStr "Ana") (JNum 20%float) (JNum 9%float)
                (JNum 8%float)) ∅))
  = 1%nat.
Proof.
  refine (proj1 (proj2 (proj2 (proj1 (write_touches_one_row
            "123e4567-e89b-12d3-a456-426614174001" ""
            (Body.make (JStr "Ana") (JNum 20%float) (JNum 9%float)
               (JNum 8%float)) ∅) _)))).
  vm_compute. reflexivity.
Defined.

(** ** Round trips *)

(** X3: what a successful write answers is what a get of the same id
    answers afterwards: the record returned by a create (under the
    generated id, a well-formed one as PostgreSQL prints it) and the
    record returned by an update are the ones read back with 200. *)
Theorem write_then_get (newId id : string) (b : Body.t) (db : table) :
  (statusOf (createParticipant newId b db) = 201 ->
   Uuid.test newId = true -> Sql.uuid newId = newId ->
   response_of
     (getParticipant newId (table_of (createParticipant newId b db)))
   = Response 200 (body (response_of (createParticipant newId b db))))
  /\ (statusOf (updateParticipant id b db) = 200 ->
      response_of
        (getParticipant id (table_of (updateParticipant id b db)))
      = Response 200 (body (response_of (updateParticipant id b db)))).
Proof.
  split.
  - intros Hs Ht Hu.
    destruct (createParticipant_201 newId b db Hs)
      as (name & years & first & second & average & _ & _ & _ & _ & _ & ->).
    cbv zeta. cbn [table_of response_of reply body].
    apply validateUUID_None in Ht. unfold getParticipant, Sql.selectById.
    rewrite Ht, Hu, lookup_insert_eq. reflexivity.
  - intros Hs.
    destruct (updateParticipant_200 id b db Hs)
      as (Ht & _ & current & average & _ & Hr). cbv zeta in Hr.
    destruct Hr as (_ & _ & -> & -> & _). cbn [body].
    apply validateUUID_None in Ht. unfold getParticipant, Sql.selectById.
    rewrite Ht, lookup_insert_eq. reflexivity.
Qed.

Lemma write_then_get_witness :
  let id := "123e4567-e89b-12d3-a456-426614174001" in
  let b := Body.make (JStr " Ana ") (JNum 20%float) (JNum 9%float)
             (JNum 8%float) in
  response_of (getParticipant id (table_of (createParticipant id b ∅)))
  = Response 200
      (Participant id (Row "Ana" 20%float 9%float 8%float 8.5%float)).
Proof.
  cbv zeta.
  refine (eq_trans (proj1 (write_then_get
            "123e4567-e89b-12d3-a456-426614174001" ""
            (Body.make (JStr " Ana ") (JNum 20%float) (JNum 9%float)
               (JNum 8%float)) ∅) _ _ _) _);
    vm_compute; reflexivity.
Defined.

(** X4: deleting a participant right after creating it gives back the
    table there was before the create: the delete is answered 204 and
    the table is the original one. *)
Theorem create_then_delete (newId : string) (b : Body.t) (db : table) :
  statusOf (createParticipant newId b db) = 201 ->
  Uuid.test newId = true -> Sql.uuid newId = newId ->
  let db' := table_of (createParticipant newId b db) in
  response_of (deleteParticipant newId db') = Response 204 Empty
  /\ table_of (deleteParticipant newId db') = db.
Proof.
  intros Hs Ht Hu. cbv zeta.
  destruct (createParticipant_201 newId b db Hs)
    as (name & years & first & second & average & _ & _ & _ & _ & Hl & ->).
  cbv zeta. cbn [table_of reply].
  apply validateUUID_None in Ht. unfold deleteParticipant, Sql.deleteReturning.
  rewrite Ht, Hu, lookup_insert_eq. cbn [table_of response_of reply].
  split; [reflexivity|]. rewrite delete_insert_eq. apply delete_id. exact Hl.
Qed.

Lemma create_then_delete_witness :
  let id := "123e4567-e89b-12d3-a456-426614174001" in
  let b := Body.make (JStr " Ana ") (JNum 20%float) (JNum 9%float)
             (JNum 8%float) in
  table_of (deleteParticipant id (table_of (createParticipant id b ∅))) = ∅.
Proof.
  cbv zeta.
  refine (proj2 (create_then_delete
            "123e4567-e89b-12d3-a456-426614174001"
            (Body.make (JStr " Ana ") (JNum 20%float) (JNum 9%float)
               (JNum 8%float)) ∅ _ _ _));
    vm_compute; reflexivity.
Defined.

(** ** Unknown participants and invalid bodies *)

(** X5: for a well-formed id that no participant has, get, update (with
    a valid body) and delete all answer 404 with the same message; each
    sends exactly one statement, its lookup or its DELETE, and the
    table stays as it is. *)
Theorem missing_participant_404 (id : string) (b : Body.t) (db : table) :
  Uuid.test id = true -> db !! Sql.uuid id = None ->
  getParticipant id db = reply 404 notFound db [SelectById id]
  /\ deleteParticipant id db = reply 404 notFound db [DeleteReturning id]
  /\ (validateParticipantData b = [] ->
      updateParticipant id b db = reply 404 notFound db [SelectById id]).
Proof.
  intros Ht Hl. apply validateUUID_None in Ht.
  unfold getParticipant, deleteParticipant, updateParticipant, updateChecked,
    Sql.selectById, Sql.deleteReturning.
  rewrite Ht, Hl. split; [reflexivity|]. split; [reflexivity|].
  intros ->. reflexivity.
Qed.

Lemma missing_participant_404_witness :
  statusOf (getParticipant "123e4567-e89b-12d3-a456-426614174000" ∅) = 404.
Proof.
  refine (f_equal statusOf (proj1 (missing_participant_404
            "123e4567-e89b-12d3-a456-426614174000"
            (Body.make JUndefined JUndefined JUndefined JUndefined) ∅ _ _)));
    vm_compute; reflexivity.
Defined.

Lemma fieldErrors_length (b : Body.t) :
  (length (validateParticipantData b) <= 4)%nat.
Proof.
  unfold validateParticipantData. rewrite !length_app.
  assert (Hn : (length (nameErrors (Body.full_name b)) <= 1)%nat).
  { destruct (Body.full_name b); simpl; try lia.
    destruct (_ =? _); simpl; [lia|]. destruct (_ <? _); simpl; lia. }
  assert (Ha : (length (ageErrors (Body.age b)) <= 1)%nat).
  { destruct (Body.age b); cbn [ageErrors length]; try lia.
    destruct (_ || _); simpl; lia. }
  assert (Hs : forall f v, (length (scoreErrors f v) <= 1)%nat).
  { intros f v. destruct v; cbn [scoreErrors length]; try lia.
    destruct (_ || _); simpl; lia. }
  pose proof (Hs "first_semester" (Body.first_semester b)).
  pose proof (Hs "second_semester" (Body.second_semester b)). lia.
Qed.

(** X6: a body that fails [validateParticipantData] never reaches the
    database: both the create and the update route (the latter for a
    well-formed id) answer 400 "Dados inválidos" with the list of
    complaints, at least one and at most one per field, send no
    statement and leave the table as it is. *)
Theorem invalid_body_rejected (newId id : string) (b : Body.t) (db : table) :
  validateParticipantData b <> [] ->
  let answer :=
    reply 400 (ErrorDetails "Dados inválidos" (validateParticipantData b))
      db [] in
  createParticipant newId b db = answer
  /\ (Uuid.test id = true -> updateParticipant id b db = answer)
  /\ (1 <= length (validateParticipantData b) <= 4)%nat.
Proof.
  intros Hv. cbv zeta. pose proof (fieldErrors_length b) as Hlen.
  unfold createParticipant, updateParticipant.
  destruct (validateParticipantData b) as [|e errors] eqn:He; [congruence|].
  split; [reflexivity|]. split.
  - intros Ht. apply validateUUID_None in Ht. rewrite Ht. reflexivity.
  - simpl in *. lia.
Qed.

Lemma invalid_body_rejected_witness :
  statusOf
    (createParticipant "123e4567-e89b-12d3-a456-426614174001"
       (Body.make (JStr "Ana") (JNum 20.5%float) (JNum 9%float) (JNum 8%float))
       ∅)
  = 400.
Proof.
  refine (f_equal statusOf (proj1 (invalid_body_rejected
            "123e4567-e89b-12d3-a456-426614174001" ""
            (Body.make (JStr "Ana") (JNum 20.5%float) (JNum 9%float)
               (JNum 8%float)) ∅ _))).
  vm_compute. discriminate.
Defined.

(** ** Writes compose *)

Lemma calculateFinalAverage_inl (a b : float) (m : string) :
  calculateFinalAverage a b = inl m -> m = "Notas devem ser números válidos".
Proof.
  unfold calculateFinalAverage. destruct (_ || _); [|discriminate].
  intros [= <-]. reflexivity.
Qed.

(** A complete valid body whose trimmed name is held already, up to
    case, is answered 409 after the one query that finds it. *)
Lemma createParticipant_collision (newId name : string) (b : Body.t)
  (db : table) (i : string) (r : row) :
  validateParticipantData b = [] -> complete b = true -> parsedBody b ->
  Body.full_name b = JStr name ->
  Sql.text (JsString.trim name) = true ->
  db !! i = Some r ->
  Sql.LOWER (full_name r) = Sql.LOWER (JsString.trim name) ->
  createParticipant newId b db
  = reply 409 (Error "Já existe um participante com este nome") db
      [SelectIdByLowerName (JsString.trim name)].
Proof.
  intros Hv Hc (_ & Hpf & Hps) Hname Htext Hi Hr.
  destruct (checked_faithful b Hv) as (Hn & Ha & Hf & Hs).
  pose proof Hv as Hv'.
  apply validateParticipantData_nil in Hv' as (Hne & _).
  rewrite Hname in Hne.
  apply nameErrors_nil in Hne as [Hne|(s & [= <-] & Hlen)]; [discriminate|].
  apply proj1, trim_empty_len in Hlen. apply String.eqb_neq in Hlen.
  unfold complete in Hc. apply negb_true_iff in Hc.
  rewrite !orb_false_iff in Hc. destruct Hc as [[[_ Hma] Hmf] Hms].
  unfold createParticipant. rewrite Hv. unfold createChecked.
  destruct (Checked.full_name (checked b)) as [name'|];
    rewrite Hname in Hn; simpl in Hn; [|discriminate].
  injection Hn as <-.
  destruct (Checked.age (checked b)) as [years|];
    [|rewrite Ha in Hma; discriminate].
  destruct (Checked.first_semester (checked b)) as [first|];
    [|rewrite Hf in Hmf; discriminate].
  destruct (Checked.second_semester (checked b)) as [second|];
    [|rewrite Hs in Hms; discriminate].
  rewrite Hlen. rewrite Hf in Hpf. rewrite Hs in Hps. simpl in Hpf, Hps.
  destruct (calculateFinalAverage_defined first second Hpf Hps) as [average ->].
  assert (Hq : nonEmpty (Sql.selectIdByLowerName (JsString.trim name) db)
               = true).
  { apply nonEmpty_true. exists i. apply selectIdByLowerName_elem.
    exists r. auto. }
  rewrite Htext, Hq. reflexivity.
Qed.

(** X7: once a participant has been created, a further valid create
    request whose name differs from the first only by letter case or
    surrounding whitespace is answered 409 and stores nothing. *)
Theorem create_twice_conflicts (id1 id2 name1 name2 : string)
  (b1 b2 : Body.t) (db : table) :
  statusOf (createParticipant id1 b1 db) = 201 ->
  Body.full_name b1 = JStr name1 ->
  validateParticipantData b2 = [] -> complete b2 = true -> parsedBody b2 ->
  Body.full_name b2 = JStr name2 ->
  JsString.toLowerCase (JsString.trim name2)
  = JsString.toLowerCase (JsString.trim name1) ->
  let db' := table_of (createParticipant id1 b1 db) in
  statusOf (createParticipant id2 b2 db') = 409
  /\ table_of (createParticipant id2 b2 db') = db'.
Proof.
  intros Hs Hn1 Hv Hc Hp Hn2 Heq. cbv zeta.
  pose proof (createParticipant_201_text id1 b1 db name1 Hs Hn1) as Htext.
  rewrite <- (text_same_lower _ _ Heq) in Htext.
  destruct (createParticipant_201 id1 b1 db Hs)
    as (name & years & first & second & average & Hb & _ & _ & _ & _ & Ho).
  rewrite Hb in Hn1. injection Hn1 as ->.
  rewrite Ho. cbv zeta. cbn [table_of reply].
  rewrite (createParticipant_collision id2 name2 b2 _ id1
             (Row (JsString.trim name1) years first second average)
             Hv Hc Hp Hn2 Htext).
  - split; reflexivity.
  - apply lookup_insert_eq.
  - symmetry. exact Heq.
Qed.

Lemma create_twice_conflicts_witness :
  let b1 := Body.make (JStr "Ana Lima") (JNum 20%float) (JNum 9%float)
              (JNum 8%float) in
  let b2 := Body.make (JStr "  ANA LIMA ") (JNum 31%float) (JNum 5%float)
              (JNum 6%float) in
  statusOf
    (createParticipant "123e4567-e89b-12d3-a456-426614174002" b2
       (table_of
          (createParticipant "123e4567-e89b-12d3-a456-426614174001" b1 ∅)))
  = 409.
Proof.
  cbv zeta.
  refine (proj1 (create_twice_conflicts
            "123e4567-e89b-12d3-a456-426614174001"
            "123e4567-e89b-12d3-a456-426614174002" "Ana Lima" "  ANA LIMA "
            (Body.make (JStr "Ana Lima") (JNum 20%float) (JNum 9%float)
               (JNum 8%float))
            (Body.make (JStr "  ANA LIMA ") (JNum 31%float) (JNum 5%float)
               (JNum 6%float)) ∅ _ _ _ _ _ _ _));
    try (vm_compute; reflexivity).
  repeat split; reflexivity.
Defined.

Lemma holdersOf_insert_self (name key : string) (r : row) (db : table) :
  Sql.holdersOf name key db = [] ->
  Sql.holdersOf name key (<[key := r]> db) = [].
Proof.
  intros H. apply list_nil_no_elem. intros j Hj.
  apply holdersOf_elem in Hj as (s & Hj & Hs & Hne).
  rewrite lookup_insert_ne in Hj by congruence.
  apply list_nil_no_elem with (x := j) in H. apply H.
  apply holdersOf_elem. exists s. auto.
Qed.

(** X8: an update is idempotent: sending again a request that was
    answered 200 is answered 200 again with the same record, and the
    table does not change any more. *)
Theorem update_idempotent (id : string) (b : Body.t) (db : table) :
  statusOf (updateParticipant id b db) = 200 ->
  let db' := table_of (updateParticipant id b db) in
  response_of (updateParticipant id b db')
  = response_of (updateParticipant id b db)
  /\ table_of (updateParticipant id b db') = db'.
Proof.
  intros Hs. cbv zeta.
  destruct (updateParticipant_200 id b db Hs)
    as (Ht & Hv & current & average & Hl & Hr). cbv zeta in Hr.
  destruct Hr as (Hc & Hh & Hresp & -> & _).
  assert (Htext : Sql.text
                    match Checked.full_name (checked b) with
                    | Some n => JsString.trim n
                    | None => full_name current
                    end = true).
  { apply (updateParticipant_200_text id b db (Sql.uuid id)
             (Row match Checked.full_name (checked b) with
                  | Some n => JsString.trim n
                  | None => full_name current
                  end
                (default (age current) (Checked.age (checked b)))
                (default (first_semester current)
                   (Checked.first_semester (checked b)))
                (default (second_semester current)
                   (Checked.second_semester (checked b))) average) Hs).
    unfold rowOf. rewrite Hresp. reflexivity. }
  rewrite Hresp.
  apply validateUUID_None in Ht.
  unfold updateParticipant. rewrite Ht, Hv.
  unfold updateChecked, Sql.selectById.
  rewrite lookup_insert_eq. cbv zeta. cbn [full_name age first_semester
    second_semester final_average].
  set (name := match Checked.full_name (checked b) with
               | Some n => JsString.trim n
               | None => full_name current
               end) in *.
  assert (Hname : match Checked.full_name (checked b) with
                  | Some n => JsString.trim n
                  | None => name
                  end = name).
  { unfold name. destruct (Checked.full_name (checked b)); reflexivity. }
  rewrite Hname.
  assert (Hch : nameChanged (Checked.full_name (checked b))
                  (Row name (default (age current) (Checked.age (checked b)))
                     (default (first_semester current)
                        (Checked.first_semester (checked b)))
                     (default (second_semester current)
                        (Checked.second_semester (checked b))) average)
                = false).
  { unfold nameChanged, name. cbn [full_name].
    destruct (Checked.full_name (checked b)); [|reflexivity].
    rewrite String.eqb_refl. reflexivity. }
  rewrite Hch. cbn [andb].
  assert (Hd : forall (x : float) (o : option float),
            default (default x o) o = default x o)
    by (intros x []; reflexivity).
  rewrite !Hd, Hc, Htext. cbn [negb]. unfold Sql.update. cbn [full_name].
  rewrite (holdersOf_insert_self _ _ _ _ Hh), insert_insert_eq.
  split; reflexivity.
Qed.

Lemma update_idempotent_witness :
  let id := "123e4567-e89b-12d3-a456-426614174000" in
  let db : table := {[ id := Row "Bob" 30%float 7%float 8%float 7.5%float ]} in
  let b := Body.make (JStr "Robert") JUndefined (JNum 9.5%float) JUndefined in
  table_of (updateParticipant id b (table_of (updateParticipant id b db)))
  = table_of (updateParticipant id b db).
Proof.
  cbv zeta.
  refine (proj2 (update_idempotent "123e4567-e89b-12d3-a456-426614174000"
            (Body.make (JStr "Robert") JUndefined (JNum 9.5%float) JUndefined)
            {[ "123e4567-e89b-12d3-a456-426614174000"
               := Row "Bob" 30%float 7%float 8%float 7.5%float ]} _)).
  vm_compute. reflexivity.
Defined.

(** X9: an update that only restates what is stored changes nothing.
    If every property of a valid body is absent or equal to the stored
    value (the name up to surrounding whitespace) and the stored average
    is the one computed from the stored scores, the answer is 200 with
    the stored record and the table is exactly the one before; the empty
    body is the simplest case.  (The table meets its schema: no name
    twice, and a stored name that is a text.) *)
Theorem update_restating_is_noop (id : string) (b : Body.t) (db : table)
  (current : row) :
  Uuid.test id = true -> validateParticipantData b = [] ->
  db !! Sql.uuid id = Some current ->
  restates b current ->
  calculateFinalAverage (first_semester current) (second_semester current)
  = inr (final_average current) ->
  uniqueNames db -> Sql.text (full_name current) = true ->
  response_of (updateParticipant id b db)
  = Response 200 (Participant (Sql.uuid id) current)
  /\ table_of (updateParticipant id b db) = db.
Proof.
  intros Ht Hv Hl (Rn & Ra & Rf & Rs) Hc Hu Htext.
  destruct (checked_faithful b Hv) as (Hn & Ha & Hf & Hs).
  apply validateUUID_None in Ht.
  unfold updateParticipant. rewrite Ht, Hv.
  unfold updateChecked, Sql.selectById. rewrite Hl. cbv zeta.
  assert (Hname : nameChanged (Checked.full_name (checked b)) current = false
                  /\ match Checked.full_name (checked b) with
                     | Some n => JsString.trim n
                     | None => full_name current
                     end = full_name current).
  { destruct Rn as [Rn|(name & Rn & Hsame)]; rewrite Rn in Hn;
      destruct (Checked.full_name (checked b)) as [n|]; try discriminate.
    - split; reflexivity.
    - injection Hn as ->. unfold nameChanged.
      rewrite Hsame, String.eqb_refl. split; reflexivity. }
  destruct Hname as [-> ->]. cbn [andb].
  assert (Hage : default (age current) (Checked.age (checked b)) = age current).
  { destruct Ra as [Ra|Ra]; rewrite Ra in Ha;
      destruct (Checked.age (checked b)); try discriminate; [reflexivity|].
    injection Ha as ->. reflexivity. }
  assert (Hfirst : default (first_semester current)
                     (Checked.first_semester (checked b))
                   = first_semester current).
  { destruct Rf as [Rf|Rf]; rewrite Rf in Hf;
      destruct (Checked.first_semester (checked b)); try discriminate;
      [reflexivity|]. injection Hf as ->. reflexivity. }
  assert (Hsecond : default (second_semester current)
                      (Checked.second_semester (checked b))
                    = second_semester current).
  { destruct Rs as [Rs|Rs]; rewrite Rs in Hs;
      destruct (Checked.second_semester (checked b)); try discriminate;
      [reflexivity|]. injection Hs as ->. reflexivity. }
  rewrite Hage, Hfirst, Hsecond, Hc, Htext. cbn [negb].
  unfold Sql.update. cbn [full_name].
  assert (Hh : Sql.holdersOf (full_name current) (Sql.uuid id) db = []).
  { apply list_nil_no_elem. intros j Hj.
    apply holdersOf_elem in Hj as (s & Hj & Hs' & Hne).
    apply Hne. exact (Hu j (Sql.uuid id) s current Hj Hl Hs'). }
  rewrite Hh.
  assert (Heta : Row (full_name current) (age current)
                   (first_semester current) (second_semester current)
                   (final_average current) = current)
    by (destruct current; reflexivity).
  rewrite Heta. split; [reflexivity|]. apply insert_id. exact Hl.
Qed.

Lemma update_restating_is_noop_witness :
  let id := "123e4567-e89b-12d3-a456-426614174000" in
  let db : table := {[ id := Row "Bob" 30%float 7%float 8%float 7.5%float ]} in
  table_of
    (updateParticipant id
       (Body.make (JStr " Bob") JUndefined JUndefined (JNum 8%float)) db)
  = db.
Proof.
  cbv zeta.
  refine (proj2 (update_restating_is_noop
            "123e4567-e89b-12d3-a456-426614174000"
            (Body.make (JStr " Bob") JUndefined JUndefined (JNum 8%float))
            {[ "123e4567-e89b-12d3-a456-426614174000"
               := Row "Bob" 30%float 7%float 8%float 7.5%float ]}
            (Row "Bob" 30%float 7%float 8%float 7.5%float)
            _ _ _ _ _ _ _)).
  - reflexivity.
  - reflexivity.
  - vm_compute. reflexivity.
  - repeat split; [right; exists " Bob"; split; reflexivity|left|left|right];
      reflexivity.
  - reflexivity.
  - intros i j r s Hi Hj _.
    apply lookup_singleton_Some in Hi as [<- _].
    apply lookup_singleton_Some in Hj as [<- _]. reflexivity.
  - reflexivity.
Defined.

(** ** The unique-violation fallback *)

(** X10: the handlers' own name checks leave nothing for the [UNIQUE]
    constraint of [full_name] to reject.  On a table whose names are
    distinct up to case (as all tables produced by the service are) an
    update is never answered with the message of the caught violation
    23505, and a create is answered with it only when the generated id
    is one the table already holds. *)
Theorem unique_violation_unreachable (newId id : string) (b : Body.t)
  (db : table) :
  distinctNames db ->
  body (response_of (updateParticipant id b db))
  <> Error "Nome já existe para outro participante"
  /\ (body (response_of (createParticipant newId b db))
      = Error "Participante já existe" ->
      is_Some (db !! newId)).
Proof.
  intros Hd. split.
  - unfold updateParticipant.
    destruct (validateUUID id) as [r0|] eqn:Hu.
    { revert Hu. unfold validateUUID.
      destruct (String.eqb id ""); [intros [= <-]; discriminate|].
      destruct (negb _); [intros [= <-]; discriminate|discriminate]. }
    destruct (validateParticipantData b); [|discriminate].
    unfold updateChecked, Sql.selectById.
    destruct (db !! Sql.uuid id) as [current|] eqn:Hl; [|discriminate].
    cbv zeta.
    destruct (nameChanged (Checked.full_name (checked b)) current
              && negb _); [discriminate|].
    destruct (nameChanged (Checked.full_name (checked b)) current
              && _) eqn:Hq; [discriminate|].
    destruct (calculateFinalAverage _ _) as [m|average] eqn:Hc.
    { apply calculateFinalAverage_inl in Hc. subst m. discriminate. }
    destruct (negb _); [discriminate|].
    unfold Sql.update. cbn [full_name].
    destruct (Sql.holdersOf _ _ _) as [|j l] eqn:Hh; [discriminate|].
    exfalso.
    assert (Hj : j ∈ Sql.holdersOf
                   match Checked.full_name (checked b) with
                   | Some n => JsString.trim n
                   | None => full_name current
                   end (Sql.uuid id) db) by (rewrite Hh; left).
    apply holdersOf_elem in Hj as (s & Hj & Hs & Hne).
    destruct (nameChanged (Checked.full_name (checked b)) current) eqn:Hch.
    + simpl in Hq. apply nonEmpty_false in Hq.
      apply list_nil_no_elem with (x := j) in Hq. apply Hq.
      apply selectIdByLowerNameExcept_elem. exists s.
      rewrite Hs. auto.
    + apply Hne. apply (Hd j (Sql.uuid id) s current Hj Hl).
      rewrite Hs. unfold nameChanged in Hch.
      destruct (Checked.full_name (checked b)) as [n|]; [|reflexivity].
      apply negb_false_iff, String.eqb_eq in Hch. exact Hch.
  - unfold createParticipant.
    destruct (validateParticipantData b); [|discriminate].
    unfold createChecked.
    destruct (Checked.full_name (checked b)) as [name|]; [|discriminate].
    destruct (Checked.age (checked b)) as [years|]; [|discriminate].
    destruct (Checked.first_semester (checked b)) as [first|]; [|discriminate].
    destruct (Checked.second_semester (checked b)) as [second|];
      [|discriminate].
    destruct (String.eqb name ""); [discriminate|].
    destruct (calculateFinalAverage first second) as [m|average] eqn:Hc.
    { apply calculateFinalAverage_inl in Hc. subst m. discriminate. }
    destruct (negb _); [discriminate|].
    destruct (nonEmpty _) eqn:Hq; [discriminate|].
    unfold Sql.insert.
    destruct (db !! newId) as [r|] eqn:Hl; [eauto|].
    destruct (Sql.holdersOf _ _ _) as [|j l] eqn:Hh; [discriminate|].
    intros _. exfalso. apply nonEmpty_false in Hq.
    assert (Hj : j ∈ Sql.holdersOf (JsString.trim name) newId db)
      by (cbn [full_name] in Hh; rewrite Hh; left).
    apply holdersOf_elem in Hj as (s & Hj & Hs & _).
    apply list_nil_no_elem with (x := j) in Hq. apply Hq.
    apply selectIdByLowerName_elem. exists s. rewrite Hs. auto.
Qed.

Lemma unique_violation_unreachable_witness :
  let id := "123e4567-e89b-12d3-a456-426614174000" in
  let db : table := {[ id := Row "Bob" 30%float 7%float 8%float 7.5%float ]} in
  distinctNames db
  /\ body (response_of
             (updateParticipant id
                (Body.make (JStr "BOB") JUndefined JUndefined JUndefined) db))
     <> Error "Nome já existe para outro participante".
Proof.
  cbv zeta.
  assert (Hd : distinctNames
                 ({[ "123e4567-e89b-12d3-a456-426614174000"
                     := Row "Bob" 30%float 7%float 8%float 7.5%float ]}
                  : table)).
  { intros i j r s Hi Hj _.
    apply lookup_singleton_Some in Hi as [<- _].
    apply lookup_singleton_Some in Hj as [<- _]. reflexivity. }
  split; [exact Hd|].
  exact (proj1 (unique_violation_unreachable ""
            "123e4567-e89b-12d3-a456-426614174000"
            (Body.make (JStr "BOB") JUndefined JUndefined JUndefined)
            {[ "123e4567-e89b-12d3-a456-426614174000"
               := Row "Bob" 30%float 7%float 8%float 7.5%float ]} Hd)).
Defined.

(** ** The list route *)

(** X11: whatever the query string, the ORDER BY clause that the list
    route builds names one of the five allowed columns and the direction
    ASC or DESC, DESC exactly for [sortOrder=desc]; the LIMIT it sends
    is a number that is at most 100 and neither 0 nor NaN, and the
    OFFSET is the product of [page - 1] and the limit as JavaScript
    computes it, which is the exact product whenever that is below 2^53
    in magnitude. *)
Theorem order_clause_is_safe (q : Query.t) (db : table)
  (sortBy sortOrder : string) (limit offset : JsInteger.t) :
  SelectPage sortBy sortOrder limit offset
  ∈ statements_of (listParticipants q db) ->
  In sortBy Query.allowedSortFields
  /\ (sortOrder = "ASC" \/ sortOrder = "DESC")
  /\ (sortOrder = "DESC" <-> Query.sortOrder q = Some "desc")
  /\ JsInteger.leb limit (JsInteger.Int 100) = true
  /\ JsInteger.falsy limit = false
  /\ offset
     = JsInteger.mul (JsInteger.sub (Query.pageOf q) (JsInteger.Int 1)) limit
  /\ (forall p l,
        Query.pageOf q = JsInteger.Int p -> limit = JsInteger.Int l ->
        Z.abs ((p - 1) * l) < 2 ^ 53 ->
        offset = JsInteger.Int ((p - 1) * l)).
Proof.
  unfold listParticipants.
  destruct (Query.allowed (Query.sortByOf q)) eqn:Ha; cbn [negb];
    [|intros H; inversion H].
  assert (Hin : SelectPage sortBy sortOrder limit offset
                = SelectPage (Query.sortByOf q) (Query.sortOrderOf q)
                    (Query.limitOf q) (Query.offsetOf q) ->
                In sortBy Query.allowedSortFields
                /\ (sortOrder = "ASC" \/ sortOrder = "DESC")
                /\ (sortOrder = "DESC" <-> Query.sortOrder q = Some "desc")
                /\ JsInteger.leb limit (JsInteger.Int 100) = true
                /\ JsInteger.falsy limit = false
                /\ offset
                   = JsInteger.mul
                       (JsInteger.sub (Query.pageOf q) (JsInteger.Int 1))
                       limit
                /\ (forall p l,
                      Query.pageOf q = JsInteger.Int p ->
                      limit = JsInteger.Int l ->
                      Z.abs ((p - 1) * l) < 2 ^ 53 ->
                      offset = JsInteger.Int ((p - 1) * l))).
  { intros [= -> -> -> ->]. split; [apply allowed_In; exact Ha|].
    pose proof (limit_le_100 q) as [Hmax Hnz].
    assert (Hexact : forall p l,
              Query.pageOf q = JsInteger.Int p ->
              Query.limitOf q = JsInteger.Int l ->
              Z.abs ((p - 1) * l) < 2 ^ 53 ->
              Query.offsetOf q = JsInteger.Int ((p - 1) * l)).
    { intros p l Hp Hl Hsmall. unfold Query.offsetOf. rewrite Hp, Hl.
      rewrite Hl in Hnz. cbn in Hnz. apply Z.eqb_neq in Hnz.
      cbn [JsInteger.sub JsInteger.mul].
      rewrite (round_small (p - 1)) by nia.
      cbn [JsInteger.mul]. apply round_small. exact Hsmall. }
    unfold Query.sortOrderOf.
    destruct (Query.sortOrder q) as [s|].
    - destruct (String.eqb_spec s "desc") as [->|Hne].
      + repeat split; auto.
      + repeat split; auto; try discriminate. intros [= ->]. congruence.
    - repeat split; auto; discriminate. }
  destruct (Sql.selectPage _ _ _ _ _); cbn [statements_of reply]; intros H.
  - apply elem_of_cons in H as [H|H]; [exact (Hin H)|].
    apply list_elem_of_singleton in H. discriminate.
  - apply list_elem_of_singleton in H. exact (Hin H).
Qed.

Lemma order_clause_is_safe_witness :
  In "age" Query.allowedSortFields.
Proof.
  refine (proj1 (order_clause_is_safe
            (Query.make (Some "2") (Some "500") (Some "age") (Some "DESC")) ∅
            "age" "ASC" (JsInteger.Int 100) (JsInteger.Int 100) _)).
  vm_compute. left.
Defined.

Lemma totalPagesOf_bounds (total limit : Z) :
  0 <= total -> 1 <= limit ->
  (totalPagesOf total (JsInteger.Int limit) - 1) * limit < total
  <= totalPagesOf total (JsInteger.Int limit) * limit.
Proof.
  intros Ht Hl. unfold totalPagesOf.
  pose proof (Z.div_mod (total + limit - 1) limit ltac:(lia)) as Hdm.
  pose proof (Z.mod_pos_bound (total + limit - 1) limit ltac:(lia)) as Hm.
  nia.
Qed.

(** An offset that PostgreSQL takes comes from a page of 1 or more. *)
Lemma page_of_offset (q : Query.t) (l f : Z) :
  Query.limitOf q = JsInteger.Int l -> 1 <= l ->
  Query.offsetOf q = JsInteger.Int f -> 0 <= f ->
  exists p, Query.pageOf q = JsInteger.Int p /\ 1 <= p.
Proof.
  intros Hl Hl1 Hf Hf0. unfold Query.offsetOf in Hf. rewrite Hl in Hf.
  assert (Hp : JsInteger.falsy (Query.pageOf q) = false)
    by (apply orElse_truthy; reflexivity).
  destruct (Query.pageOf q) as [p|s|]; [|exfalso..].
  - exists p. split; [reflexivity|]. cbn in Hp. apply Z.eqb_neq in Hp.
    destruct (Z.le_gt_cases 1 p) as [|Hneg]; [assumption|exfalso].
    cbn [JsInteger.sub] in Hf.
    destruct (round_negative (p - 1) ltac:(lia)) as [Hr|(v & Hr & Hv)];
      rewrite Hr in Hf; cbn [JsInteger.mul] in Hf.
    + destruct (l =? 0); discriminate.
    + destruct (round_negative (v * l) ltac:(nia)) as [Hr'|(w & Hr' & Hw)];
        rewrite Hr' in Hf; [discriminate|].
      injection Hf as <-. lia.
  - cbn in Hf. destruct (l =? 0); discriminate.
  - discriminate.
Qed.

(** X12: a list response with status 200 carries the page number (at
    least 1), the limit (between 1 and 100), the number of rows of the
    table as total, and as totalPages the least number of pages of that
    size that hold them all.  Its data are at most [limit] rows, all of
    them rows of the table, none of them twice. *)
Theorem page_is_bounded (q : Query.t) (db : table) :
  statusOf (listParticipants q db) = 200 ->
  exists page limit totalPages,
    body (response_of (listParticipants q db))
    = Page (dataOf (listParticipants q db)) (JsInteger.Int page)
        (JsInteger.Int limit) (Z.of_nat (size db)) totalPages
    /\ Query.pageOf q = JsInteger.Int page /\ 1 <= page
    /\ Query.limitOf q = JsInteger.Int limit /\ 1 <= limit <= 100
    /\ Z.of_nat (length (dataOf (listParticipants q db))) <= limit
    /\ (forall i r, (i, r) ∈ dataOf (listParticipants q db) ->
                    db !! i = Some r)
    /\ NoDup (dataOf (listParticipants q db))
    /\ (totalPages - 1) * limit < Z.of_nat (size db) <= totalPages * limit.
Proof.
  unfold listParticipants, dataOf.
  destruct (negb _); [discriminate|].
  unfold Sql.selectPage.
  destruct (Sql.rowCount (Query.limitOf q)) as [l'|] eqn:Hl; [|discriminate].
  destruct (Sql.rowCount (Query.offsetOf q)) as [f'|] eqn:Hf; [|discriminate].
  intros _.
  apply rowCount_Some in Hl as (l & Hl & Hl0 & -> & _).
  apply rowCount_Some in Hf as (f & Hf & Hf0 & -> & _).
  pose proof (limit_le_100 q) as [Hmax Hnz].
  rewrite Hl in Hmax, Hnz. cbn in Hmax, Hnz.
  apply negb_true_iff, Z.ltb_ge in Hmax. apply Z.eqb_neq in Hnz.
  rewrite (printed_small l) by lia.
  destruct (page_of_offset q l f Hl ltac:(lia) Hf Hf0) as (p & Hp & Hp1).
  exists p, l, (totalPagesOf (Sql.count db) (JsInteger.Int l)).
  cbn [response_of reply body]. rewrite Hp, Hl.
  set (skipped := Z.to_nat (JsInteger.printed f)).
  assert (Hsub : take (Z.to_nat l)
                   (drop skipped
                      (Sql.orderBy (Query.sortByOf q) (Query.sortOrderOf q)
                         (map_to_list db)))
                 `sublist_of`
                 Sql.orderBy (Query.sortByOf q) (Query.sortOrderOf q)
                   (map_to_list db)).
  { etransitivity; [apply sublist_take|apply sublist_drop]. }
  split; [reflexivity|]. split; [reflexivity|]. split; [exact Hp1|].
  split; [reflexivity|]. split; [lia|]. split; [rewrite length_take; lia|].
  split; [|split].
  - intros i r Hin. apply (elem_of_sublist _ _ _ Hin) in Hsub.
    rewrite (orderBy_Permutation _ _ (map_to_list db)) in Hsub.
    apply elem_of_map_to_list in Hsub. exact Hsub.
  - eapply sublist_NoDup; [|exact Hsub].
    rewrite (orderBy_Permutation _ _ (map_to_list db)).
    apply NoDup_map_to_list.
  - apply totalPagesOf_bounds; unfold Sql.count; lia.
Qed.

Lemma page_is_bounded_witness :
  let db : table :=
    {[ "123e4567-e89b-12d3-a456-426614174000"
       := Row "Bob" 30%float 7%float 8%float 7.5%float ]} in
  NoDup (dataOf (listParticipants (Query.make None (Some "1") None None) db)).
Proof.
  cbv zeta.
  destruct (page_is_bounded (Query.make None (Some "1") None None)
              {[ "123e4567-e89b-12d3-a456-426614174000"
                 := Row "Bob" 30%float 7%float 8%float 7.5%float ]})
    as (page & limit & totalPages & _ & _ & _ & _ & _ & _ & _ & H & _).
  - vm_compute. reflexivity.
  - exact H.
Defined.

(** ** The start-up probe *)

Lemma testConnection_unfolded (connects : nat -> bool) :
  Startup.testConnection connects
  = if connects 0%nat then (true, [])
    else if connects 1%nat then (true, [2000])
    else if connects 2%nat then (true, [2000; 3000])
    else if connects 3%nat then (true, [2000; 3000; 4000])
    else if connects 4%nat then (true, [2000; 3000; 4000; 5000])
    else (false, [2000; 3000; 4000; 5000]).
Proof.
  unfold Startup.testConnection.
  change (Z.to_nat Startup.maxRetries) with 5%nat.
  cbn [Startup.loop].
  destruct (connects 0%nat); [reflexivity|].
  destruct (connects 1%nat); [reflexivity|].
  destruct (connects 2%nat); [reflexivity|].
  destruct (connects 3%nat); [reflexivity|].
  destruct (connects 4%nat); reflexivity.
Qed.

(** X13: [testConnection] makes at most five attempts and reports
    success exactly when one of them goes through.  It sleeps only
    after a failed attempt that is not the last, 2, 3, 4 and then 5
    seconds, so never more than 5 seconds at a time (the cap of 10
    seconds is not reached) and 14 seconds in all at most. *)
Theorem testConnection_bounded (connects : nat -> bool) :
  let result := Startup.testConnection connects in
  (fst result = true <-> exists k, (k < 5)%nat /\ connects k = true)
  /\ exists failed : nat,
       (failed <= 4)%nat
       /\ snd result = take failed [2000; 3000; 4000; 5000]
       /\ (forall k, (k < failed)%nat -> connects k = false)
       /\ (fst result = true -> connects failed = true)
       /\ (fst result = false -> failed = 4%nat /\ connects 4%nat = false)
       /\ Forall (fun d => 2000 <= d <= 5000) (snd result)
       /\ foldr Z.add 0 (snd result) <= 14000.
Proof.
  cbv zeta. rewrite testConnection_unfolded.
  assert (Hrange : Forall (fun d => 2000 <= d <= 5000)
                     [2000; 3000; 4000; 5000])
    by (repeat constructor; lia).
  destruct (connects 0%nat) eqn:H0;
    [|destruct (connects 1%nat) eqn:H1;
      [|destruct (connects 2%nat) eqn:H2;
        [|destruct (connects 3%nat) eqn:H3;
          [|destruct (connects 4%nat) eqn:H4]]]];
    cbn [fst snd].
  - split; [split; [exists 0%nat; split; [lia|exact H0]|reflexivity]|].
    exists 0%nat. split; [lia|]. split; [reflexivity|].
    split; [intros k Hk; lia|]. split; [auto|]. split; [discriminate|].
    split; [constructor|cbn; lia].
  - split; [split; [exists 1%nat; split; [lia|exact H1]|reflexivity]|].
    exists 1%nat. split; [lia|]. split; [reflexivity|].
    split; [intros [|k] Hk; [assumption|lia]|].
    split; [auto|]. split; [discriminate|].
    split; [exact (Forall_take _ 1%nat _ Hrange)|cbn; lia].
  - split; [split; [exists 2%nat; split; [lia|exact H2]|reflexivity]|].
    exists 2%nat. split; [lia|]. split; [reflexivity|].
    split; [intros [|[|k]] Hk; [assumption..|lia]|].
    split; [auto|]. split; [discriminate|].
    split; [exact (Forall_take _ 2%nat _ Hrange)|cbn; lia].
  - split; [split; [exists 3%nat; split; [lia|exact H3]|reflexivity]|].
    exists 3%nat. split; [lia|]. split; [reflexivity|].
    split; [intros [|[|[|k]]] Hk; [assumption..|lia]|].
    split; [auto|]. split; [discriminate|].
    split; [exact (Forall_take _ 3%nat _ Hrange)|cbn; lia].
  - split; [split; [exists 4%nat; split; [lia|exact H4]|reflexivity]|].
    exists 4%nat. split; [lia|]. split; [reflexivity|].
    split; [intros [|[|[|[|k]]]] Hk; [assumption..|lia]|].
    split; [auto|]. split; [discriminate|].
    split; [exact Hrange|cbn; lia].
  - split.
    + split; [discriminate|]. intros (k & Hk & Hc).
      destruct k as [|[|[|[|[|k]]]]]; [congruence..|lia].
    + exists 4%nat. split; [lia|]. split; [reflexivity|].
      split; [intros [|[|[|[|k]]]] Hk; [assumption..|lia]|].
      split; [discriminate|]. split; [auto|].
      split; [exact Hrange|cbn; lia].
Qed.

(** ** Integers among the doubles *)

Section AgeRange.

Lemma digits2_pos_bounds (m : positive) :
  2 ^ (Z.pos (digits2_pos m) - 1) <= Z.pos m < 2 ^ Z.pos (digits2_pos m).
Proof.
  induction m as [m IH|m IH|]; cbn [digits2_pos].
  - rewrite Pos2Z.inj_succ, Z.pow_succ_r by lia.
    replace (Z.succ (Z.pos (digits2_pos m)) - 1)
      with (Z.succ (Z.pos (digits2_pos m) - 1)) by lia.
    rewrite Z.pow_succ_r by lia. lia.
  - rewrite Pos2Z.inj_succ, Z.pow_succ_r by lia.
    replace (Z.succ (Z.pos (digits2_pos m)) - 1)
      with (Z.succ (Z.pos (digits2_pos m) - 1)) by lia.
    rewrite Z.pow_succ_r by lia. lia.
  - simpl. lia.
Qed.

Lemma sameFinite_eq (a b : spec_float) : Age.sameFinite a b = true -> a = b.
Proof.
  destruct a as [| | |s m e], b as [| | |s' m' e']; simpl; try discriminate.
  rewrite !andb_true_iff. intros [[Hs Hm] He].
  apply Bool.eqb_prop in Hs. apply Pos.eqb_eq in Hm. apply Z.eqb_eq in He.
  congruence.
Qed.

Lemma fromTo_In (lo count : nat) (n : Z) :
  Z.of_nat lo <= n < Z.of_nat lo + Z.of_nat count -> In n (Age.fromTo lo count).
Proof.
  intros H. unfold Age.fromTo. apply in_map_iff. exists (Z.to_nat n).
  split; [lia|]. apply in_seq. lia.
Qed.

Lemma ages_accepted (n : Z) : 1 <= n <= 150 -> Age.accepted n = true.
Proof.
  intros H.
  assert (Hall : forallb Age.accepted (Age.fromTo 1 150) = true)
    by (vm_compute; reflexivity).
  rewrite forallb_forall in Hall. apply Hall. apply fromTo_In. lia.
Qed.

Lemma age_is_integer (x : float) :
  JsNumber.isInteger x = true ->
  PrimFloat.leb x 0%float = false ->
  PrimFloat.ltb 150%float x = false ->
  exists n, 1 <= n <= 150 /\ Prim2SF x = Age.specOfInt n.
Proof.
  unfold JsNumber.isInteger.
  rewrite FloatAxioms.leb_spec, FloatAxioms.ltb_spec.
  change (Prim2SF 0%float) with (S754_zero false).
  change (Prim2SF 150%float) with (S754_finite false 5277655813324800 (-45)).
  pose proof (Prim2SF_valid x) as Hvalid.
  destruct (Prim2SF x) as [s|s| |s m e]; try discriminate.
  intros Hint Hpos Hmax.
  destruct s; [discriminate Hpos|]. clear Hpos.
  unfold SFltb in Hmax. cbn [SFcompare] in Hmax.
  assert (He : e <= -45
               /\ (e = -45 -> Z.pos m <= 5277655813324800)).
  { destruct (Z.compare_spec (-45) e) as [<-|Hlt|Hgt];
      [|discriminate Hmax|split; lia].
    split; [lia|]. intros _.
    destruct (Pos.compare_cont Eq 5277655813324800 m) eqn:Hc;
      [|discriminate Hmax|].
    + rewrite <- (Pos.compare_eq _ _ Hc). apply Z.le_refl.
    + apply Z.lt_le_incl. exact (proj1 (Pos.compare_gt_iff _ _) Hc). }
  destruct He as [He Hcap].
  destruct (Z.leb_spec 0 e) as [Hge|_]; [lia|]. cbn [orb] in Hint.
  apply Z.eqb_eq in Hint.
  cbn [valid_binary] in Hvalid. unfold bounded, canonical_mantissa in Hvalid.
  apply andb_true_iff in Hvalid as [Hcanon _]. apply Z.eqb_eq in Hcanon.
  unfold fexp, SpecFloat.emin in Hcanon.
  change (3 - emax - prec) with (-1074) in Hcanon.
  change prec with 53 in Hcanon.
  pose proof (digits2_pos_bounds m) as Hd.
  set (d := Z.pos (digits2_pos m)) in *.
  assert (Hd53 : d <= 53) by lia.
  assert (Hm53 : Z.pos m < 2 ^ 53).
  { eapply Z.lt_le_trans; [apply Hd|]. apply Z.pow_le_mono_r; lia. }
  assert (Hk : -52 <= e).
  { destruct (Z.le_gt_cases (-52) e) as [|Hlow]; [assumption|exfalso].
    assert (H2 : 2 ^ 53 <= 2 ^ (- e)) by (apply Z.pow_le_mono_r; lia).
    assert (Hpos2 : 0 < 2 ^ (- e)) by (apply Z.pow_pos_nonneg; lia).
    apply Z.mod_divide in Hint; [|lia].
    apply Z.divide_pos_le in Hint; lia. }
  assert (Hd' : d = 53) by lia.
  assert (Hm52 : 2 ^ 52 <= Z.pos m) by (rewrite Hd' in Hd; apply Hd).
  assert (Hdiv : Z.pos m = 2 ^ (- e) * (Z.pos m / 2 ^ (- e))).
  { apply Z_div_exact_full_2; [|exact Hint].
    apply Z.pow_nonzero; lia. }
  set (n := Z.pos m / 2 ^ (- e)) in *.
  exists n.
  assert (Hcases : e = -52 \/ e = -51 \/ e = -50 \/ e = -49 \/ e = -48
                   \/ e = -47 \/ e = -46 \/ e = -45) by lia.
  assert (Hshape : forall a, e = a - 52 -> 0 <= a ->
            2 ^ a <= n < 2 ^ (a + 1) ->
            S754_finite false m e = Age.specOfInt n).
  { intros a -> Ha Hn. unfold Age.specOfInt.
    rewrite (Z.log2_unique n a Ha Hn).
    replace (52 - a) with (- (a - 52)) by lia.
    rewrite Z.mul_comm, <- Hdiv. reflexivity. }
  clear Hcanon Hd Hd53 Hd' Hint.
  destruct Hcases as [->|[->|[->|[->|[->|[->|[->| ->]]]]]]];
    cbn in Hdiv, Hm52, Hm53;
    [ assert (Hn : 2 ^ 0 <= n < 2 ^ (0 + 1)) by (cbn; lia);
      split; [|apply (Hshape 0); [reflexivity|lia|exact Hn]]
    | assert (Hn : 2 ^ 1 <= n < 2 ^ (1 + 1)) by (cbn; lia);
      split; [|apply (Hshape 1); [reflexivity|lia|exact Hn]]
    | assert (Hn : 2 ^ 2 <= n < 2 ^ (2 + 1)) by (cbn; lia);
      split; [|apply (Hshape 2); [reflexivity|lia|exact Hn]]
    | assert (Hn : 2 ^ 3 <= n < 2 ^ (3 + 1)) by (cbn; lia);
      split; [|apply (Hshape 3); [reflexivity|lia|exact Hn]]
    | assert (Hn : 2 ^ 4 <= n < 2 ^ (4 + 1)) by (cbn; lia);
      split; [|apply (Hshape 4); [reflexivity|lia|exact Hn]]
    | assert (Hn : 2 ^ 5 <= n < 2 ^ (5 + 1)) by (cbn; lia);
      split; [|apply (Hshape 5); [reflexivity|lia|exact Hn]]
    | assert (Hn : 2 ^ 6 <= n < 2 ^ (6 + 1)) by (cbn; lia);
      split; [|apply (Hshape 6); [reflexivity|lia|exact Hn]]
    | assert (Hn : 2 ^ 7 <= n < 2 ^ (7 + 1)) by (cbn; lia);
      split; [|apply (Hshape 7); [reflexivity|lia|exact Hn]] ];
    cbn in Hn; lia.
Qed.

End AgeRange.

(** ** Accepted ages and exact averages *)

(** X14: the age check of [validateParticipantData] accepts a value
    exactly when the property is absent or its value is one of the
    integers 1 to 150. *)
Theorem age_accepted_iff (v : jsval) :
  ageErrors v = []
  <-> v = JUndefined
      \/ exists n, 1 <= n <= 150 /\ v = JNum (JsNumber.ofZ n).
Proof.
  split.
  - destruct v as [| |b|x|s|]; try discriminate; [left; reflexivity|].
    cbn [ageErrors].
    destruct (JsNumber.isInteger x) eqn:Hint; [|discriminate].
    destruct (PrimFloat.leb x 0%float) eqn:Hpos; [discriminate|].
    destruct (PrimFloat.ltb 150%float x) eqn:Hmax; [discriminate|].
    intros _. right.
    destruct (age_is_integer x Hint Hpos Hmax) as (n & Hn & Hx).
    exists n. split; [exact Hn|]. f_equal.
    pose proof (ages_accepted n Hn) as Hacc. unfold Age.accepted in Hacc.
    apply andb_true_iff in Hacc as [Hsame _].
    apply sameFinite_eq in Hsame.
    rewrite <- (SF2Prim_Prim2SF x), <- (SF2Prim_Prim2SF (JsNumber.ofZ n)).
    congruence.
  - intros [->|(n & Hn & ->)]; [reflexivity|].
    pose proof (ages_accepted n Hn) as Hacc. unfold Age.accepted in Hacc.
    apply andb_true_iff in Hacc as [_ Herr].
    destruct (ageErrors (JNum (JsNumber.ofZ n))); [reflexivity|discriminate].
Qed.

Lemma grades_exact :
  forallb (fun i => forallb (Grades.exact i) (Age.fromTo 0 101))
    (Age.fromTo 0 101) = true.
Proof. vm_compute. reflexivity. Qed.

(** X15: for scores with at most one decimal place, [i / 10] and
    [j / 10] between 0 and 10, both scores pass validation and
    [calculateFinalAverage] returns exactly the number that the decimal
    average, rounded to two places, denotes. *)
Theorem one_decimal_average_exact (i j : Z) :
  0 <= i <= 100 -> 0 <= j <= 100 ->
  scoreErrors "first_semester" (JNum (Grades.tenth i)) = []
  /\ scoreErrors "second_semester" (JNum (Grades.tenth j)) = []
  /\ calculateFinalAverage (Grades.tenth i) (Grades.tenth j)
     = inr (Decimal.number (Decimal.average2 (i # 10) (j # 10))).
Proof.
  intros Hi Hj.
  pose proof grades_exact as Hall.
  rewrite forallb_forall in Hall.
  specialize (Hall i (fromTo_In 0 101 i ltac:(lia))).
  rewrite forallb_forall in Hall.
  specialize (Hall j (fromTo_In 0 101 j ltac:(lia))).
  unfold Grades.exact in Hall.
  destruct (scoreErrors "first_semester" _); [|discriminate].
  destruct (scoreErrors "second_semester" _); [|discriminate].
  destruct (calculateFinalAverage _ _) as [e|v]; [discriminate|].
  apply FloatAxioms.Leibniz.eqb_spec in Hall. subst v. auto.
Qed.

Lemma one_decimal_average_exact_witness :
  calculateFinalAverage (Grades.tenth 85) (Grades.tenth 90)
  = inr (Decimal.number (Decimal.average2 (85 # 10) (90 # 10))).
Proof.
  refine (proj2 (proj2 (one_decimal_average_exact 85 90 _ _))); lia.
Defined.

(** ** Letter case of an id *)

Lemma lowerChar_idempotent (c : ascii) :
  JsString.lowerChar (JsString.lowerChar c) = JsString.lowerChar c.
Proof. destruct c as [[] [] [] [] [] [] [] []]; reflexivity. Qed.

Lemma hex_lowerChar (c : ascii) :
  Uuid.hex (JsString.lowerChar c) = Uuid.hex c.
Proof. destruct c as [[] [] [] [] [] [] [] []]; reflexivity. Qed.

Lemma version_lowerChar (c : ascii) :
  Uuid.version (JsString.lowerChar c) = Uuid.version c.
Proof. destruct c as [[] [] [] [] [] [] [] []]; reflexivity. Qed.

Lemma variant_lowerChar (c : ascii) :
  Uuid.variant (JsString.lowerChar c) = Uuid.variant c.
Proof. destruct c as [[] [] [] [] [] [] [] []]; reflexivity. Qed.

Lemma dash_lowerChar (c : ascii) :
  Uuid.dash (JsString.lowerChar c) = Uuid.dash c.
Proof. destruct c as [[] [] [] [] [] [] [] []]; reflexivity. Qed.

Lemma matches_lowerChar (classes : list (ascii -> bool)) (s : string) :
  Forall (fun cl => forall c, cl (JsString.lowerChar c) = cl c) classes ->
  Uuid.matches classes (JsString.mapChars JsString.lowerChar s)
  = Uuid.matches classes s.
Proof.
  intros Hall. revert s.
  induction Hall as [|cl classes Hcl _ IH]; intros [|c s];
    cbn [Uuid.matches JsString.mapChars]; try reflexivity.
  rewrite Hcl, IH. reflexivity.
Qed.

Lemma uuid_idempotent (id : string) : Sql.uuid (Sql.uuid id) = Sql.uuid id.
Proof.
  unfold Sql.uuid. induction id as [|c id IH];
    cbn [JsString.mapChars]; [reflexivity|].
  rewrite lowerChar_idempotent, IH. reflexivity.
Qed.

Lemma test_uuid (id : string) : Uuid.test (Sql.uuid id) = Uuid.test id.
Proof.
  apply matches_lowerChar. unfold Uuid.uuidRegex. simpl.
  repeat (constructor;
          [first [exact hex_lowerChar | exact version_lowerChar
                 | exact variant_lowerChar | exact dash_lowerChar]|]).
  constructor.
Qed.

Lemma validateUUID_uuid (id : string) :
  validateUUID (Sql.uuid id) = validateUUID id.
Proof.
  unfold validateUUID. rewrite test_uuid.
  destruct id as [|c id]; reflexivity.
Qed.

(** X16: the letter case of the hexadecimal digits of an id is
    immaterial: the id with its letters in lower case passes
    [validateUUID] exactly when the id does, and the routes that take
    an id answer both with the same response and leave the same
    table. *)
Theorem id_letter_case_immaterial (id : string) (b : Body.t) (db : table) :
  Uuid.test (Sql.uuid id) = Uuid.test id
  /\ response_of (getParticipant (Sql.uuid id) db)
     = response_of (getParticipant id db)
  /\ response_of (updateParticipant (Sql.uuid id) b db)
     = response_of (updateParticipant id b db)
  /\ table_of (updateParticipant (Sql.uuid id) b db)
     = table_of (updateParticipant id b db)
  /\ response_of (deleteParticipant (Sql.uuid id) db)
     = response_of (deleteParticipant id db)
  /\ table_of (deleteParticipant (Sql.uuid id) db)
     = table_of (deleteParticipant id db).
Proof.
  split; [apply test_uuid|].
  unfold getParticipant, updateParticipant, deleteParticipant.
  rewrite validateUUID_uuid.
  destruct (validateUUID id) as [r|]; [repeat split|].
  unfold updateChecked, Sql.selectById, Sql.deleteReturning, Sql.update,
    Sql.selectIdByLowerNameExcept.
  rewrite !uuid_idempotent.
  destruct (db !! Sql.uuid id) as [current|];
    [|destruct (validateParticipantData b); repeat split].
  split; [reflexivity|].
  split; [|split; [|split; reflexivity]].
  - destruct (validateParticipantData b); [|reflexivity].
    cbv zeta.
    destruct (_ && negb _); [reflexivity|].
    destruct (_ && _); [reflexivity|].
    destruct (calculateFinalAverage _ _); [reflexivity|].
    destruct (negb _); [reflexivity|].
    destruct (Sql.holdersOf _ _ _); reflexivity.
  - destruct (validateParticipantData b); [|reflexivity].
    cbv zeta.
    destruct (_ && negb _); [reflexivity|].
    destruct (_ && _); [reflexivity|].
    destruct (calculateFinalAverage _ _); [reflexivity|].
    destruct (negb _); [reflexivity|].
    destruct (Sql.holdersOf _ _ _); reflexivity.
Qed.

(** ** Stored rows stay valid *)

Section StoredRows.
Import JsString.

Lemma trimStart_fixed (s : string) :
  isWs (firstChar s) = false -> trimStart s = s.
Proof. destruct s as [|c s]; simpl; [reflexivity|]. intros ->. reflexivity. Qed.

Lemma trimEnd_fixed (s : string) :
  isWs (lastChar s) = false -> trimEnd s = s.
Proof.
  induction s as [|c s IH]; [reflexivity|].
  destruct s as [|d t].
  - simpl. intros ->. reflexivity.
  - intros H. change (lastChar (String c (String d t)))
      with (lastChar (String d t)) in H.
    change (trimEnd (String c (String d t)))
      with (match trimEnd (String d t) with
            | EmptyString =>
                if isWhiteSpace c then EmptyString else String c EmptyString
            | u => String c u
            end).
    rewrite (IH H). reflexivity.
Qed.

Lemma trim_idempotent (s : string) : trim (trim s) = trim s.
Proof.
  pose proof (trim_surroundingWhitespace s) as H.
  unfold surroundingWhitespace in H. apply orb_false_iff in H as [Hf Hl].
  unfold trim at 1. rewrite (trimStart_fixed _ Hf). apply trimEnd_fixed, Hl.
Qed.

End StoredRows.

Lemma nameErrors_trim (name : string) :
  nameErrors (JStr name) = [] -> nameErrors (JStr (JsString.trim name)) = [].
Proof. cbn [nameErrors]. rewrite trim_idempotent. auto. Qed.

Lemma validRows_create newId b db :
  validRows db -> validRows (table_of (createParticipant newId b db)).
Proof.
  intros H j r Hj. apply createParticipant_rows in Hj as [Hj|[Hs Hr]];
    [exact (H j r Hj)|].
  destruct (createParticipant_201 newId b db Hs)
    as (name & years & first & second & average & -> & Hv & _ & _ & _ & Ho).
  rewrite Ho in Hr. cbv zeta in Hr. unfold rowOf in Hr. simpl in Hr.
  injection Hr as _ <-.
  apply validateParticipantData_nil in Hv as (Hn & Ha & Hf & Hsd).
  cbn [Body.full_name Body.age Body.first_semester Body.second_semester]
    in Hn, Ha, Hf, Hsd.
  apply validateParticipantData_nil.
  cbn [Body.full_name Body.age Body.first_semester Body.second_semester
       full_name age first_semester second_semester].
  split; [exact (nameErrors_trim name Hn)|]. auto.
Qed.

Lemma validRows_update id b db :
  validRows db -> validRows (table_of (updateParticipant id b db)).
Proof.
  intros H j r Hj. apply updateParticipant_rows in Hj as [Hj|[Hs Hr]];
    [exact (H j r Hj)|].
  destruct (updateParticipant_200 id b db Hs) as (_ & Hv & _).
  destruct (updated_row _ _ _ _ _ Hs Hr)
    as (_ & _ & current & Hl & Hname & Hage & Hfirst & Hsecond & _).
  destruct (checked_faithful b Hv) as (Fn & Fa & Ff & Fs).
  apply validateParticipantData_nil in Hv as (Hn & Ha & Hf & Hsd).
  pose proof (H _ current Hl) as Hc.
  apply validateParticipantData_nil in Hc as (Cn & Ca & Cf & Cs).
  cbn [Body.full_name Body.age Body.first_semester Body.second_semester]
    in Cn, Ca, Cf, Cs.
  apply validateParticipantData_nil.
  cbn [Body.full_name Body.age Body.first_semester Body.second_semester].
  rewrite Hname, Hage, Hfirst, Hsecond.
  rewrite Fn in Hn. rewrite Fa in Ha. rewrite Ff in Hf. rewrite Fs in Hsd.
  destruct (Checked.full_name (checked b)), (Checked.age (checked b)),
    (Checked.first_semester (checked b)),
    (Checked.second_semester (checked b));
    cbn [default ofString ofNumber] in *;
    (split; [auto using nameErrors_trim|auto]).
Qed.

Lemma validRows_delete id db :
  validRows db -> validRows (table_of (deleteParticipant id db)).
Proof.
  intros H j r Hj. apply deleteParticipant_rows in Hj. exact (H j r Hj).
Qed.

(** X17: whatever requests the service has handled, every row of its
    table would pass [validateParticipantData] if sent back as a body,
    and its name is one that trimming leaves alone; merging the
    properties of an update over a stored row does not break this. *)
Theorem stored_rows_stay_valid (db : table) (id : string) (r : row) :
  reachable db -> db !! id = Some r ->
  validRow r /\ JsString.trim (full_name r) = full_name r.
Proof.
  intros Hreach Hl. split.
  - revert id r Hl.
    induction Hreach as [|newId b db _ IH|id' b db _ IH|id' db _ IH].
    + intros id r Hl. rewrite lookup_empty in Hl. discriminate.
    + exact (validRows_create newId b db IH).
    + exact (validRows_update id' b db IH).
    + exact (validRows_delete id' db IH).
  - destruct (reachable_invariants db Hreach) as (Ht & _).
    specialize (Ht id r Hl). unfold JsString.surroundingWhitespace in Ht.
    apply orb_false_iff in Ht as [Hf Hlast]. unfold JsString.trim.
    rewrite (trimStart_fixed _ Hf).
    apply trimEnd_fixed, Hlast.
Qed.

Lemma stored_rows_stay_valid_witness :
  validRow (Row "Ana" 20%float 9%float 8%float 8.5%float).
Proof.
  refine (proj1 (stored_rows_stay_valid
            (table_of
               (createParticipant "123e4567-e89b-12d3-a456-426614174001"
                  (Body.make (JStr " Ana ") (JNum 20%float) (JNum 9%float)
                     (JNum 8%float)) ∅))
            "123e4567-e89b-12d3-a456-426614174001"
            (Row "Ana" 20%float 9%float 8%float 8.5%float) _ _)).
  - apply reachable_create, reachable_empty.
  - vm_compute. reflexivity.
Defined.
